(** * BOXY reader (mne/io/boxy/boxy.py): a shallow embedding

    The development follows the reader top-down:
    - [Py]       the Python and NumPy primitives the reader leans on
                 (substring test, [rsplit], [int], [str], [repr], slices,
                 [range], [arange], indexing with wrap-around);
    - [Re]       the three regular expressions of the reader, each written
                 as the matcher its backtracking semantics amounts to;
    - [Eff]      exceptions and the I/O trace (console, [glob], [open]);
    - [Boxy]     [RawBOXY.__init__] and [RawBOXY._read_segment_file];
    - the properties of the reader.

    Strings are sequences of 8-bit characters; the character classes \w and \d
    are the ASCII ones.  Floating point values are kept abstract
    (class [FloatModel]): the reader only parses, copies and truncates them. *)

From Stdlib Require Import String Ascii List ZArith Lia Bool Arith.
From Stdlib Require Import DecimalString DecimalNat DecimalZ.
Import ListNotations.

Local Open Scope string_scope.
Local Open Scope list_scope.

(* ================================================================= *)
(** ** Python primitives *)

Module Py.

(** [needle in hay] on strings. *)
Fixpoint contains (needle hay : string) : bool :=
  String.prefix needle hay ||
  match hay with
  | EmptyString => false
  | String _ t => contains needle t
  end.

(** [s.rsplit(' ')]: split at every space (no [maxsplit] is given, so the
    direction of the split does not matter). *)
Fixpoint rsplit_space (s : string) : list string :=
  match s with
  | EmptyString => [EmptyString]
  | String c t =>
      if Ascii.eqb c " "%char then EmptyString :: rsplit_space t
      else match rsplit_space t with
           | [] => [String c EmptyString]
           | p :: ps => String c p :: ps
           end
  end.

(** [l[0]] on the result of a split, which is never empty. *)
Definition item0 (l : list string) : string := hd EmptyString l.

Definition is_digit (c : ascii) : bool :=
  let n := nat_of_ascii c in (48 <=? n)%nat && (n <=? 57)%nat.

Definition is_alpha (c : ascii) : bool :=
  let n := nat_of_ascii c in
  ((65 <=? n)%nat && (n <=? 90)%nat) || ((97 <=? n)%nat && (n <=? 122)%nat).

(** \w *)
Definition is_word (c : ascii) : bool :=
  is_digit c || is_alpha c || Ascii.eqb c "_"%char.

(** Characters stripped by [int()] around its argument. *)
Definition is_space (c : ascii) : bool :=
  let n := nat_of_ascii c in
  ((9 <=? n)%nat && (n <=? 13)%nat) || ((28 <=? n)%nat && (n <=? 32)%nat).

Definition digit_val (c : ascii) : Z := Z.of_nat (nat_of_ascii c) - 48.

(** Longest prefix whose characters satisfy [p], and the rest. *)
Fixpoint span (p : ascii -> bool) (s : string) : string * string :=
  match s with
  | EmptyString => (EmptyString, EmptyString)
  | String c t =>
      if p c then let (a, b) := span p t in (String c a, b)
      else (EmptyString, s)
  end.

Definition is_empty (s : string) : bool :=
  match s with EmptyString => true | _ => false end.

Fixpoint lstrip (s : string) : string :=
  match s with
  | String c t => if is_space c then lstrip t else s
  | EmptyString => EmptyString
  end.

Fixpoint string_rev (s : string) : string :=
  match s with
  | EmptyString => EmptyString
  | String c t => string_rev t ++ String c EmptyString
  end.

Definition strip (s : string) : string :=
  string_rev (lstrip (string_rev (lstrip s))).

(** Decimal digits with single underscores between them, as [int()] accepts. *)
Fixpoint int_digits (acc : Z) (after_digit : bool) (s : string) : option Z :=
  match s with
  | EmptyString => if after_digit then Some acc else None
  | String c t =>
      if is_digit c then int_digits (10 * acc + digit_val c) true t
      else if Ascii.eqb c "_"%char
           then if after_digit then int_digits acc false t else None
           else None
  end.

(** [int(s)] for a string [s], base 10; [None] stands for [ValueError]. *)
Definition int (s : string) : option Z :=
  match strip s with
  | String "+" t => int_digits 0 false t
  | String "-" t => option_map Z.opp (int_digits 0 false t)
  | t => int_digits 0 false t
  end.

(** [str(n)] for integers. *)
Definition str_nat (n : nat) : string := NilEmpty.string_of_uint (Nat.to_uint n).
Definition str_Z (z : Z) : string := NilEmpty.string_of_int (Z.to_int z).

(** [range(n)] *)
Definition range (n : Z) : list nat := seq 0 (Z.to_nat n).

(** [l[i]] for a non-negative index; [None] stands for [IndexError]. *)
Definition get {A} (l : list A) (i : nat) : option A := nth_error l i.

(** Position an integer index denotes in a sequence of length [len]:
    negative indices count from the end. *)
Definition index_pos (len : nat) (i : Z) : option nat :=
  if (0 <=? i)%Z then
    if (i <? Z.of_nat len)%Z then Some (Z.to_nat i) else None
  else
    if (- Z.of_nat len <=? i)%Z then Some (Z.to_nat (Z.of_nat len + i)) else None.

(** [l[-1]] *)
Definition last_item {A} (l : list A) : option A :=
  match index_pos (length l) (-1) with
  | Some k => nth_error l k
  | None => None
  end.

(** [l[0:n]] *)
Definition slice_to {A} (l : list A) (n : Z) : list A :=
  if (0 <=? n)%Z then firstn (Z.to_nat n) l
  else firstn (Z.to_nat (Z.of_nat (length l) + n)) l.

(** [l[::k]] for a positive step: every [k]-th element from the first. *)
Fixpoint every_nth {A} (k skip : nat) (l : list A) : list A :=
  match l with
  | [] => []
  | x :: t =>
      match skip with
      | O => x :: every_nth k (k - 1) t
      | S j => every_nth k j t
      end
  end.

(** [l.index(x)]: position of the first occurrence. *)
Fixpoint index_of (x : string) (l : list string) : option nat :=
  match l with
  | [] => None
  | y :: t => if String.eqb y x then Some O else option_map S (index_of x t)
  end.

(** [x in l] on a list of strings. *)
Definition mem (x : string) (l : list string) : bool :=
  existsb (String.eqb x) l.

(** [l.sort()] on strings: insertion sort on the lexicographic order. *)
Fixpoint insert_sorted (x : string) (l : list string) : list string :=
  match l with
  | [] => [x]
  | y :: t => if String.leb x y then x :: l else y :: insert_sorted x t
  end.

Definition sort (l : list string) : list string :=
  fold_right insert_sorted [] l.

(** [len(set(l))] on integers. *)
Definition distinct (l : list Z) : nat := length (nodup Z.eq_dec l).

(** [np.arange(a, b, step)] on integers, for a non-zero step. *)
Definition arange (a b step : Z) : list Z :=
  map (fun k => (a + Z.of_nat k * step)%Z)
      (seq 0 (Z.to_nat (- ((a - b) / step)))).

Definition hex_digit (n : nat) : ascii :=
  if (n <? 10)%nat then ascii_of_nat (48 + n) else ascii_of_nat (87 + n).

Definition squote : ascii := "'"%char.
Definition dquote : ascii := "034"%char.
Definition backslash : ascii := "\"%char.

(** Body of [repr(s)] with [q] the quote chosen. *)
Fixpoint repr_body (q : ascii) (s : string) : string :=
  match s with
  | EmptyString => EmptyString
  | String c t =>
      let n := nat_of_ascii c in
      let esc x := String backslash (String x EmptyString) in
      (if Ascii.eqb c backslash then esc backslash
       else if Ascii.eqb c q then esc q
       else if (n =? 9)%nat then esc "t"%char
       else if (n =? 10)%nat then esc "n"%char
       else if (n =? 13)%nat then esc "r"%char
       else if (n <? 32)%nat || (n =? 127)%nat
            then String backslash
                   (String "x" (String (hex_digit (n / 16))
                                  (String (hex_digit (n mod 16)) EmptyString)))
            else String c EmptyString) ++ repr_body q t
  end.

(** [repr(s)] for a string. *)
Definition repr (s : string) : string :=
  let q := if contains (String squote EmptyString) s
              && negb (contains (String dquote EmptyString) s)
           then dquote else squote in
  String q (repr_body q s ++ String q EmptyString).

(** [str(l)] for a list of strings. *)
Definition str_list (l : list string) : string :=
  "[" ++ String.concat ", " (map repr l) ++ "]".

End Py.

(* ================================================================= *)
(** ** The regular expressions of the reader *)

Module Re.

(** Non-overlapping matches from left to right ([re.findall]) of a pattern
    whose matches are never empty: [match_at s] is the text matched at the
    start of [s]; [skip] counts the characters of the current match still to
    be passed over. *)
Fixpoint findall_from (match_at : string -> option string) (skip : nat)
         (s : string) : list string :=
  match s with
  | EmptyString => []
  | String _ t =>
      match skip with
      | S k => findall_from match_at k t
      | O =>
          match match_at s with
          | Some m => m :: findall_from match_at (String.length m - 1) t
          | None => findall_from match_at 0 t
          end
      end
  end.

Definition findall (match_at : string -> option string) (s : string) :=
  findall_from match_at 0 s.

(** \d*\.?\d+ anchored at the start: all the digits, a dot and digits when
    digits follow the dot; otherwise the leading digits alone. *)
Definition match_unsigned (s : string) : option string :=
  let (ds, r) := Py.span Py.is_digit s in
  let whole := if Py.is_empty ds then None else Some ds in
  match r with
  | String "." r' =>
      let (fs, _) := Py.span Py.is_digit r' in
      if Py.is_empty fs then whole else Some (ds ++ "." ++ fs)%string
  | _ => whole
  end.

(** [-+]?\d*\.?\d+ *)
Definition match_number (s : string) : option string :=
  match s with
  | String c t =>
      if Ascii.eqb c "-"%char || Ascii.eqb c "+"%char
      then option_map (String c) (match_unsigned t)
      else match_unsigned s
  | EmptyString => None
  end.

(** \w+\-\w+|\w+\-\d+|\w+ : a word, extended over a hyphen when a word
    follows it (the second alternative never matches where the first fails). *)
Definition match_colname (s : string) : option string :=
  let (w, r) := Py.span Py.is_word s in
  if Py.is_empty w then None
  else match r with
       | String "-" r' =>
           let (w2, _) := Py.span Py.is_word r' in
           if Py.is_empty w2 then Some w else Some (w ++ "-" ++ w2)%string
       | _ => Some w
       end.

(** \w\.\d+ *)
Definition match_montage (s : string) : option string :=
  match s with
  | String c (String "." t) =>
      if Py.is_word c then
        let (ds, _) := Py.span Py.is_digit t in
        if Py.is_empty ds then None else Some (String c (String "." ds))
      else None
  | _ => None
  end.

End Re.

(* ================================================================= *)
(** ** Exceptions and the I/O trace *)

Module Eff.

(** The exceptions the reader can end with.  [UndefinedValue] marks a use of
    the number stored in a cell that [np.pad(..., mode='empty')] left
    uninitialised. *)
Inductive exn :=
| RuntimeError (msg : string)
| IndexError
| ValueError
| ZeroDivisionError
| NameError
| FileNotFoundError
| KeyError
| UndefinedValue.

Inductive res (A : Type) :=
| Raise (e : exn)
| Ok (a : A).
Arguments Raise {A} e.
Arguments Ok {A} a.

(** What the outside world sees of a call. *)
Inductive event :=
| LogInfo (msg : string)
| Print (line : string)
| Glob (pattern : string)
| Open (path : string).

Record io (A : Type) := IO { trace : list event; outcome : res A }.
Arguments IO {A} trace outcome.
Arguments trace {A} i.
Arguments outcome {A} i.

Class Monad (m : Type -> Type) := {
  ret : forall {A}, A -> m A;
  bind : forall {A B}, m A -> (A -> m B) -> m B
}.

#[export] Instance res_monad : Monad res := {
  ret := fun A a => Ok a;
  bind := fun A B c k => match c with Raise e => Raise e | Ok a => k a end
}.

#[export] Instance io_monad : Monad io := {
  ret := fun A a => IO [] (Ok a);
  bind := fun A B c k =>
    match c with
    | IO t (Raise e) => IO t (Raise e)
    | IO t (Ok a) => match k a with IO t' o => IO (t ++ t') o end
    end
}.

Definition of_option {A} (e : exn) (o : option A) : res A :=
  match o with Some a => Ok a | None => Raise e end.

Definition lift {A} (r : res A) : io A := IO [] r.
Definition emit (ev : event) : io unit := IO [ev] (Ok tt).

(** [print(a, b, ...)]: the arguments separated by one space. *)
Definition print (args : list string) : io unit :=
  emit (Print (String.concat " " args)).

(** [for x in xs: body], the body acting on the loop's variables [s]. *)
Fixpoint for_each {m} `{Monad m} {X S : Type} (xs : list X)
         (body : X -> S -> m S) (s : S) : m S :=
  match xs with
  | [] => ret s
  | x :: rest => bind (body x s) (for_each rest body)
  end.

(** [[f(x) for x in l]] *)
Fixpoint map_res {X Y : Type} (f : X -> res Y) (l : list X) : res (list Y) :=
  match l with
  | [] => Ok []
  | x :: rest =>
      match f x with
      | Raise e => Raise e
      | Ok y => match map_res f rest with
                | Raise e => Raise e
                | Ok ys => Ok (y :: ys)
                end
      end
  end.

(** [enumerate(l, n)] *)
Definition enumerate {A} (n : nat) (l : list A) : list (nat * A) :=
  combine (seq n (length l)) l.

End Eff.

Import Eff.

Notation "x <- c ;; k" := (bind c (fun x => k))
  (at level 61, c at next level, right associativity).
Notation "c ;; k" := (bind c (fun _ => k))
  (at level 61, right associativity).

(** Floating point numbers, as far as the reader uses them: [float(s)] on a
    string ([None] for [ValueError]), [int(x)] truncating a float ([None] when
    it raises, on a NaN or an infinity), and the zero of [np.zeros]. *)
Class FloatModel := {
  float : Type;
  float_of_string : string -> option float;
  int_of_float : float -> option Z;
  float_zero : float
}.

(** The file system as the reader sees it: what [glob.glob] returns for a
    pattern, and the lines of a file (each with its line terminator) when it
    can be opened. *)
Record env := Env {
  glob_matches : string -> list string;
  file_lines : string -> option (list string)
}.

(* ================================================================= *)
(** ** The reader *)

Module Boxy.

Section Data.

(** The type of floating point numbers. *)
Variable float : Type.

(** The two row layouts, the strings ['parsed'] and ['non-parsed']. *)
Inductive layout := Parsed | NonParsed.

(** The lists [__init__] fills while it scans the headers. *)
Record header := Header {
  detect_num : list Z;
  source_num : list Z;
  aux_num : list Z;
  ccf_ha : list float;
  srate : list float;
  start_line : list Z;
  end_line : list Z;
  filetype : list layout
}.

Inductive chan_type := fnirs_fd_phase | fnirs_cw_amplitude.

(** The arguments of [create_info]. *)
Record info := Info {
  ch_names : list string;
  sfreq : float;
  ch_types : list chan_type
}.

(** The dictionary [raw_extras] kept with the recording.  Its entries
    [source_num], [detect_num], [start_line], [end_line] and [filetype] are
    the lists of the header scan, held here as the scan left them
    ([scanned]); the segment reader reads no other list of it. *)
Record raw_extras := RawExtras {
  scanned : header;
  files : list string;
  montages : list string;
  blocks : list (list string);
  data_types : list string
}.

(** The arguments of [BaseRaw.__init__]. *)
Record recording := Recording {
  rec_info : info;
  rec_preload : bool;
  filenames : list string;
  first_samps : list Z;
  last_samps : list Z;
  extras : list raw_extras
}.

(** An entry of a float array: a number, or what [np.pad(..., mode='empty')]
    left there. *)
Inductive cell := Num (x : float) | Uninit.

End Data.

Arguments Header {float}.
Arguments detect_num {float} h.
Arguments source_num {float} h.
Arguments aux_num {float} h.
Arguments ccf_ha {float} h.
Arguments srate {float} h.
Arguments start_line {float} h.
Arguments end_line {float} h.
Arguments filetype {float} h.
Arguments Info {float}.
Arguments ch_names {float} i.
Arguments sfreq {float} i.
Arguments ch_types {float} i.
Arguments RawExtras {float}.
Arguments scanned {float} r.
Arguments files {float} r.
Arguments montages {float} r.
Arguments blocks {float} r.
Arguments data_types {float} r.
Arguments Recording {float}.
Arguments rec_info {float} r.
Arguments rec_preload {float} r.
Arguments filenames {float} r.
Arguments first_samps {float} r.
Arguments last_samps {float} r.
Arguments extras {float} r.
Arguments Num {float} x.
Arguments Uninit {float}.

Section Reader.

Context {FM : FloatModel}.

Local Abbreviation header := (header float).
Local Abbreviation info := (info float).
Local Abbreviation raw_extras := (raw_extras float).
Local Abbreviation recording := (recording float).
Local Abbreviation cell := (cell float).

(** [l[i] = x] *)
Fixpoint set_item {A} (l : list A) (i : nat) (x : A) : option (list A) :=
  match l, i with
  | [], _ => None
  | _ :: t, O => Some (x :: t)
  | y :: t, S j => option_map (cons y) (set_item t j x)
  end.

(** [int(i_line.rsplit(' ')[0])] and [float(i_line.rsplit(' ')[0])] *)
Definition leading_int (i_line : string) : res Z :=
  of_option ValueError (Py.int (Py.item0 (Py.rsplit_space i_line))).

Definition leading_float (i_line : string) : res float :=
  of_option ValueError (float_of_string (Py.item0 (Py.rsplit_space i_line))).

(** The [if]/[elif] chain on the labels of a header line. *)
Definition scan_label (file_num : nat) (line_num : Z) (i_line : string)
           (h : header) : res header :=
  let 'Header dn sn an cc sr sl el ft := h in
  if Py.contains "Detector Channels" i_line then
    n <- leading_int i_line ;; ret (Header (dn ++ [n]) sn an cc sr sl el ft)
  else if Py.contains "External MUX Channels" i_line then
    n <- leading_int i_line ;; ret (Header dn (sn ++ [n]) an cc sr sl el ft)
  else if Py.contains "Auxiliary Channels" i_line then
    n <- leading_int i_line ;; ret (Header dn sn (an ++ [n]) cc sr sl el ft)
  else if Py.contains "Waveform (CCF) Frequency (Hz)" i_line then
    x <- leading_float i_line ;; ret (Header dn sn an (cc ++ [x]) sr sl el ft)
  else if Py.contains "Update Rate (Hz)" i_line then
    x <- leading_float i_line ;; ret (Header dn sn an cc (sr ++ [x]) sl el ft)
  else if Py.contains "Updata Rate (Hz)" i_line then
    x <- leading_float i_line ;; ret (Header dn sn an cc (sr ++ [x]) sl el ft)
  else if Py.contains "#DATA BEGINS" i_line then
    ret (Header dn sn an cc sr (sl ++ [line_num + 2]%Z) el ft)
  else if Py.contains "exmux" i_line then
    ft' <- of_option IndexError (set_item ft file_num NonParsed) ;;
    ret (Header dn sn an cc sr sl el ft')
  else ret h.

(** The loop over the lines of one file, [line_num] counting from 1; it
    stops at the first line that contains the terminator. *)
Fixpoint scan_lines (file_num : nat) (line_num : Z) (lines : list string)
         (h : header) : res header :=
  match lines with
  | [] => ret h
  | i_line :: rest =>
      if Py.contains "#DATA ENDS" i_line then
        let 'Header dn sn an cc sr sl el ft := h in
        ret (Header dn sn an cc sr sl (el ++ [line_num - 1]%Z) ft)
      else
        h' <- scan_label file_num line_num i_line h ;;
        scan_lines file_num (line_num + 1) rest h'
  end.

(** [with open(i_file, 'r') as data] *)
Definition open (e : env) (path : string) : io (list string) :=
  emit (Open path) ;; lift (of_option FileNotFoundError (file_lines e path)).

(** The loop over the files. *)
Definition scan_files (e : env) (files : list string) : io header :=
  for_each (enumerate 0 files)
    (fun '(file_num, i_file) h =>
       lines <- open e i_file ;; lift (scan_lines file_num 1 lines h))
    (Header [] [] [] [] [] [] [] (map (fun _ => Parsed) files)).

(** [s[0]] and [s[2:]] on a match of the montage pattern. *)
Definition char0 (s : string) : string := String.substring 0 1 s.
Definition from2 (s : string) : string :=
  String.substring 2 (String.length s - 2) s.

(** Montage names and, per montage, block names, from the file names. *)
Definition montage_blocks (files : list string)
  : list string * list (list string) :=
  let mtgs := Re.findall Re.match_montage (Py.str_list files) in
  let mtg_names :=
    fold_left (fun acc i_mtg =>
                 if Py.mem (char0 i_mtg) acc then acc
                 else acc ++ [char0 i_mtg]) mtgs [] in
  let blk_names :=
    map (fun i_mtg =>
           map from2
               (filter (fun ii_mtg => String.eqb (char0 ii_mtg) i_mtg) mtgs))
        mtg_names in
  (mtg_names, blk_names).

(** ['S' + str(src_num + 1) + '_D' + str(det_num + 1) + '_' + str(mtg_num + 1)] *)
Definition label (src_num det_num mtg_num : nat) : string :=
  ("S" ++ Py.str_nat (src_num + 1) ++ "_D" ++ Py.str_nat (det_num + 1)
       ++ "_" ++ Py.str_nat (mtg_num + 1))%string.

(** [l[::len(blk_names[0])][mtg_num]] *)
Definition per_montage (blk_names : list (list string)) (l : list Z)
           (mtg_num : nat) : res Z :=
  b0 <- of_option IndexError (Py.get blk_names 0) ;;
  if (length b0 =? 0)%nat then Raise ValueError
  else of_option IndexError
         (Py.get (Py.every_nth (length b0) 0 l) mtg_num).

(** The channel labels: montages, then detectors, then sources. *)
Definition boxy_labels (h : header) (mtg_names : list string)
           (blk_names : list (list string)) : res (list string) :=
  for_each (enumerate 0 mtg_names)
    (fun '(mtg_num, _) labels =>
       dn <- per_montage blk_names (detect_num h) mtg_num ;;
       for_each (Py.range dn)
         (fun det_num labels =>
            sn <- per_montage blk_names (source_num h) mtg_num ;;
            for_each (Py.range sn)
              (fun src_num labels =>
                 ret (labels ++ [label src_num det_num mtg_num]))
              labels)
         labels)
    [].

(** [[end_line[i] - start_line[i] for i, _ in enumerate(start_line)]] *)
Definition data_lengths (h : header) : res (list Z) :=
  for_each (enumerate 0 (start_line h))
    (fun '(i_line, _) acc =>
       e <- of_option IndexError (Py.get (end_line h) i_line) ;;
       s <- of_option IndexError (Py.get (start_line h) i_line) ;;
       ret (acc ++ [e - s]%Z))
    [].

Definition same_or_different (what : string) (l : list Z) : io unit :=
  if (Py.distinct l =? 1)%nat then print [(what ++ " the same!")%string]
  else print [(what ++ " different!")%string].

(** [RawBOXY.__init__] from the end of the header loop on: labels, channel
    types, the consistency messages, the sample bounds.  The result is the
    call of [BaseRaw.__init__] it ends with; [create_info] and
    [BaseRaw.__init__] belong to the host library. *)
Definition finish_init (fname datatype : string) (preload : bool)
           (files_key mtg_names : list string) (blk_names : list (list string))
           (data_types : list string) (h : header) : io recording :=
  labels <- lift (boxy_labels h mtg_names blk_names) ;;
  let chan_type :=
    if String.eqb datatype "Ph" then fnirs_fd_phase else fnirs_cw_amplitude in
  let ch_types := map (fun _ => chan_type) labels in
  srate0 <- lift (of_option IndexError (Py.get (srate h) 0)) ;;
  let info := Info labels srate0 ch_types in
  let raw_extras := RawExtras h files_key mtg_names blk_names data_types in
  same_or_different "Start lines" (start_line h) ;;
  same_or_different "End lines" (end_line h) ;;
  data_length <- lift (data_lengths h) ;;
  (if (Py.distinct data_length =? 1)%nat then print ["Data sizes are the same!"]
   else print ["Data sizes are different!"]) ;;
  start0 <- lift (of_option IndexError (Py.get (start_line h) 0)) ;;
  print ["Start Line: "; Py.str_Z start0] ;;
  end0 <- lift (of_option IndexError (Py.get (end_line h) 0)) ;;
  print ["End Line: "; Py.str_Z end0] ;;
  print ["Original Difference: "; Py.str_Z (end0 - start0)] ;;
  print ["New first_samps: "; Py.str_Z start0] ;;
  let diff := (end0 - start0)%Z in
  filetype0 <- lift (of_option IndexError (Py.get (filetype h) 0)) ;;
  blk0 <- lift (of_option IndexError (Py.get blk_names 0)) ;;
  last_samps <-
    match filetype0 with
    | NonParsed =>
        source0 <- lift (of_option IndexError (Py.get (source_num h) 0)) ;;
        if (source0 =? 0)%Z then lift (Raise ZeroDivisionError)
        else ret ((diff * Z.of_nat (length blk0)) / source0)%Z
    | Parsed => ret (diff * Z.of_nat (length blk0))%Z
    end ;;
  let first_samps := 0%Z in
  print ["New last_samps: "; Py.str_Z last_samps] ;;
  print ["New Difference: "; Py.str_Z (last_samps - first_samps)] ;;
  ret (Recording info preload [fname] [first_samps] [last_samps - 1]%Z
                 [raw_extras]).

(** [RawBOXY.__init__]: file discovery, the check of the data type, the
    montages and blocks, the header loop, and the rest. *)
Definition init (e : env) (fname datatype : string) (multi_file preload : bool)
  : io recording :=
  emit (LogInfo ("Loading " ++ fname)) ;;
  let key := if multi_file then "*.[000-999]*" else "*.txt" in
  print [fname] ;;
  emit (Glob (fname ++ "/*" ++ key)) ;;
  let files_key := [Py.sort (glob_matches e (fname ++ "/*" ++ key))] in
  (if negb (length files_key =? 1)%nat
   then lift (Raise (RuntimeError
           ("Expect one " ++ key ++ " file, got "
                          ++ Py.str_nat (length files_key))))
   else ret tt) ;;
  let files_key := hd [] files_key in
  data_types <-
    (if Py.mem datatype ["AC"; "DC"; "Ph"] then ret [datatype]
     else lift (Raise (RuntimeError ("Expect AC, DC, or Ph, got " ++ datatype)))) ;;
  let '(mtg_names, blk_names) :=
    if multi_file then montage_blocks files_key else (["a"], [["001"]]) in
  h <- scan_files e files_key ;;
  finish_init fname datatype preload files_key mtg_names blk_names data_types h.

(** *** [_read_segment_file] *)

Definition detectors : list string :=
  ["A"; "B"; "C"; "D"; "E"; "F"; "G"; "H"; "I"; "J"; "K"; "L"; "M";
   "N"; "O"; "P"; "Q"; "R"; "S"; "T"; "U"; "V"; "W"; "X"; "Y"; "Z"].

(** The body of the loop over the lines of a block's file: [col_names] is the
    reader's variable of that name (unbound until first assigned, and kept
    from one file to the next), [boxy_data] the rows gathered so far. *)
Definition read_line (h : header) (i_blk file_num : nat)
           (line : nat * string)
           (st : option (list string) * list (list string))
  : res (option (list string) * list (list string)) :=
  let '(line_num, i_line) := line in
  let '(col_names, boxy_data) := st in
  sb <- of_option IndexError (Py.get (start_line h) i_blk) ;;
  let col_names :=
    if (Z.of_nat line_num =? sb - 1)%Z
    then Some (Re.findall Re.match_colname (Py.item0 (Py.rsplit_space i_line)))
    else col_names in
  sf <- of_option IndexError (Py.get (start_line h) file_num) ;;
  if (sf <? Z.of_nat line_num)%Z then
    ef <- of_option IndexError (Py.get (end_line h) file_num) ;;
    if (Z.of_nat line_num <=? ef)%Z
    then ret (col_names, boxy_data ++ [Py.rsplit_space i_line])
    else ret (col_names, boxy_data)
  else ret (col_names, boxy_data).

(** [np.pad(np.asarray(i_data, dtype=float), (0, padding), mode='empty')] *)
Definition padded_row (boxy_length : nat) (i_data : list string)
  : res (list cell) :=
  xs <- map_res (fun t => of_option ValueError (float_of_string t)) i_data ;;
  if (length i_data <=? boxy_length)%nat
  then ret (map Num xs ++ repeat Uninit (boxy_length - length i_data))
  else Raise ValueError.

(** [boxy_array[:, k]] *)
Definition column (boxy_array : list (list cell)) (k : nat) : list cell :=
  map (fun row => nth k row Uninit) boxy_array.

(** [boxy_array[:, np.where(col_names == key)[0][0]] if key in col_names
    else list()] *)
Definition meta_column (col_names : list string)
           (boxy_array : list (list cell)) (key : string) : list cell :=
  match Py.index_of key col_names with
  | Some k => column boxy_array k
  | None => []
  end.

Definition dict_get {V} (d : list (string * V)) (key : string) : res V :=
  match find (fun kv => String.eqb (fst kv) key) d with
  | Some kv => ret (snd kv)
  | None => Raise KeyError
  end.

(** [np.zeros((r, c))] *)
Definition zeros (r c : Z) : res (list (list cell)) :=
  if (r <? 0)%Z || (c <? 0)%Z then Raise ValueError
  else ret (repeat (repeat (Num float_zero) (Z.to_nat c)) (Z.to_nat r)).

(** [data_[index_loc, :] = vec] on an array with [ncols] columns: a vector of
    one element is broadcast. *)
Definition assign_row (data_ : list (list cell)) (ncols : nat) (index_loc : Z)
           (vec : list cell) : res (list (list cell)) :=
  pos <- of_option IndexError (Py.index_pos (length data_) index_loc) ;;
  row <- (if (length vec =? ncols)%nat then ret vec
          else if (length vec =? 1)%nat then ret (repeat (hd Uninit vec) ncols)
          else Raise ValueError) ;;
  of_option IndexError (set_item data_ pos row).

(** [int(x)] on an entry of a float array. *)
Definition cell_int (c : cell) : res Z :=
  match c with
  | Num x => of_option ValueError (int_of_float x)
  | Uninit => Raise UndefinedValue
  end.

(** [boxy_array[time_points, channel]] *)
Definition gather (boxy_array : list (list cell)) (time_points : list Z)
           (channel : nat) : res (list cell) :=
  map_res (fun tp =>
             pos <- of_option IndexError
                      (Py.index_pos (length boxy_array) tp) ;;
             ret (nth channel (nth pos boxy_array []) Uninit))
          time_points.

(** Where the series of (detector [i_detect], source [i_source], data type
    [i_data]) goes, and what is written there. *)
Definition place_series (dn sn : Z) (ft : layout) (data_types : list string)
           (col_names : list string) (boxy_array : list (list cell))
           (meta_data : list (string * list cell)) (ncols : nat)
           (i_data i_detect : string) (i_source : Z)
           (data_ : list (list cell)) : res (list (list cell)) :=
  dpos <- of_option ValueError (Py.index_of i_detect detectors) ;;
  tpos <- of_option ValueError (Py.index_of i_data data_types) ;;
  let index_loc :=
    (Z.of_nat dpos * sn + (i_source - 1) + Z.of_nat tpos * (sn * dn))%Z in
  match ft with
  | NonParsed =>
      record <- dict_get meta_data "record" ;;
      last <- of_option IndexError (Py.last_item record) ;;
      n <- cell_int last ;;
      (if (sn =? 0)%Z then Raise ZeroDivisionError else ret tt) ;;
      let time_points := Py.arange (i_source - 1) (n * sn) sn in
      channel <- of_option IndexError
                   (Py.index_of (i_detect ++ "-" ++ i_data) col_names) ;;
      vec <- gather boxy_array time_points channel ;;
      assign_row data_ ncols index_loc vec
  | Parsed =>
      channel <- of_option IndexError
                   (Py.index_of (i_detect ++ "-" ++ i_data ++ Py.str_Z i_source)
                                col_names) ;;
      assign_row data_ ncols index_loc (column boxy_array channel)
  end.

(** From the rows of one file to its block of the output: tokenising and
    padding, the metadata columns, and the three nested loops. *)
Definition assemble_block (h : header) (data_types : list string)
           (file_num : nat) (col_names : option (list string))
           (boxy_data : list (list string)) : res (list (list cell)) :=
  sn <- of_option IndexError (Py.get (source_num h) file_num) ;;
  let sources := Py.arange 1 (sn + 1) 1 in
  let boxy_data :=
    map (fun i_row => Re.findall Re.match_number (Py.item0 i_row)) boxy_data in
  col_names <- of_option NameError col_names ;;
  let boxy_length := length col_names in
  boxy_array <- map_res (padded_row boxy_length) boxy_data ;;
  dn <- of_option IndexError (Py.get (detect_num h) file_num) ;;
  let keys :=
    ["time"; "record"; "group"; "exmux"; "step"; "mark"; "flag"; "aux1";
     "digaux"]
      ++ map (fun i_detect => "bias-" ++ i_detect)%string
             (Py.slice_to detectors dn) in
  let meta_data :=
    map (fun key => (key, meta_column col_names boxy_array key)) keys in
  ft <- of_option IndexError (Py.get (filetype h) file_num) ;;
  let nrows := (dn * sn * Z.of_nat (length data_types))%Z in
  (* [int(len(boxy_data) / source_num[file_num])]: the quotient truncated *)
  ncols <-
    match ft with
    | NonParsed =>
        if (sn =? 0)%Z then Raise ZeroDivisionError
        else ret (Z.quot (Z.of_nat (length boxy_data)) sn)
    | Parsed => ret (Z.of_nat (length boxy_data))
    end ;;
  data_ <- zeros nrows ncols ;;
  for_each data_types
    (fun i_data data_ =>
       for_each (Py.slice_to detectors dn)
         (fun i_detect data_ =>
            for_each sources
              (fun i_source data_ =>
                 place_series dn sn ft data_types col_names boxy_array
                              meta_data (Z.to_nat ncols)
                              i_data i_detect i_source data_)
              data_)
         data_)
    data_.

(** The body of the loop over the blocks of montage [i_mtg]. *)
Definition read_block (e : env) (ex : raw_extras) (i_mtg : nat)
           (blk : nat * string)
           (st : option (list string) * list (list (list cell)))
  : io (option (list string) * list (list (list cell))) :=
  let '(i_blk, _) := blk in
  let '(col_names, all_blocks) := st in
  blocks_mtg <- lift (of_option IndexError (Py.get (blocks ex) i_mtg)) ;;
  let file_num := (i_blk + i_mtg * length blocks_mtg)%nat in
  boxy_file <- lift (of_option IndexError (Py.get (files ex) file_num)) ;;
  lines <- open e boxy_file ;;
  read <- lift (for_each (enumerate 1 lines)
                         (read_line (scanned ex) i_blk file_num)
                         (col_names, [])) ;;
  data_ <- lift (assemble_block (scanned ex) (data_types ex) file_num
                                (fst read) (snd read)) ;;
  ret (fst read, all_blocks ++ [data_]).

(** [np.hstack(all_blocks)]: the blocks side by side. *)
Fixpoint hstack (all_blocks : list (list (list cell)))
  : res (list (list cell)) :=
  match all_blocks with
  | [] => Raise ValueError
  | [b] => ret b
  | b :: rest =>
      r <- hstack rest ;;
      if (length b =? length r)%nat
      then ret (map (fun p => fst p ++ snd p) (combine b r))
      else Raise ValueError
  end.

(** The body of the loop over the montages. *)
Definition read_montage (e : env) (ex : raw_extras) (mtg : nat * string)
           (st : option (list string) * list (list cell))
  : io (option (list string) * list (list cell)) :=
  let '(i_mtg, _) := mtg in
  let '(col_names, all_data) := st in
  blocks_mtg <- lift (of_option IndexError (Py.get (blocks ex) i_mtg)) ;;
  read <- for_each (enumerate 0 blocks_mtg) (read_block e ex i_mtg)
                   (col_names, []) ;;
  rows <- lift (hstack (snd read)) ;;
  ret (fst read, all_data ++ rows).

(** [str] of a shape. *)
Definition str_shape (dims : list nat) : string :=
  match dims with
  | [d] => "(" ++ Py.str_nat d ++ ",)"
  | _ => "(" ++ String.concat ", " (map Py.str_nat dims) ++ ")"
  end.

(** The shape of [np.asarray(all_data)] for rows of one length; [None] when
    the rows differ in length. *)
Definition shape_of (all_data : list (list cell)) : option (list nat) :=
  match all_data with
  | [] => Some [0%nat]
  | row0 :: _ =>
      if forallb (fun row => (length row =? length row0)%nat) all_data
      then Some [length all_data; length row0]
      else None
  end.

(** [data[:] = all_data] for [data] of shape [(r, c)], with broadcasting;
    the result is the new content of [data]. *)
Definition assign_all (r c : nat) (all_data : list (list cell))
  : res (list (list cell)) :=
  match shape_of all_data with
  | Some [n; k] =>
      if ((n =? r)%nat || (n =? 1)%nat) && ((k =? c)%nat || (k =? 1)%nat)
      then ret (map (fun i =>
                       let row := nth (if (n =? r)%nat then i else O)
                                      all_data [] in
                       if (k =? c)%nat then row
                       else repeat (hd Uninit row) c)
                    (seq 0 r))
      else Raise ValueError
  | Some _ => if (c =? 0)%nat then ret (repeat [] r) else Raise ValueError
  | None => Raise ValueError
  end.

(** [RawBOXY._read_segment_file(data, idx, fi, start, stop, cals, mult)];
    [data] is given by its shape [(r, c)]. *)
Definition read_segment_file (e : env) (self : recording) (r c : nat)
           (idx : list nat) (fi : nat) (start stop : Z)
           (cals : list float) (mult : option (list (list float)))
  : io (list (list cell)) :=
  ex <- lift (of_option IndexError (Py.get (extras self) fi)) ;;
  read <- for_each (enumerate 0 (montages ex)) (read_montage e ex) (None, []) ;;
  let all_data := snd read in
  all_shape <- lift (of_option ValueError (shape_of all_data)) ;;
  print ["Blank Data shape: "; str_shape [r; c]] ;;
  print ["Input Data shape: "; str_shape all_shape] ;;
  lift (assign_all r c all_data).

(** [read_raw_boxy(fname, datatype, multi_file, preload, verbose)]: the
    constructor under another name. *)
Definition read_raw_boxy (e : env) (fname datatype : string)
           (multi_file preload : bool) : io recording :=
  init e fname datatype multi_file preload.

End Reader.
End Boxy.

(* ================================================================= *)
(** ** A float model for worked examples

    Plain decimal literals ([-+]?\d*\.?\d+) read exactly, as a mantissa and a
    number of decimals; [int] truncates towards zero.  On such literals that
    binary64 represents exactly (integers of moderate size among them) this is
    what [float()] and [int()] give. *)

Module DecimalFloat.

Definition digits_val (s : string) : Z :=
  fold_left (fun acc c => (10 * acc + Py.digit_val c)%Z)
            (list_ascii_of_string s) 0%Z.

Definition of_string (s : string) : option (Z * nat) :=
  match Re.match_number s with
  | Some m =>
      if String.eqb m s then
        let '(neg, body) :=
          match s with
          | String "-" t => (true, t)
          | String "+" t => (false, t)
          | _ => (false, s)
          end in
        let '(ip, r) := Py.span Py.is_digit body in
        let fp := match r with String "." f => f | _ => EmptyString end in
        let mant := digits_val (ip ++ fp) in
        Some (if neg then (- mant)%Z else mant, String.length fp)
      else None
  | None => None
  end.

Definition to_int (x : Z * nat) : option Z :=
  Some (Z.quot (fst x) (10 ^ Z.of_nat (snd x))).

#[export] Instance model : FloatModel := {|
  float := Z * nat;
  float_of_string := of_string;
  int_of_float := to_int;
  float_zero := (0%Z, O)
|}.

End DecimalFloat.

(* ================================================================= *)
(** ** Sample recordings *)

Module Samples.

Definition tab : string := String "009"%char EmptyString.
Definition nl : string := String "010"%char EmptyString.

(** A line of tab-separated fields. *)
Definition row (fields : list string) : string :=
  (String.concat tab fields ++ nl)%string.

(** The header of a file up to its data-start marker. *)
Definition head_lines (det src : nat) (rate : string) : list string :=
  [ ("#BOXY" ++ nl)%string;
    (Py.str_nat det ++ " Detector Channels" ++ nl)%string;
    (Py.str_nat src ++ " External MUX Channels" ++ nl)%string;
    ("0 Auxiliary Channels" ++ nl)%string;
    ("110.0 Waveform (CCF) Frequency (Hz)" ++ nl)%string;
    (rate ++ " Update Rate (Hz)" ++ nl)%string;
    ("#DATA BEGINS" ++ nl)%string ].

Definition parsed_cols : list string :=
  ["time"; "A-AC1"; "A-AC2"; "A-AC3"; "B-AC1"; "B-AC2"; "B-AC3"].

(** Row [t] of a parsed file with two detectors and three sources: the value
    of detector [d], source [s] at time [t] is [1000 * (3 d + s) + t]. *)
Definition parsed_row (t : nat) : string :=
  row (Py.str_nat t
       :: map (fun k => Py.str_nat (1000 * k + t)) (seq 1 6)).

(** A parsed file: header, column names, one line that is passed over, [n]
    rows, terminator. *)
Definition parsed_file (rate : string) (n : nat) : list string :=
  head_lines 2 3 rate ++ [row parsed_cols; nl]
    ++ map parsed_row (seq 0 n) ++ [("#DATA ENDS" ++ nl)%string].

(** The same file without its terminator line. *)
Definition unterminated_file (rate : string) (n : nat) : list string :=
  head_lines 2 3 rate ++ [row parsed_cols; nl] ++ map parsed_row (seq 0 n).

(** The array read from [parsed_file rate n]. *)
Definition parsed_array (n : nat) : list (list (Boxy.cell (Z * nat))) :=
  map (fun t =>
         Boxy.Num (Z.of_nat t, O)
         :: map (fun k => Boxy.Num (Z.of_nat (1000 * k + t), O)) (seq 1 6))
      (seq 0 n).

(** The recording [__init__] builds on [parsed_file "50.0" 100]. *)
Definition parsed_recording : Boxy.recording (Z * nat) :=
  Boxy.Recording
    (Boxy.Info ["S1_D1_1"; "S2_D1_1"; "S3_D1_1"; "S1_D2_1"; "S2_D2_1"; "S3_D2_1"]
               (500%Z, 1%nat)
               (repeat Boxy.fnirs_cw_amplitude 6))
    false ["rec"] [0%Z] [99%Z]
    [Boxy.RawExtras
       (Boxy.Header [2%Z] [3%Z] [0%Z] [(1100%Z, 1%nat)] [(500%Z, 1%nat)]
                    [9%Z] [109%Z] [Boxy.Parsed])
       ["rec/a.txt"] ["a"] [["001"]] ["AC"]].

(** A single-file folder. *)
Definition one_file (path : string) (lines : list string) : env :=
  Env (fun pattern => if String.eqb pattern "rec/**.txt" then [path] else [])
      (fun p => if String.eqb p path then Some lines else None).

(** A folder with two [.txt] files, and an empty folder. *)
Definition two_txt : env :=
  Env (fun pattern =>
         if String.eqb pattern "rec/**.txt" then ["rec/b.txt"; "rec/a.txt"]
         else [])
      (fun p => if String.eqb p "rec/a.txt" then Some (parsed_file "50.0" 4)
                else if String.eqb p "rec/b.txt" then Some (parsed_file "50.0" 4)
                else None).

Definition empty_dir : env := Env (fun _ => []) (fun _ => None).

(** A folder read in multi-file mode: its files, by path. *)
Definition folder (content : list (string * list string)) : env :=
  Env (fun pattern =>
         if String.eqb pattern "rec/**.[000-999]*" then map fst content else [])
      (fun p => option_map snd
                  (find (fun kv => String.eqb (fst kv) p) content)).

(** Two blocks of one montage whose headers give different sample rates,
    and the same blocks with one rate. *)
Definition rates_differ : env :=
  folder [("rec/xa.001", parsed_file "50.0" 4);
          ("rec/xa.002", parsed_file "25.0" 4)].

Definition rates_agree : env :=
  folder [("rec/xa.001", parsed_file "50.0" 4);
          ("rec/xa.002", parsed_file "50.0" 4)].

(** Two blocks of one montage, the second file cut off inside its header:
    it holds neither the data-start marker nor the terminator. *)
Definition second_file_cut : env :=
  folder [("rec/xa.001", parsed_file "50.0" 4);
          ("rec/xa.002", firstn 6 (head_lines 2 3 "50.0"))].

Definition nonparsed_cols : list string := ["time"; "record"; "exmux"; "A-AC"].

(** Row [t] of a non-parsed file with one detector and three sources: the
    rows cycle through the sources, [record t] is the entry of the record
    column, and the value is [1000 + t]. *)
Definition nonparsed_row (record : nat -> nat) (t : nat) : string :=
  row [Py.str_nat t; Py.str_nat (record t); Py.str_nat (t mod 3 + 1);
       Py.str_nat (1000 + t)].

Definition nonparsed_file (record : nat -> nat) (n : nat) : list string :=
  head_lines 1 3 "50.0" ++ [row nonparsed_cols; nl]
    ++ map (nonparsed_row record) (seq 0 n) ++ [("#DATA ENDS" ++ nl)%string].

(** The record column counting the cycles through the sources, and counting
    the rows. *)
Definition record_per_cycle (t : nat) : nat := t / 3 + 1.
Definition record_per_row (t : nat) : nat := t + 1.

Definition nonparsed_array (record : nat -> nat) (n : nat)
  : list (list (Boxy.cell (Z * nat))) :=
  map (fun t => map (fun v => Boxy.Num (Z.of_nat v, O))
                    [t; record t; t mod 3 + 1; 1000 + t])
      (seq 0 n).

(** A parsed file with one more line ahead of its header. *)
Definition shifted_file : list string :=
  ("#NOTE" ++ nl)%string :: parsed_file "50.0" 4.

(** Two montages of one block each; the data of the second start one line
    further down than those of the first. *)
Definition two_montages : env :=
  folder [("rec/xa.001", parsed_file "50.0" 4); ("rec/xb.001", shifted_file)].

(** Two montages of one block each, laid out alike, and what [__init__]
    finds in their headers. *)
Definition two_montages_alike : env :=
  folder [("rec/xa.001", parsed_file "50.0" 4);
          ("rec/xb.001", parsed_file "50.0" 4)].

Definition two_montages_header : Boxy.header (Z * nat) :=
  Boxy.Header [2%Z; 2%Z] [3%Z; 3%Z] [0%Z; 0%Z]
              [(1100%Z, 1%nat); (1100%Z, 1%nat)]
              [(500%Z, 1%nat); (500%Z, 1%nat)]
              [9%Z; 9%Z] [13%Z; 13%Z] [Boxy.Parsed; Boxy.Parsed].

Definition two_montages_labels : list string :=
  ["S1_D1_1"; "S2_D1_1"; "S3_D1_1"; "S1_D2_1"; "S2_D2_1"; "S3_D2_1";
   "S1_D1_2"; "S2_D1_2"; "S3_D1_2"; "S1_D2_2"; "S2_D2_2"; "S3_D2_2"].

(** The second montage on its own. *)
Definition second_montage_alone : env :=
  folder [("rec/xb.001", shifted_file)].

End Samples.

(* ================================================================= *)
(** ** Properties of the reader *)

Import Boxy.

(** An event that reads the file system. *)
Definition reads_file_system (ev : event) : bool :=
  match ev with
  | Glob _ | Open _ => true
  | _ => false
  end.

Definition opens_file (ev : event) : bool :=
  match ev with
  | Open _ => true
  | _ => false
  end.

Section Vocabulary.

Context {FM : FloatModel}.

Local Abbreviation header := (header float).
Local Abbreviation info := (info float).
Local Abbreviation raw_extras := (raw_extras float).
Local Abbreviation recording := (recording float).
Local Abbreviation cell := (cell float).

Definition is_some {A} (o : option A) : bool :=
  match o with Some _ => true | None => false end.

(** The line takes the data-start branch of the [if]/[elif] chain of the
    header loop: it holds the marker and none of the labels tested before. *)
Definition is_begin_marker (i_line : string) : bool :=
  if Py.contains "Detector Channels" i_line then false
  else if Py.contains "External MUX Channels" i_line then false
  else if Py.contains "Auxiliary Channels" i_line then false
  else if Py.contains "Waveform (CCF) Frequency (Hz)" i_line then false
  else if Py.contains "Update Rate (Hz)" i_line then false
  else if Py.contains "Updata Rate (Hz)" i_line then false
  else Py.contains "#DATA BEGINS" i_line.

(** The number a labelled header line starts with can be read. *)
Definition header_line_ok (i_line : string) : bool :=
  let token := Py.item0 (Py.rsplit_space i_line) in
  if Py.contains "Detector Channels" i_line then is_some (Py.int token)
  else if Py.contains "External MUX Channels" i_line then is_some (Py.int token)
  else if Py.contains "Auxiliary Channels" i_line then is_some (Py.int token)
  else if Py.contains "Waveform (CCF) Frequency (Hz)" i_line
       then is_some (float_of_string token)
  else if Py.contains "Update Rate (Hz)" i_line
       then is_some (float_of_string token)
  else if Py.contains "Updata Rate (Hz)" i_line
       then is_some (float_of_string token)
  else true.

(** The numbers of the data-start marker lines among [lines], the first of
    which is line [line_num]. *)
Fixpoint begin_marker_lines (line_num : Z) (lines : list string) : list Z :=
  match lines with
  | [] => []
  | i_line :: rest =>
      (if is_begin_marker i_line then [line_num] else [])
        ++ begin_marker_lines (line_num + 1) rest
  end.

(** A line of the header proper: before the terminator, and readable. *)
Definition plain_header_line (i_line : string) : bool :=
  negb (Py.contains "#DATA ENDS" i_line) && header_line_ok i_line.

(** The header lists with other sample rates. *)
Definition with_srate (rates : list float) (h : header) : header :=
  Header (detect_num h) (source_num h) (aux_num h) (ccf_ha h) rates
         (start_line h) (end_line h) (filetype h).

Definition recording_with_srate (rates : list float) (r : recording)
  : recording :=
  Recording (rec_info r) (rec_preload r) (filenames r) (first_samps r)
            (last_samps r)
            (map (fun ex => RawExtras (with_srate rates (scanned ex)) (files ex)
                                      (montages ex) (blocks ex) (data_types ex))
                 (extras r)).

(** The same run with its result mapped. *)
Definition io_map {A B} (f : A -> B) (c : io A) : io B :=
  IO (trace c) (match outcome c with Raise e => Raise e | Ok a => Ok (f a) end).

(** Reading a label back: the montage, detector and source numbers written
    in [S<source>_D<detector>_<montage>]. *)
Definition nat_of_string (s : string) : option nat :=
  option_map Nat.of_uint (NilEmpty.uint_of_string s).

Definition decode_label (l : string) : option (nat * nat * nat) :=
  match l with
  | String "S" r =>
      let (src, r1) := Py.span Py.is_digit r in
      match r1 with
      | String "_" (String "D" r2) =>
          let (det, r3) := Py.span Py.is_digit r2 in
          match r3 with
          | String "_" mtg =>
              match nat_of_string src, nat_of_string det, nat_of_string mtg with
              | Some s, Some d, Some m => Some (m, d, s)
              | _, _, _ => None
              end
          | _ => None
          end
      | _ => None
      end
  | _ => None
  end.

(** The labels of one montage with [dn] detectors and [sn] sources. *)
Definition montage_labels (mtg_num dn sn : nat) : list string :=
  flat_map (fun det_num =>
              map (fun src_num => label src_num det_num mtg_num) (seq 0 sn))
           (seq 0 dn).

(** The files of a montage agree on the detector and source counts: the
    file read for any block of a montage has the counts the labels of the
    montage are built from. *)
Definition blocks_agree (h : header) (blk_names : list (list string)) : Prop :=
  forall i_mtg blocks_mtg i_blk,
    nth_error blk_names i_mtg = Some blocks_mtg ->
    (i_blk < length blocks_mtg)%nat ->
    of_option IndexError
              (Py.get (detect_num h) (i_blk + i_mtg * length blocks_mtg))
    = per_montage blk_names (detect_num h) i_mtg
    /\ of_option IndexError
                 (Py.get (source_num h) (i_blk + i_mtg * length blocks_mtg))
       = per_montage blk_names (source_num h) i_mtg.

(** The body of the loop over the montages. *)
Definition montage_step (h : header) (blk_names : list (list string))
           (mtg : nat * string) (labels : list string) : res (list string) :=
  let '(mtg_num, _) := mtg in
  dn <- per_montage blk_names (detect_num h) mtg_num ;;
  for_each (Py.range dn)
    (fun det_num labels =>
       sn <- per_montage blk_names (source_num h) mtg_num ;;
       for_each (Py.range sn)
         (fun src_num labels =>
            ret (labels ++ [label src_num det_num mtg_num]))
         labels)
    labels.

(** The rows montage [m] takes in the output: detectors times sources, as the
    labels count them. *)
Definition rows_of (h : header) (blk_names : list (list string)) (m : nat)
  : nat :=
  match per_montage blk_names (detect_num h) m,
        per_montage blk_names (source_num h) m with
  | Ok dn, Ok sn => Z.to_nat dn * Z.to_nat sn
  | _, _ => 0
  end.

(** The rows of the montages [a], ..., [a + n - 1]. *)
Definition rows_from (h : header) (blk_names : list (list string))
           (a n : nat) : nat :=
  list_sum (map (rows_of h blk_names) (seq a n)).

(** [s'] is [s] with more at its end. *)
Definition extends (s s' : list string) : Prop := exists t, s' = s ++ t.

(** No line of the file holds the terminator. *)
Definition lacks_terminator (lines : list string) : bool :=
  forallb (fun i_line => negb (Py.contains "#DATA ENDS" i_line)) lines.

(** The line takes the layout branch of the [if]/[elif] chain of the header
    loop: it holds [exmux] and none of the labels tested before it. *)
Definition is_exmux_line (i_line : string) : bool :=
  if Py.contains "Detector Channels" i_line then false
  else if Py.contains "External MUX Channels" i_line then false
  else if Py.contains "Auxiliary Channels" i_line then false
  else if Py.contains "Waveform (CCF) Frequency (Hz)" i_line then false
  else if Py.contains "Update Rate (Hz)" i_line then false
  else if Py.contains "Updata Rate (Hz)" i_line then false
  else if Py.contains "#DATA BEGINS" i_line then false
  else Py.contains "exmux" i_line.

(** The lines before the first one that holds the terminator. *)
Fixpoint before_terminator (lines : list string) : list string :=
  match lines with
  | [] => []
  | i_line :: rest =>
      if Py.contains "#DATA ENDS" i_line then []
      else i_line :: before_terminator rest
  end.

(** A file with a header the loop reads to its end: readable labelled lines,
    the only data-start marker on line [b], the first terminator on line [e]. *)
Definition well_formed_file (lines : list string) (b e : Z) : Prop :=
  exists pre i_end post,
    lines = pre ++ i_end :: post
    /\ forallb plain_header_line pre = true
    /\ Py.contains "#DATA ENDS" i_end = true
    /\ begin_marker_lines 1 pre = [b]
    /\ e = (Z.of_nat (length pre) + 1)%Z.

(** The layout tag of a file that started as [tag]. *)
Definition layout_after (tag : layout) (lines : list string) : layout :=
  if existsb is_exmux_line (before_terminator lines) then NonParsed else tag.

(** The line of number [n] in a file whose first line has number [a]. *)
Definition line_from (a : nat) (lines : list string) (n : Z) : option string :=
  if (Z.of_nat a <=? n)%Z then nth_error lines (Z.to_nat (n - Z.of_nat a))
  else None.

(** The name of the column of detector [d] and source [s], both counted
    from 0, in a parsed file read for the data type [dt]. *)
Definition parsed_name (dt : string) (d s : nat) : string :=
  nth d detectors "" ++ "-" ++ dt ++ Py.str_Z (Z.of_nat s + 1).

End Vocabulary.

Section Properties.

Context {FM : FloatModel}.

Local Abbreviation header := (header float).
Local Abbreviation info := (info float).
Local Abbreviation raw_extras := (raw_extras float).
Local Abbreviation recording := (recording float).
Local Abbreviation cell := (cell float).

(** C10: the segment read does not depend on the requested sample range.
    [_read_segment_file] never looks at [start] and [stop]: whatever the
    range, it reads the whole data region of every file of the recording and
    assigns the whole assembled array to [data]. *)
Theorem read_segment_file_ignores_range :
  forall (e : env) (self : recording) (r c : nat) (idx : list nat) (fi : nat)
         (start1 stop1 start2 stop2 : Z) cals mult,
    read_segment_file e self r c idx fi start1 stop1 cals mult
    = read_segment_file e self r c idx fi start2 stop2 cals mult.
Proof. intros; reflexivity. Qed.

(** C8, as the code has it: a data type other than AC, DC and Ph makes
    [__init__] raise its RuntimeError before any file is opened, but after the
    folder has been listed: the log line, the printed folder name and the
    [glob] call come first. *)
Theorem unknown_datatype_raises_after_glob :
  forall (e : env) (fname datatype : string) (multi_file preload : bool),
    Py.mem datatype ["AC"; "DC"; "Ph"] = false ->
    init e fname datatype multi_file preload
    = IO [LogInfo ("Loading " ++ fname); Print fname;
          Glob (fname ++ "/*" ++ (if multi_file then "*.[000-999]*" else "*.txt"))]
         (Raise (RuntimeError ("Expect AC, DC, or Ph, got " ++ datatype))).
Proof.
  intros e fname datatype multi_file preload Hdt.
  unfold init. cbn [bind io_monad res_monad emit print lift trace outcome].
  rewrite Hdt. reflexivity.
Qed.


(** *** The header scanner *)

Lemma set_item_length :
  forall {A} (l : list A) (i : nat) (x : A),
    (i < length l)%nat ->
    exists l', set_item l i x = Some l' /\ length l' = length l.
Proof.
  induction l as [| y t IH]; intros i x Hi; simpl in Hi; [lia |].
  destruct i as [| j]; simpl.
  - eexists; split; [reflexivity | reflexivity].
  - destruct (IH j x) as (l' & -> & Hl); [lia |].
    eexists; split; [reflexivity | simpl; congruence].
Qed.

(** One labelled line: only a data-start marker touches [start_line], and
    nothing touches [end_line]. *)
Lemma scan_label_bounds :
  forall file_num line_num i_line h,
    (file_num < length (filetype h))%nat ->
    header_line_ok i_line = true ->
    exists h',
      scan_label file_num line_num i_line h = Ok h'
      /\ start_line h'
         = start_line h ++ (if is_begin_marker i_line then [line_num + 2]%Z else [])
      /\ end_line h' = end_line h
      /\ length (filetype h') = length (filetype h).
Proof.
  intros file_num line_num i_line [dn sn an cc sr sl el ft] Hft Hok.
  unfold scan_label, header_line_ok, is_begin_marker, leading_int, leading_float in *.
  simpl in Hft.
  repeat match goal with
         | |- context [if Py.contains ?m i_line then _ else _] =>
             destruct (Py.contains m i_line)
         end;
    try match type of Hok with
        | is_some ?o = true => destruct o; [| discriminate Hok]
        end;
    simpl;
    try (eexists; repeat split; simpl; rewrite ?app_nil_r; reflexivity).
  destruct (set_item_length ft file_num NonParsed Hft) as (ft' & -> & Hlen).
  simpl. eexists; repeat split; simpl; rewrite ?app_nil_r; auto.
Qed.

(** The loop over the lines, up to the first terminator. *)
Lemma scan_lines_bounds :
  forall pre file_num line_num h i_end post,
    (file_num < length (filetype h))%nat ->
    forallb plain_header_line pre = true ->
    Py.contains "#DATA ENDS" i_end = true ->
    exists h',
      scan_lines file_num line_num (pre ++ i_end :: post) h = Ok h'
      /\ start_line h'
         = start_line h
             ++ map (fun b => b + 2)%Z (begin_marker_lines line_num pre)
      /\ end_line h'
         = end_line h ++ [line_num + Z.of_nat (length pre) - 1]%Z.
Proof.
  induction pre as [| a pre IH]; intros file_num line_num h i_end post Hft Hpre Hend.
  - simpl. rewrite Hend. destruct h; simpl.
    eexists; repeat split; simpl; rewrite ?app_nil_r; [reflexivity |].
    do 2 f_equal; lia.
  - simpl in Hpre. apply andb_prop in Hpre as [Ha Hpre].
    unfold plain_header_line in Ha. apply andb_prop in Ha as [Hne Hok].
    apply negb_true_iff in Hne.
    simpl. rewrite Hne.
    destruct (scan_label_bounds file_num line_num a h Hft Hok)
      as (h1 & -> & Hs1 & He1 & Hf1).
    simpl.
    destruct (IH file_num (line_num + 1)%Z h1 i_end post) as (h' & Hscan & Hs & He);
      [lia | assumption | assumption |].
    exists h'. split; [exact Hscan |]. split.
    + rewrite Hs, Hs1, map_app, <- app_assoc.
      destruct (is_begin_marker a); reflexivity.
    + rewrite He, He1. do 2 f_equal. simpl length. lia.
Qed.

(** C5: when the header lines of a file, up to its first terminator line [e],
    hold a data-start marker at line [b] (and no other), the header loop
    records [b + 2] as the file's data-start line and [e - 1] as its data-end
    line. *)
Theorem header_scanner_data_bounds :
  forall (file_num : nat) (h : header) (pre : list string)
         (i_end : string) (post : list string) (b e : Z),
    (file_num < length (filetype h))%nat ->
    forallb plain_header_line pre = true ->
    Py.contains "#DATA ENDS" i_end = true ->
    e = (Z.of_nat (length pre) + 1)%Z ->
    begin_marker_lines 1 pre = [b] ->
    exists h',
      scan_lines file_num 1 (pre ++ i_end :: post) h = Ok h'
      /\ start_line h' = start_line h ++ [b + 2]%Z
      /\ end_line h' = end_line h ++ [e - 1]%Z.
Proof.
  intros file_num h pre i_end post b e Hft Hpre Hend He Hb.
  destruct (scan_lines_bounds pre file_num 1 h i_end post Hft Hpre Hend)
    as (h' & Hscan & Hs & Hel).
  exists h'. split; [exact Hscan |]. split.
  - rewrite Hs, Hb. reflexivity.
  - rewrite Hel. do 2 f_equal. lia.
Qed.


(** *** Loading *)

Lemma outcome_bind :
  forall {A B} (c : io A) (k : A -> io B),
    outcome (bind c k)
    = match outcome c with Raise e => Raise e | Ok a => outcome (k a) end.
Proof.
  intros A B c k. destruct c as [t [e | a]]; simpl; [reflexivity |].
  destruct (k a); reflexivity.
Qed.

Lemma trace_bind :
  forall {A B} (c : io A) (k : A -> io B),
    trace (bind c k)
    = match outcome c with
      | Raise _ => trace c
      | Ok a => trace c ++ trace (k a)
      end.
Proof.
  intros A B c k. destruct c as [t [e | a]]; simpl; [reflexivity |].
  destruct (k a); reflexivity.
Qed.

Lemma io_eta : forall {A} (c : io A), c = IO (trace c) (outcome c).
Proof. intros A [t o]; reflexivity. Qed.

Lemma bind_ext :
  forall {A B} (c : io A) (k k' : A -> io B),
    (forall a, k a = k' a) -> bind c k = bind c k'.
Proof.
  intros A B c k k' H. destruct c as [t [e | a]]; simpl; [reflexivity |].
  rewrite H. reflexivity.
Qed.

Lemma io_map_bind :
  forall {A B C} (f : B -> C) (c : io A) (k : A -> io B),
    io_map f (bind c k) = bind c (fun a => io_map f (k a)).
Proof.
  intros A B C f c k. destruct c as [t [e | a]]; simpl; [reflexivity |].
  unfold io_map. destruct (k a) as [t' [e' | b]]; reflexivity.
Qed.

(** C9, as the code has it: the sample rates of the files after the first
    play no part in loading.  Whatever they are, [__init__] prints the same
    lines and ends the same way (the same error, or the same recording built
    on the first file's rate); no message reports a difference between them. *)
Theorem later_sample_rates_are_ignored :
  forall (fname datatype : string) (preload : bool)
         (files_key mtg_names : list string) (blk_names : list (list string))
         (data_types : list string) (h : header)
         (rate : float) (others others' : list float),
    finish_init fname datatype preload files_key mtg_names blk_names data_types
                (with_srate (rate :: others') h)
    = io_map (recording_with_srate (rate :: others'))
             (finish_init fname datatype preload files_key mtg_names blk_names
                          data_types (with_srate (rate :: others) h)).
Proof.
  intros. destruct h as [dn sn an cc sr sl el ft].
  unfold finish_init, with_srate, same_or_different, boxy_labels, data_lengths.
  cbn [detect_num source_num aux_num ccf_ha srate start_line end_line filetype
       Py.get nth_error of_option].
  repeat first [ rewrite io_map_bind | apply bind_ext; intros ].
  reflexivity.
Qed.

(** *** Files without a terminator *)

Lemma scan_label_end_line :
  forall file_num line_num i_line h h',
    scan_label file_num line_num i_line h = Ok h' ->
    end_line h' = end_line h.
Proof.
  intros file_num line_num i_line [dn sn an cc sr sl el ft] h'.
  unfold scan_label, leading_int, leading_float.
  repeat match goal with
         | |- context [if Py.contains ?m i_line then _ else _] =>
             destruct (Py.contains m i_line)
         end;
    simpl;
    repeat match goal with
           | |- context [of_option _ ?o] => destruct o; simpl
           end.
  all: intros H; inversion H; reflexivity.
Qed.

Lemma scan_lines_no_terminator :
  forall lines file_num line_num h h',
    lacks_terminator lines = true ->
    scan_lines file_num line_num lines h = Ok h' ->
    end_line h' = end_line h.
Proof.
  induction lines as [| a lines IH]; intros file_num line_num h h' Hno Hscan.
  - simpl in Hscan. inversion Hscan. reflexivity.
  - simpl in Hno. apply andb_prop in Hno as [Ha Hno].
    apply negb_true_iff in Ha. simpl in Hscan. rewrite Ha in Hscan.
    destruct (scan_label file_num line_num a h) as [err | h1] eqn:Hl;
      simpl in Hscan; [discriminate |].
    apply scan_label_end_line in Hl.
    rewrite (IH _ _ _ _ Hno Hscan). exact Hl.
Qed.

Lemma scan_files_no_terminator :
  forall (e : env) (paths : list string) (n : nat) (h h' : header),
    (forall path lines,
        In path paths -> file_lines e path = Some lines ->
        lacks_terminator lines = true) ->
    outcome (for_each (enumerate n paths)
               (fun '(file_num, i_file) h =>
                  lines <- open e i_file ;;
                  lift (scan_lines file_num 1 lines h)) h) = Ok h' ->
    end_line h' = end_line h.
Proof.
  induction paths as [| f paths IH]; intros n h h' Hno Hrun.
  - simpl in Hrun. inversion Hrun. reflexivity.
  - change (enumerate n (f :: paths)) with ((n, f) :: enumerate (S n) paths) in Hrun.
    cbn [for_each] in Hrun. rewrite outcome_bind in Hrun.
    destruct (outcome (lines <- open e f;; lift (scan_lines n 1 lines h)))
      as [err | h1] eqn:Hone; [discriminate |].
    rewrite (IH (S n) h1 h'); [| intros; eapply Hno; [right |]; eassumption | exact Hrun].
    unfold open in Hone. rewrite !outcome_bind in Hone. simpl in Hone.
    destruct (file_lines e f) as [lines |] eqn:Hf; simpl in Hone; [| discriminate].
    eapply scan_lines_no_terminator; [| exact Hone].
    eapply Hno; [left; reflexivity | exact Hf].
Qed.

(** Without a data-end line for the first file, the rest of [__init__] ends
    in an error. *)
Lemma finish_init_needs_end_line :
  forall fname datatype preload files_key mtg_names blk_names data_types h,
    end_line h = [] ->
    exists err,
      outcome (finish_init fname datatype preload files_key mtg_names blk_names
                           data_types h) = Raise err.
Proof.
  intros fname datatype preload files_key mtg_names blk_names dts
         [dn sn an cc sr sl el ft] Hend.
  simpl in Hend. subst el. unfold finish_init.
  repeat (rewrite outcome_bind;
          cbn [outcome lift of_option Py.get nth_error end_line];
          match goal with
          | |- exists err, Raise _ = _ => eexists; reflexivity
          | |- exists err, match ?o with Raise _ => _ | Ok _ => _ end = _ =>
              destruct o; [eexists; reflexivity |]
          end).
Qed.

Lemma In_insert_sorted :
  forall x y l, In y (Py.insert_sorted x l) -> y = x \/ In y l.
Proof.
  induction l as [| z l IH]; simpl; intros H.
  - destruct H as [H | []]; auto.
  - destruct (String.leb x z); simpl in H.
    + destruct H as [H | H]; auto.
    + destruct H as [H | H]; auto. destruct (IH H); auto.
Qed.

Lemma In_sort : forall y l, In y (Py.sort l) -> In y l.
Proof.
  induction l as [| x l IH]; simpl; intros H; [exact H |].
  apply In_insert_sorted in H. destruct H as [H | H]; auto.
Qed.

(** C6, as the code has it: when none of the files found for a recording
    holds the terminator, [__init__] ends in an error and no recording is
    built (the list of data-end lines stays empty, and reading its first
    entry fails, unless an earlier step has failed already). *)
Theorem load_without_any_terminator_fails :
  forall (e : env) (fname datatype : string) (multi_file preload : bool),
    (forall path lines,
        In path (glob_matches e
                   (fname ++ "/*"
                          ++ (if multi_file then "*.[000-999]*" else "*.txt"))) ->
        file_lines e path = Some lines ->
        lacks_terminator lines = true) ->
    exists err, outcome (init e fname datatype multi_file preload) = Raise err.
Proof.
  intros e fname datatype multi_file preload Hno.
  unfold init.
  rewrite !outcome_bind. cbn [outcome emit print length Nat.eqb negb hd ret io_monad].
  destruct (Py.mem datatype ["AC"; "DC"; "Ph"]); cbn [outcome lift];
    [| eexists; reflexivity].
  match goal with
  | |- context [let '(_, _) := ?p in _] => destruct p as [mtg_names blk_names]
  end.
  rewrite outcome_bind.
  destruct (outcome (scan_files e _)) as [err | h] eqn:Hscan;
    [eexists; reflexivity |].
  apply finish_init_needs_end_line.
  unfold scan_files in Hscan.
  apply scan_files_no_terminator in Hscan; [exact Hscan |].
  intros path lines Hin. apply Hno. apply In_sort. exact Hin.
Qed.

(** *** Assembling a block *)

Lemma map_res_length :
  forall {X Y} (f : X -> res Y) (l : list X) (l' : list Y),
    map_res f l = Ok l' -> length l' = length l.
Proof.
  induction l as [| x l IH]; simpl; intros l' H.
  - inversion H. reflexivity.
  - destruct (f x); [discriminate |].
    destruct (map_res f l) as [| ys]; [discriminate |].
    inversion H. simpl. rewrite (IH ys); reflexivity.
Qed.

Lemma column_length :
  forall (boxy_array : list (list cell)) k,
    length (column boxy_array k) = length boxy_array.
Proof. intros. unfold column. apply length_map. Qed.

(** One step of the loops on a parsed file: the whole column goes to row
    [index_loc]. *)
Lemma place_series_parsed :
  forall dn sn data_types col_names boxy_array meta_data ncols
         i_data i_detect i_source data_ dpos tpos channel,
    Py.index_of i_detect detectors = Some dpos ->
    Py.index_of i_data data_types = Some tpos ->
    Py.index_of (i_detect ++ "-" ++ i_data ++ Py.str_Z i_source) col_names
    = Some channel ->
    length boxy_array = ncols ->
    place_series dn sn Parsed data_types col_names boxy_array meta_data ncols
                 i_data i_detect i_source data_
    = (pos <- of_option IndexError
                (Py.index_pos (length data_)
                   (Z.of_nat dpos * sn + (i_source - 1)
                    + Z.of_nat tpos * (sn * dn))) ;;
       of_option IndexError (set_item data_ pos (column boxy_array channel))).
Proof.
  intros dn sn dts cols arr meta ncols i_data i_detect i_source data_
         dpos tpos channel Hd Ht Hc Hlen.
  unfold place_series, assign_row. rewrite Hd, Ht, Hc. simpl.
  destruct (Py.index_pos _ _); simpl; [| reflexivity].
  rewrite column_length, Hlen, Nat.eqb_refl. reflexivity.
Qed.

Lemma assemble_block_parsed_2x3 :
  forall an cc sr sl el cols rows boxy_array k1 k2 k3 k4 k5 k6,
    length rows = 100%nat ->
    map_res (padded_row (length cols))
            (map (fun i_row => Re.findall Re.match_number (Py.item0 i_row)) rows)
    = Ok boxy_array ->
    Py.index_of "A-AC1" cols = Some k1 ->
    Py.index_of "A-AC2" cols = Some k2 ->
    Py.index_of "A-AC3" cols = Some k3 ->
    Py.index_of "B-AC1" cols = Some k4 ->
    Py.index_of "B-AC2" cols = Some k5 ->
    Py.index_of "B-AC3" cols = Some k6 ->
    assemble_block (Header [2%Z] [3%Z] an cc sr sl el [Parsed]) ["AC"] 0
                   (Some cols) rows
    = Ok (map (column boxy_array) [k1; k2; k3; k4; k5; k6]).
Proof.
  intros an cc sr sl el cols rows arr k1 k2 k3 k4 k5 k6
         Hrows Harr H1 H2 H3 H4 H5 H6.
  assert (Hlen : length arr = Z.to_nat 100).
  { rewrite (map_res_length _ _ _ Harr), length_map, Hrows. reflexivity. }
  unfold assemble_block.
  cbn [source_num detect_num filetype Py.get nth_error of_option bind res_monad].
  rewrite Harr.
  cbn [bind res_monad ret]. rewrite length_map, Hrows.
  change (Z.of_nat 100) with 100%Z.
  unfold zeros.
  remember (Z.to_nat 100) as n eqn:Hn.
  remember (repeat (Num float_zero) n) as z eqn:Hz.
  change (Py.slice_to detectors 2) with ["A"; "B"].
  change (Py.arange 1 (3 + 1) 1) with [1; 2; 3]%Z.
  change (Z.to_nat (2 * 3 * Z.of_nat (length ["AC"]))) with 6%nat.
  cbn -[place_series column].
  repeat (erewrite place_series_parsed;
          [ | reflexivity | reflexivity | eassumption | exact Hlen ];
          cbn -[place_series column Pos.to_nat];
          repeat match goal with
                 | |- context [Pos.to_nat ?p] =>
                     let v := eval compute in (Pos.to_nat p) in
                     change (Pos.to_nat p) with v
                 end;
          cbn -[place_series column Pos.to_nat]).
  reflexivity.
Qed.

(** C3: a parsed file of two detectors and three sources, whose data region
    has 100 rows under column names that include A-AC1..A-AC3 and
    B-AC1..B-AC3, read for AC into a 6 x 100 array: the result has six rows of
    100 entries, row 0 is column A-AC1 of the file's array and row 3 is
    column B-AC1 (every row [d * 3 + (s - 1)] is the column of detector [d],
    source [s]). *)
Theorem parsed_two_detectors_three_sources :
  forall (e : env) (self : recording) (path mtg blk : string)
         an cc sr sl el (lines : list string)
         (cols : list string) (rows : list (list string))
         (boxy_array : list (list cell)) (k1 k2 k3 k4 k5 k6 : nat)
         (idx : list nat) (start stop : Z) cals mult,
    extras self
    = [RawExtras (Header [2%Z] [3%Z] an cc sr sl el [Parsed])
                 [path] [mtg] [[blk]] ["AC"]] ->
    file_lines e path = Some lines ->
    for_each (enumerate 1 lines)
             (read_line (Header [2%Z] [3%Z] an cc sr sl el [Parsed]) 0 0)
             (None, [])
    = Ok (Some cols, rows) ->
    length rows = 100%nat ->
    map_res (padded_row (length cols))
            (map (fun i_row => Re.findall Re.match_number (Py.item0 i_row)) rows)
    = Ok boxy_array ->
    Py.index_of "A-AC1" cols = Some k1 ->
    Py.index_of "A-AC2" cols = Some k2 ->
    Py.index_of "A-AC3" cols = Some k3 ->
    Py.index_of "B-AC1" cols = Some k4 ->
    Py.index_of "B-AC2" cols = Some k5 ->
    Py.index_of "B-AC3" cols = Some k6 ->
    exists data,
      outcome (read_segment_file e self 6 100 idx 0 start stop cals mult)
      = Ok data
      /\ data = map (column boxy_array) [k1; k2; k3; k4; k5; k6]
      /\ length data = 6%nat
      /\ Forall (fun row => length row = 100%nat) data
      /\ nth_error data 0 = Some (column boxy_array k1)
      /\ nth_error data 3 = Some (column boxy_array k4).
Proof.
  intros e self path mtg blk an cc sr sl el lines cols rows arr
         k1 k2 k3 k4 k5 k6 idx start stop cals mult
         Hex Hfile Hread Hrows Harr H1 H2 H3 H4 H5 H6.
  assert (Hlen : length arr = 100%nat).
  { rewrite (map_res_length _ _ _ Harr), length_map, Hrows. reflexivity. }
  exists (map (column arr) [k1; k2; k3; k4; k5; k6]).
  split; [| split; [reflexivity | split; [reflexivity | split; [| split; reflexivity]]]].
  - unfold read_segment_file. rewrite Hex.
    cbn [Py.get nth_error of_option lift bind io_monad montages enumerate
         length seq combine for_each].
    unfold read_montage at 1.
    cbn [blocks Py.get nth_error of_option lift bind io_monad enumerate
         length seq combine for_each].
    unfold read_block at 1.
    cbn [blocks files scanned data_types Py.get nth_error of_option lift bind
         io_monad length Nat.add Nat.mul].
    unfold open. rewrite Hfile.
    cbn [emit lift bind io_monad of_option].
    rewrite Hread.
    cbn [fst snd bind io_monad].
    rewrite (assemble_block_parsed_2x3 an cc sr sl el cols rows arr
               k1 k2 k3 k4 k5 k6 Hrows Harr H1 H2 H3 H4 H5 H6).
    cbn [bind io_monad res_monad ret fst snd app hstack lift trace outcome map
         of_option].
    unfold shape_of, assign_all, print, emit.
    cbn -[column]. rewrite !column_length, !Hlen.
    cbn -[column]. reflexivity.
  - repeat constructor; rewrite column_length; exact Hlen.
Qed.

(** *** Rows of a non-parsed file *)

Lemma map_res_pointwise :
  forall {X Y} (f : X -> res Y) (g : X -> Y) (l : list X),
    (forall x, In x l -> f x = Ok (g x)) ->
    map_res f l = Ok (map g l).
Proof.
  induction l as [| x l IH]; intros H; simpl; [reflexivity |].
  rewrite (H x (or_introl eq_refl)), IH; [reflexivity |].
  intros y Hy. apply H. right. exact Hy.
Qed.

(** The time points of source [i_source]: as many as the last record says,
    [sn] rows apart from row [i_source - 1] on. *)
Lemma time_points_strided :
  forall (i_source n sn : Z),
    (1 <= i_source <= sn)%Z -> (0 <= n)%Z ->
    Py.arange (i_source - 1) (n * sn) sn
    = map (fun k => (i_source - 1 + Z.of_nat k * sn)%Z) (seq 0 (Z.to_nat n)).
Proof.
  intros i_source n sn Hs Hn. unfold Py.arange.
  replace (i_source - 1 - n * sn)%Z with (i_source - 1 + (- n) * sn)%Z by ring.
  rewrite Z.div_add by lia. rewrite (Z.div_small (i_source - 1) sn) by lia.
  do 2 f_equal. lia.
Qed.

Lemma index_pos_in_range :
  forall (len : nat) (i : Z),
    (0 <= i < Z.of_nat len)%Z -> Py.index_pos len i = Some (Z.to_nat i).
Proof.
  intros len i H. unfold Py.index_pos.
  destruct (Z.leb_spec 0 i); [| lia].
  destruct (Z.ltb_spec i (Z.of_nat len)); [reflexivity | lia].
Qed.

(** C2, as the code has it: on a non-parsed file the series of a source is
    gathered from the rows [i_source - 1], [i_source - 1 + sn], ..., one row
    for each unit of the last entry [n] of the record column, so below row
    [n * sn]; with three sources and a last record of 300 that is 300 time
    points per source (from rows 0, 1 and 2 on), and 900 rows are needed. *)
Theorem nonparsed_series_is_strided :
  forall (dn sn : Z) (data_types col_names : list string)
         (boxy_array : list (list cell)) (meta_data : list (string * list cell))
         (ncols : nat) (i_data i_detect : string) (i_source : Z)
         (data_ : list (list cell)) (dpos tpos channel : nat)
         (record : list cell) (last : cell) (n : Z),
    Py.index_of i_detect detectors = Some dpos ->
    Py.index_of i_data data_types = Some tpos ->
    dict_get meta_data "record" = Ok record ->
    Py.last_item record = Some last ->
    cell_int last = Ok n ->
    Py.index_of (i_detect ++ "-" ++ i_data) col_names = Some channel ->
    (1 <= i_source <= sn)%Z ->
    (0 <= n)%Z ->
    (n * sn <= Z.of_nat (length boxy_array))%Z ->
    let series :=
      map (fun k =>
             nth channel
                 (nth (Z.to_nat (i_source - 1 + Z.of_nat k * sn)) boxy_array [])
                 Uninit)
          (seq 0 (Z.to_nat n)) in
    place_series dn sn NonParsed data_types col_names boxy_array meta_data ncols
                 i_data i_detect i_source data_
    = assign_row data_ ncols
                 (Z.of_nat dpos * sn + (i_source - 1) + Z.of_nat tpos * (sn * dn))
                 series
    /\ length series = Z.to_nat n
    /\ (sn = 3%Z -> n = 300%Z ->
        length series = 300%nat
        /\ In (i_source - 1)%Z [0; 1; 2]%Z
        /\ (900 <= length boxy_array)%nat).
Proof.
  intros dn sn dts cols arr meta ncols i_data i_detect i_source data_
         dpos tpos channel record last n Hd Ht Hrec Hlast Hint Hch Hs Hn Hrows
         series.
  split; [| split].
  - unfold place_series. rewrite Hd, Ht. cbn [bind res_monad of_option].
    rewrite Hrec. cbn [bind res_monad]. rewrite Hlast. cbn [bind res_monad of_option].
    rewrite Hint. cbn [bind res_monad].
    destruct (Z.eqb_spec sn 0) as [H0 | H0]; [lia |].
    cbn [bind res_monad ret]. rewrite Hch. cbn [bind res_monad of_option].
    rewrite (time_points_strided i_source n sn Hs Hn).
    unfold gather.
    rewrite (map_res_pointwise _
               (fun tp => nth channel (nth (Z.to_nat tp) arr []) Uninit)).
    + cbn [bind res_monad]. rewrite map_map. reflexivity.
    + intros tp Hin. apply in_map_iff in Hin as (k & <- & Hk).
      apply in_seq in Hk.
      rewrite index_pos_in_range by nia. reflexivity.
  - unfold series. rewrite length_map, length_seq. reflexivity.
  - intros -> ->. split; [| split].
    + unfold series. rewrite length_map, length_seq. reflexivity.
    + assert (i_source = 1 \/ i_source = 2 \/ i_source = 3)%Z as [-> | [-> | ->]] by lia;
        simpl; auto.
    + lia.
Qed.

(** *** Labels and rows *)

Lemma for_each_app :
  forall {X S} (l1 l2 : list X) (body : X -> S -> res S) (s : S),
    for_each (l1 ++ l2) body s
    = bind (for_each l1 body s) (for_each l2 body).
Proof.
  induction l1 as [| x l1 IH]; intros l2 body s; simpl; [reflexivity |].
  destruct (body x s); simpl; [reflexivity | apply IH].
Qed.

(** A loop whose body only passes on a property of the state. *)
Lemma for_each_preserves :
  forall {X S} (P : S -> S -> Prop) (body : X -> S -> res S),
    (forall s, P s s) ->
    (forall s1 s2 s3, P s1 s2 -> P s2 s3 -> P s1 s3) ->
    (forall x s s', body x s = Ok s' -> P s s') ->
    forall xs s s', for_each xs body s = Ok s' -> P s s'.
Proof.
  intros X S P body Hrefl Htrans Hbody.
  induction xs as [| x xs IH]; intros s s' H; simpl in H.
  - inversion H. apply Hrefl.
  - destruct (body x s) as [| s1] eqn:Hb; simpl in H; [discriminate |].
    eapply Htrans; [eapply Hbody; exact Hb | apply IH; exact H].
Qed.

Lemma extends_refl : forall s, extends s s.
Proof. intros s. exists []. rewrite app_nil_r. reflexivity. Qed.

Lemma extends_trans :
  forall s1 s2 s3, extends s1 s2 -> extends s2 s3 -> extends s1 s3.
Proof.
  intros s1 s2 s3 [t1 ->] [t2 ->]. exists (t1 ++ t2). rewrite app_assoc. reflexivity.
Qed.

(** The loop over the sources of one detector. *)
Lemma source_loop_labels :
  forall (mtg_num det_num : nat) (srcs : list nat) (acc : list string),
    for_each srcs
      (fun src_num labels => ret (labels ++ [label src_num det_num mtg_num])) acc
    = Ok (acc ++ map (fun src_num => label src_num det_num mtg_num) srcs).
Proof.
  induction srcs as [| x srcs IH]; intros acc; simpl.
  - rewrite app_nil_r. reflexivity.
  - rewrite IH, <- app_assoc. reflexivity.
Qed.

(** The loop over the detectors of one montage. *)
Lemma detector_loop_labels :
  forall blk_names (h : header) (mtg_num : nat) (sn : Z) (dets : list nat)
         (acc : list string),
    per_montage blk_names (source_num h) mtg_num = Ok sn ->
    for_each dets
      (fun det_num labels =>
         sn <- per_montage blk_names (source_num h) mtg_num ;;
         for_each (Py.range sn)
           (fun src_num labels => ret (labels ++ [label src_num det_num mtg_num]))
           labels) acc
    = Ok (acc ++ flat_map (fun det_num =>
                             map (fun src_num => label src_num det_num mtg_num)
                                 (seq 0 (Z.to_nat sn))) dets).
Proof.
  intros blk_names h mtg_num sn dets acc Hsn. rewrite Hsn. clear Hsn.
  revert acc. induction dets as [| d dets IH]; intros acc.
  - simpl. rewrite app_nil_r. reflexivity.
  - cbn [for_each bind res_monad].
    rewrite source_loop_labels. cbn [bind res_monad].
    cbn [for_each bind res_monad] in IH. rewrite IH.
    simpl. rewrite <- app_assoc. reflexivity.
Qed.

Lemma for_each_ext :
  forall {X S} (body body' : X -> S -> res S),
    (forall x s, body x s = body' x s) ->
    forall xs s, for_each xs body s = for_each xs body' s.
Proof.
  intros X S body body' H. induction xs as [| x xs IH]; intros s; simpl.
  - reflexivity.
  - rewrite H. destruct (body' x s); simpl; [reflexivity | apply IH].
Qed.

Lemma boxy_labels_unfold :
  forall (h : header) mtg_names blk_names,
    boxy_labels h mtg_names blk_names
    = for_each (enumerate 0 mtg_names) (montage_step h blk_names) [].
Proof.
  intros. unfold boxy_labels. apply for_each_ext.
  intros [mtg_num name] labels. reflexivity.
Qed.

Lemma montage_step_labels :
  forall (h : header) blk_names mtg_num name dn sn acc,
    per_montage blk_names (detect_num h) mtg_num = Ok dn ->
    per_montage blk_names (source_num h) mtg_num = Ok sn ->
    montage_step h blk_names (mtg_num, name) acc
    = Ok (acc ++ montage_labels mtg_num (Z.to_nat dn) (Z.to_nat sn)).
Proof.
  intros h blk_names mtg_num name dn sn acc Hdn Hsn.
  unfold montage_step. rewrite Hdn. cbn [bind res_monad].
  apply detector_loop_labels. exact Hsn.
Qed.

Lemma montage_step_extends :
  forall (h : header) blk_names mtg acc labels,
    montage_step h blk_names mtg acc = Ok labels -> extends acc labels.
Proof.
  intros h blk_names [mtg_num name] acc labels H. unfold montage_step in H.
  destruct (per_montage blk_names (detect_num h) mtg_num) as [| dn];
    cbn [bind res_monad] in H; [discriminate |].
  revert H. apply (for_each_preserves extends); auto using extends_refl.
  - apply extends_trans.
  - intros det_num s s' H.
    destruct (per_montage blk_names (source_num h) mtg_num) as [| sn];
      cbn [bind res_monad] in H; [discriminate |].
    rewrite source_loop_labels in H. inversion H. eexists; reflexivity.
Qed.

Lemma montage_labels_length :
  forall m dn sn, length (montage_labels m dn sn) = (dn * sn)%nat.
Proof.
  intros m dn sn. unfold montage_labels.
  assert (G : forall n a,
             length (flat_map (fun det_num =>
                                 map (fun src_num => label src_num det_num m)
                                     (seq 0 sn)) (seq a n))
             = (n * sn)%nat).
  { induction n as [| n IH]; intros a; simpl; [reflexivity |].
    rewrite length_app, length_map, length_seq, IH. reflexivity. }
  apply G.
Qed.

Lemma montage_labels_nth :
  forall m dn sn d s,
    (d < dn)%nat -> (s < sn)%nat ->
    nth_error (montage_labels m dn sn) (d * sn + s) = Some (label s d m).
Proof.
  intros m dn sn d s Hd Hs. unfold montage_labels.
  assert (G : forall n a k,
             (k < n)%nat ->
             nth_error
               (flat_map (fun det_num =>
                            map (fun src_num => label src_num det_num m)
                                (seq 0 sn)) (seq a n))
               (k * sn + s)
             = Some (label s (a + k) m)).
  { induction n as [| n IH]; intros a k Hk; [lia |].
    simpl. destruct k as [| k].
    - rewrite nth_error_app1 by (rewrite length_map, length_seq; simpl; lia).
      simpl. rewrite nth_error_map, nth_error_seq.
      destruct (Nat.ltb_spec s sn); [| lia]. simpl.
      rewrite Nat.add_0_r. reflexivity.
    - rewrite nth_error_app2 by (rewrite length_map, length_seq; simpl; lia).
      rewrite length_map, length_seq.
      replace (S k * sn + s - sn)%nat with (k * sn + s)%nat by (simpl; lia).
      rewrite IH by lia. do 2 f_equal. lia. }
  apply (G dn 0%nat d Hd).
Qed.

Lemma enumerate_cons :
  forall {A} (a : nat) (x : A) (l : list A),
    enumerate a (x :: l) = (a, x) :: enumerate (S a) l.
Proof. reflexivity. Qed.

Lemma enumerate_app :
  forall {A} (l1 l2 : list A) (a : nat),
    enumerate a (l1 ++ l2) = enumerate a l1 ++ enumerate (a + length l1) l2.
Proof.
  induction l1 as [| x l1 IH]; intros l2 a.
  - simpl. rewrite Nat.add_0_r. reflexivity.
  - rewrite <- app_comm_cons, !enumerate_cons, IH. simpl.
    rewrite Nat.add_succ_r. reflexivity.
Qed.

(** The labels of the montages [a], ..., [a + length names - 1], when the
    counts of each can be read. *)
Lemma montage_loop_labels :
  forall (h : header) blk_names names a acc labels,
    (forall m, (a <= m < a + length names)%nat ->
               (exists dn, per_montage blk_names (detect_num h) m = Ok dn)
               /\ exists sn, per_montage blk_names (source_num h) m = Ok sn) ->
    for_each (enumerate a names) (montage_step h blk_names) acc = Ok labels ->
    exists new,
      labels = acc ++ new
      /\ length new = rows_from h blk_names a (length names).
Proof.
  intros h blk_names names. induction names as [| nm names IH];
    intros a acc labels Hcnt Hrun.
  - simpl in Hrun. inversion Hrun. exists []. rewrite app_nil_r. auto.
  - rewrite enumerate_cons in Hrun. cbn [for_each] in Hrun.
    destruct (Hcnt a) as [[dn Hdn] [sn Hsn]]; [simpl; lia |].
    rewrite (montage_step_labels h blk_names a nm dn sn acc Hdn Hsn) in Hrun.
    cbn [bind res_monad] in Hrun.
    apply IH in Hrun; [| intros m Hm; apply Hcnt; simpl; lia].
    destruct Hrun as (new & -> & Hlen).
    exists (montage_labels a (Z.to_nat dn) (Z.to_nat sn) ++ new).
    split; [rewrite app_assoc; reflexivity |].
    rewrite length_app, montage_labels_length, Hlen.
    unfold rows_from. simpl. unfold rows_of at 2. rewrite Hdn, Hsn. reflexivity.
Qed.

(** Stepping through a chain of binds that ended well. *)
Ltac ok_step H :=
  cbn [bind res_monad ret] in H;
  match type of H with
  | match ?c with Raise _ => _ | Ok _ => _ end = Ok _ =>
      let E := fresh "E" in
      destruct c eqn:E; [discriminate H |]
  | (if ?b then _ else _) = Ok _ =>
      let E := fresh "E" in
      destruct b eqn:E; try discriminate H
  end.

Lemma set_item_same_length :
  forall {A} (l : list A) (i : nat) (x : A) (l' : list A),
    set_item l i x = Some l' -> length l' = length l.
Proof.
  induction l as [| y t IH]; intros i x l' H; simpl in H; [discriminate |].
  destruct i as [| j].
  - inversion H. reflexivity.
  - destruct (set_item t j x) as [t' |] eqn:E; simpl in H; [| discriminate].
    inversion H. simpl. rewrite (IH _ _ _ E). reflexivity.
Qed.

Lemma assign_row_length :
  forall (data_ : list (list cell)) ncols index_loc vec data',
    assign_row data_ ncols index_loc vec = Ok data' ->
    length data' = length data_.
Proof.
  intros data_ ncols index_loc vec data' H. unfold assign_row in H.
  repeat ok_step H.
  all: cbn [bind res_monad ret] in H;
    destruct (set_item data_ _ _) eqn:Hs; simpl in H; [| discriminate];
    inversion H; subst; eapply set_item_same_length; exact Hs.
Qed.

Lemma place_series_length :
  forall dn sn ft data_types col_names boxy_array meta_data ncols
         i_data i_detect i_source data_ data',
    place_series dn sn ft data_types col_names boxy_array meta_data ncols
                 i_data i_detect i_source data_ = Ok data' ->
    length data' = length data_.
Proof.
  intros dn sn ft dts cols arr meta ncols i_data i_detect i_source data_ data' H.
  unfold place_series in H.
  do 2 ok_step H. destruct ft.
  - ok_step H. eapply assign_row_length; exact H.
  - repeat ok_step H. eapply assign_row_length; exact H.
Qed.

Lemma zeros_length :
  forall r c (data_ : list (list cell)),
    zeros r c = Ok data_ -> length data_ = Z.to_nat r.
Proof.
  intros r c data_ H. unfold zeros in H.
  destruct ((r <? 0)%Z || (c <? 0)%Z); [discriminate |].
  inversion H. apply repeat_length.
Qed.

(** The block of a file has as many rows as its header counts say. *)
Lemma assemble_block_rows :
  forall (h : header) data_types file_num col_names boxy_data data_,
    assemble_block h data_types file_num col_names boxy_data = Ok data_ ->
    exists dn sn,
      Py.get (detect_num h) file_num = Some dn
      /\ Py.get (source_num h) file_num = Some sn
      /\ length data_ = Z.to_nat (dn * sn * Z.of_nat (length data_types)).
Proof.
  intros h dts file_num cn rows data_ H. unfold assemble_block in H.
  destruct (Py.get (source_num h) file_num) as [sn |] eqn:Hsn;
    cbn [of_option bind res_monad] in H; [| discriminate].
  destruct cn as [cols |]; cbn [of_option bind res_monad] in H; [| discriminate].
  ok_step H.
  destruct (Py.get (detect_num h) file_num) as [dn |] eqn:Hdn;
    cbn [of_option bind res_monad] in H; [| discriminate].
  do 3 ok_step H.
  exists dn, sn. split; [reflexivity |]. split; [reflexivity |].
  match goal with
  | Hz : zeros _ _ = Ok ?d0 |- _ => rewrite <- (zeros_length _ _ _ Hz)
  end.
  revert H. apply (for_each_preserves (fun s s' => length s' = length s));
    [reflexivity | intros; congruence |].
  intros i_data s s'.
  apply (for_each_preserves (fun s s' => length s' = length s));
    [reflexivity | intros; congruence |].
  intros i_detect s1 s1'.
  apply (for_each_preserves (fun s s' => length s' = length s));
    [reflexivity | intros; congruence |].
  intros i_source s2 s2'. apply place_series_length.
Qed.

(** Blocks side by side: as many rows as each of them. *)
Lemma hstack_length :
  forall (all_blocks : list (list (list cell))) r,
    hstack all_blocks = Ok r ->
    all_blocks <> [] /\ Forall (fun b => length b = length r) all_blocks.
Proof.
  induction all_blocks as [| b rest IH]; intros r H; [discriminate |].
  split; [discriminate |].
  destruct rest as [| b' rest'].
  - simpl in H. inversion H. constructor; [reflexivity | constructor].
  - change (hstack (b :: b' :: rest'))
      with (r <- hstack (b' :: rest') ;;
            if (length b =? length r)%nat
            then ret (map (fun p => fst p ++ snd p) (combine b r))
            else Raise ValueError) in H.
    destruct (hstack (b' :: rest')) as [| r'] eqn:Hr;
      cbn [bind res_monad] in H; [discriminate |].
    destruct (Nat.eqb_spec (length b) (length r')) as [Heq | Hne];
      cbn [ret res_monad] in H; [| discriminate H].
    inversion H. subst r.
    assert (Hlen : length (map (fun p => fst p ++ snd p) (combine b r'))
                   = length r').
    { rewrite length_map, length_combine, Heq. apply Nat.min_id. }
    destruct (IH r' eq_refl) as [_ Hall].
    constructor; [congruence |].
    eapply Forall_impl; [| exact Hall]. intros a Ha. congruence.
Qed.

(** Stepping through a chain of I/O binds that ended well. *)
Ltac io_step H :=
  rewrite outcome_bind in H;
  match type of H with
  | match ?c with Raise _ => _ | Ok _ => _ end = Ok _ =>
      let E := fresh "E" in
      destruct c eqn:E; [discriminate H |]
  end.

Lemma outcome_for_each_cons :
  forall {X S} (x : X) (xs : list X) (body : X -> S -> io S) (s : S),
    outcome (for_each (x :: xs) body s)
    = match outcome (body x s) with
      | Raise e => Raise e
      | Ok s1 => outcome (for_each xs body s1)
      end.
Proof. intros. cbn [for_each]. apply outcome_bind. Qed.

(** What reading one block adds to the blocks of its montage. *)
Lemma read_block_rows :
  forall e (ex : raw_extras) i_mtg blocks_mtg i_blk nm cn bl cn' bl',
    nth_error (blocks ex) i_mtg = Some blocks_mtg ->
    outcome (read_block e ex i_mtg (i_blk, nm) (cn, bl)) = Ok (cn', bl') ->
    exists data_ dn sn,
      bl' = bl ++ [data_]
      /\ Py.get (detect_num (scanned ex)) (i_blk + i_mtg * length blocks_mtg)
         = Some dn
      /\ Py.get (source_num (scanned ex)) (i_blk + i_mtg * length blocks_mtg)
         = Some sn
      /\ length data_
         = Z.to_nat (dn * sn * Z.of_nat (length (data_types ex))).
Proof.
  intros e ex i_mtg blocks_mtg i_blk nm cn bl cn' bl' Hb H.
  unfold read_block in H. unfold Py.get at 1 in H. rewrite Hb in H.
  cbn [of_option lift] in H.
  io_step H. cbn [outcome] in E. inversion E. subst.
  do 4 io_step H.
  cbn [outcome lift] in *.
  match goal with
  | Hasm : assemble_block _ _ _ _ _ = Ok ?data_ |- _ =>
      apply assemble_block_rows in Hasm;
      destruct Hasm as (dn & sn & Hdn & Hsn & Hlen);
      inversion H; subst; exists data_, dn, sn; auto
  end.
Qed.

(** The loop over the blocks of a montage. *)
Lemma block_loop_rows :
  forall e (ex : raw_extras) i_mtg blocks_mtg,
    nth_error (blocks ex) i_mtg = Some blocks_mtg ->
    forall names a cn bl cn' bl',
      (a + length names <= length blocks_mtg)%nat ->
      outcome (for_each (enumerate a names) (read_block e ex i_mtg) (cn, bl))
      = Ok (cn', bl') ->
      exists new,
        bl' = bl ++ new
        /\ length new = length names
        /\ Forall (fun data_ =>
                     exists i_blk dn sn,
                       (i_blk < length blocks_mtg)%nat
                       /\ Py.get (detect_num (scanned ex))
                                 (i_blk + i_mtg * length blocks_mtg) = Some dn
                       /\ Py.get (source_num (scanned ex))
                                 (i_blk + i_mtg * length blocks_mtg) = Some sn
                       /\ length data_
                          = Z.to_nat (dn * sn
                                      * Z.of_nat (length (data_types ex))))
                  new.
Proof.
  intros e ex i_mtg blocks_mtg Hb.
  induction names as [| nm names IH]; intros a cn bl cn' bl' Ha H.
  - simpl in H. inversion H. exists []. rewrite app_nil_r. auto.
  - rewrite enumerate_cons, outcome_for_each_cons in H.
    destruct (outcome (read_block e ex i_mtg (a, nm) (cn, bl)))
      as [| [cn1 bl1]] eqn:Hone; [discriminate |].
    apply (read_block_rows _ _ _ _ _ _ _ _ _ _ Hb) in Hone.
    destruct Hone as (data_ & dn & sn & -> & Hdn & Hsn & Hlen).
    apply IH in H; [| simpl in Ha; lia].
    destruct H as (new & -> & Hnew & Hall).
    exists (data_ :: new). split; [rewrite <- app_assoc; reflexivity |].
    split; [simpl; congruence |].
    constructor; [| exact Hall].
    exists a, dn, sn. simpl in Ha. repeat split; auto. lia.
Qed.

Lemma nonneg_get :
  forall (l : list Z) i n,
    Forall (Z.le 0) l -> Py.get l i = Some n -> (0 <= n)%Z.
Proof.
  intros l i n Hall Hget. unfold Py.get in Hget.
  apply nth_error_In in Hget. rewrite Forall_forall in Hall. auto.
Qed.

(** Under the agreement of the blocks, a block of [rows_of] rows. *)
Lemma agreed_block_rows :
  forall (h : header) blk_names (dt : string) i_mtg blocks_mtg i_blk dn sn,
    blocks_agree h blk_names ->
    Forall (Z.le 0) (detect_num h) ->
    Forall (Z.le 0) (source_num h) ->
    nth_error blk_names i_mtg = Some blocks_mtg ->
    (i_blk < length blocks_mtg)%nat ->
    Py.get (detect_num h) (i_blk + i_mtg * length blocks_mtg) = Some dn ->
    Py.get (source_num h) (i_blk + i_mtg * length blocks_mtg) = Some sn ->
    per_montage blk_names (detect_num h) i_mtg = Ok dn
    /\ per_montage blk_names (source_num h) i_mtg = Ok sn
    /\ Z.to_nat (dn * sn * Z.of_nat (length [dt])) = rows_of h blk_names i_mtg
    /\ (0 <= dn)%Z /\ (0 <= sn)%Z.
Proof.
  intros h blk_names dt i_mtg blocks_mtg i_blk dn sn Hagree Hd Hs Hb Hi Hdn Hsn.
  destruct (Hagree i_mtg blocks_mtg i_blk Hb Hi) as [Ad As].
  rewrite Hdn in Ad. rewrite Hsn in As. simpl in Ad, As.
  pose proof (nonneg_get _ _ _ Hd Hdn). pose proof (nonneg_get _ _ _ Hs Hsn).
  repeat split; auto.
  unfold rows_of. rewrite <- Ad, <- As. simpl length.
  rewrite Z.mul_1_r. apply Z2Nat.inj_mul; assumption.
Qed.

(** What reading one montage adds to the rows of the output. *)
Lemma read_montage_rows :
  forall e (ex : raw_extras) dt i_mtg nm cn all_data cn' all_data',
    blocks_agree (scanned ex) (blocks ex) ->
    Forall (Z.le 0) (detect_num (scanned ex)) ->
    Forall (Z.le 0) (source_num (scanned ex)) ->
    data_types ex = [dt] ->
    outcome (read_montage e ex (i_mtg, nm) (cn, all_data)) = Ok (cn', all_data') ->
    length all_data'
    = (length all_data + rows_of (scanned ex) (blocks ex) i_mtg)%nat
    /\ (exists dn, per_montage (blocks ex) (detect_num (scanned ex)) i_mtg = Ok dn)
    /\ (exists sn, per_montage (blocks ex) (source_num (scanned ex)) i_mtg = Ok sn).
Proof.
  intros e ex dt i_mtg nm cn all_data cn' all_data' Hagree Hd Hs Hdt H.
  unfold read_montage in H.
  destruct (nth_error (blocks ex) i_mtg) as [blocks_mtg |] eqn:Hb.
  2:{ unfold Py.get in H. rewrite Hb in H. simpl in H. discriminate. }
  unfold Py.get at 1 in H. rewrite Hb in H. cbn [of_option lift] in H.
  io_step H. cbn [outcome] in E. inversion E. subst.
  io_step H. destruct a0 as [cn1 blks].
  io_step H. cbn [outcome lift fst snd] in *.
  inversion H. subst.
  apply (block_loop_rows _ _ _ _ Hb) in E0; [| simpl; lia].
  destruct E0 as (new & Hnew & Hlen & Hall). simpl in Hnew. subst blks.
  apply hstack_length in E1. destruct E1 as [Hne Hsame].
  destruct new as [| b0 new]; [congruence |].
  inversion Hall as [| ? ? (i_blk & dn & sn & Hi & Hdn & Hsn & Hrows) _]. subst.
  rewrite Hdt in Hrows.
  destruct (agreed_block_rows _ _ dt _ _ _ _ _ Hagree Hd Hs Hb Hi Hdn Hsn)
    as (Pd & Ps & Hr & _ & _).
  inversion Hsame as [| ? ? Hb0 _]. subst.
  split; [| split; eauto].
  rewrite length_app. congruence.
Qed.

(** The loop over the montages [a], ..., [a + length names - 1]. *)
Lemma montage_loop_rows :
  forall e (ex : raw_extras) dt,
    blocks_agree (scanned ex) (blocks ex) ->
    Forall (Z.le 0) (detect_num (scanned ex)) ->
    Forall (Z.le 0) (source_num (scanned ex)) ->
    data_types ex = [dt] ->
    forall names a st st',
      outcome (for_each (enumerate a names) (read_montage e ex) st) = Ok st' ->
      length (snd st')
      = (length (snd st)
         + rows_from (scanned ex) (blocks ex) a (length names))%nat
      /\ forall m, (a <= m < a + length names)%nat ->
           (exists dn,
               per_montage (blocks ex) (detect_num (scanned ex)) m = Ok dn)
           /\ (exists sn,
                  per_montage (blocks ex) (source_num (scanned ex)) m = Ok sn).
Proof.
  intros e ex dt Hagree Hd Hs Hdt.
  induction names as [| nm names IH]; intros a st st' H.
  - simpl in H. inversion H. unfold rows_from. simpl.
    split; [lia | intros m Hm; lia].
  - rewrite enumerate_cons, outcome_for_each_cons in H.
    destruct st as [cn all_data].
    destruct (outcome (read_montage e ex (a, nm) (cn, all_data)))
      as [| [cn1 all1]] eqn:Hone; [discriminate |].
    apply (read_montage_rows _ _ dt) in Hone; auto.
    destruct Hone as (Hlen & Pd & Ps).
    apply IH in H. destruct H as (Hlen' & Hcnt).
    split.
    + rewrite Hlen'. cbn [snd]. rewrite Hlen. unfold rows_from. simpl. lia.
    + intros m Hm. destruct (Nat.eq_dec m a) as [-> | Hne]; [auto |].
      apply Hcnt. simpl in Hm. lia.
Qed.

(** Reading a label back. *)
Lemma span_digits_then :
  forall (d : Decimal.uint) (c : ascii) (rest : string),
    Py.is_digit c = false ->
    Py.span Py.is_digit (NilEmpty.string_of_uint d ++ String c rest)
    = (NilEmpty.string_of_uint d, String c rest).
Proof.
  intros d c rest Hc.
  induction d as [| d IH | d IH | d IH | d IH | d IH | d IH | d IH | d IH
                  | d IH | d IH];
    cbn [NilEmpty.string_of_uint String.append Py.span];
    [rewrite Hc; reflexivity | ..];
    (change (Py.is_digit _) with true; cbv iota; rewrite IH; reflexivity).
Qed.

Lemma nat_of_string_str_nat :
  forall n, nat_of_string (Py.str_nat n) = Some n.
Proof.
  intros n. unfold nat_of_string, Py.str_nat.
  rewrite NilEmpty.usu. simpl. rewrite Unsigned.of_to. reflexivity.
Qed.

Lemma decode_label_label :
  forall src_num det_num mtg_num,
    decode_label (label src_num det_num mtg_num)
    = Some (mtg_num + 1, det_num + 1, src_num + 1)%nat.
Proof.
  intros s d m. unfold label, decode_label, Py.str_nat.
  cbn [String.append].
  rewrite span_digits_then by reflexivity.
  rewrite span_digits_then by reflexivity.
  fold (Py.str_nat (s + 1)). fold (Py.str_nat (d + 1)). fold (Py.str_nat (m + 1)).
  rewrite !nat_of_string_str_nat. reflexivity.
Qed.

(** A detector of the slice sits before the slice's end. *)
Lemma index_of_le :
  forall (l : list string) k x,
    nth_error l k = Some x ->
    exists j, Py.index_of x l = Some j /\ (j <= k)%nat.
Proof.
  induction l as [| y l IH]; intros k x H; [destruct k; discriminate |].
  simpl. destruct (String.eqb_spec y x) as [-> | Hne].
  - exists 0%nat. split; [reflexivity | lia].
  - destruct k as [| k]; simpl in H; [congruence |].
    destruct (IH k x H) as (j & -> & Hj). exists (S j). split; [reflexivity | lia].
Qed.

Lemma detector_position_bound :
  forall i_detect dn dpos,
    (0 <= dn)%Z ->
    In i_detect (Py.slice_to detectors dn) ->
    Py.index_of i_detect detectors = Some dpos ->
    (dpos < Z.to_nat dn)%nat.
Proof.
  intros i_detect dn dpos Hdn Hin Hidx. unfold Py.slice_to in Hin.
  destruct (Z.leb_spec 0 dn); [| lia].
  apply In_nth_error in Hin. destruct Hin as [k Hk].
  rewrite nth_error_firstn in Hk.
  destruct (Nat.ltb_spec k (Z.to_nat dn)); [| discriminate].
  destruct (index_of_le _ _ _ Hk) as (j & Hj & Hle).
  rewrite Hidx in Hj. inversion Hj. lia.
Qed.

Lemma source_bounds :
  forall i_source sn,
    In i_source (Py.arange 1 (sn + 1) 1) -> (1 <= i_source <= sn)%Z.
Proof.
  intros i_source sn Hin. unfold Py.arange in Hin.
  apply in_map_iff in Hin. destruct Hin as (k & <- & Hk).
  apply in_seq in Hk.
  replace (1 - (sn + 1))%Z with (- sn)%Z in Hk by ring.
  rewrite Z.div_1_r, Z.opp_involutive in Hk. lia.
Qed.

(** C1: labels and rows agree.  Take a recording whose montages each have
    files that agree on their detector and source counts (the counts being
    non-negative).  When the Assembler, having stacked the rows of the
    montages before montage [i_mtg], writes the series of detector [i_detect]
    (position [dpos]), source [i_source] and data type [i_data] of a block of
    that montage at row [index_loc] of the block, the label at that row of the
    output is the one built for source [i_source], detector [dpos + 1],
    montage [i_mtg + 1], and it reads back as these three numbers. *)
Theorem labels_agree_with_rows :
  forall (e : env) (h : header) (fls mtg_names : list string)
         (blk_names : list (list string)) (datatype : string)
         (labels : list string) (i_mtg : nat) (blocks_mtg : list string)
         (i_blk : nat) (dn sn : Z) (i_data i_detect : string)
         (dpos tpos : nat) (i_source : Z)
         (st : option (list string) * list (list cell)),
    let ex := RawExtras h fls mtg_names blk_names [datatype] in
    boxy_labels h mtg_names blk_names = Ok labels ->
    blocks_agree h blk_names ->
    Forall (Z.le 0) (detect_num h) ->
    Forall (Z.le 0) (source_num h) ->
    (i_mtg < length mtg_names)%nat ->
    outcome (for_each (enumerate 0 (firstn i_mtg mtg_names))
                      (read_montage e ex) (None, [])) = Ok st ->
    nth_error blk_names i_mtg = Some blocks_mtg ->
    (i_blk < length blocks_mtg)%nat ->
    Py.get (detect_num h) (i_blk + i_mtg * length blocks_mtg) = Some dn ->
    Py.get (source_num h) (i_blk + i_mtg * length blocks_mtg) = Some sn ->
    In i_data (data_types ex) ->
    Py.index_of i_data (data_types ex) = Some tpos ->
    In i_detect (Py.slice_to detectors dn) ->
    Py.index_of i_detect detectors = Some dpos ->
    In i_source (Py.arange 1 (sn + 1) 1) ->
    let index_loc :=
      (Z.of_nat dpos * sn + (i_source - 1) + Z.of_nat tpos * (sn * dn))%Z in
    let row := (length (snd st) + Z.to_nat index_loc)%nat in
    nth_error labels row = Some (label (Z.to_nat (i_source - 1)) dpos i_mtg)
    /\ decode_label (label (Z.to_nat (i_source - 1)) dpos i_mtg)
       = Some (i_mtg + 1, dpos + 1, Z.to_nat i_source)%nat.
Proof.
  intros e h fls mtg_names blk_names datatype labels i_mtg blocks_mtg i_blk
         dn sn i_data i_detect dpos tpos i_source st ex
         Hlabels Hagree Hd Hs Hmtg Hprefix Hb Hi Hdn Hsn Hdata Htpos
         Hdet Hdpos Hsrc index_loc row.
  (* the data type is the only one *)
  assert (tpos = 0%nat) as ->.
  { simpl in Hdata. destruct Hdata as [<- | []]. simpl in Htpos.
    rewrite String.eqb_refl in Htpos. inversion Htpos. reflexivity. }
  (* the counts of the current montage *)
  destruct (agreed_block_rows h blk_names datatype _ _ _ _ _
              Hagree Hd Hs Hb Hi Hdn Hsn) as (Pd & Ps & _ & Hdn0 & Hsn0).
  pose proof (detector_position_bound _ _ _ Hdn0 Hdet Hdpos) as Hdpos_lt.
  pose proof (source_bounds _ _ Hsrc) as Hsrc_b.
  (* the rows stacked so far *)
  assert (Hpre_len : length (firstn i_mtg mtg_names) = i_mtg).
  { rewrite length_firstn. lia. }
  destruct (montage_loop_rows e ex datatype Hagree Hd Hs eq_refl
              _ _ _ _ Hprefix) as (Hrows & Hcounts).
  cbn [snd length] in Hrows. rewrite Hpre_len in Hrows, Hcounts.
  cbn [ex scanned blocks] in Hrows, Hcounts.
  (* the labels, montage by montage *)
  destruct (nth_error mtg_names i_mtg) as [nm |] eqn:Hnm;
    [| apply nth_error_None in Hnm; lia].
  rewrite boxy_labels_unfold in Hlabels.
  rewrite <- (firstn_skipn_middle _ _ Hnm) in Hlabels.
  rewrite enumerate_app, for_each_app in Hlabels.
  destruct (for_each (enumerate 0 (firstn i_mtg mtg_names))
                     (montage_step h blk_names) []) as [| r1] eqn:Hr1;
    cbn [bind res_monad] in Hlabels; [discriminate |].
  apply montage_loop_labels in Hr1;
    [| intros m Hm; apply Hcounts; rewrite Hpre_len in Hm; lia].
  destruct Hr1 as (new1 & -> & Hnew1). simpl app in Hlabels.
  rewrite Hpre_len in Hlabels, Hnew1. simpl Nat.add in Hlabels.
  rewrite enumerate_cons in Hlabels. cbn [for_each] in Hlabels.
  rewrite (montage_step_labels h blk_names i_mtg nm dn sn new1 Pd Ps) in Hlabels.
  cbn [bind res_monad] in Hlabels.
  apply (for_each_preserves extends) in Hlabels;
    [| apply extends_refl | apply extends_trans
     | intros x s1 s2; apply montage_step_extends].
  destruct Hlabels as [tail ->].
  (* the row *)
  assert (Hrow : row = (length new1
                        + (dpos * Z.to_nat sn + Z.to_nat (i_source - 1)))%nat).
  { unfold row, index_loc. rewrite Hrows, Hnew1. f_equal.
    rewrite Z.mul_0_l, Z.add_0_r.
    rewrite Z2Nat.inj_add by nia.
    rewrite Z2Nat.inj_mul by lia. rewrite Nat2Z.id. reflexivity. }
  split.
  - rewrite Hrow, <- app_assoc.
    rewrite nth_error_app2 by lia.
    replace (length new1 + (dpos * Z.to_nat sn + Z.to_nat (i_source - 1))
             - length new1)%nat
      with (dpos * Z.to_nat sn + Z.to_nat (i_source - 1))%nat by lia.
    rewrite nth_error_app1
      by (rewrite montage_labels_length; nia).
    apply montage_labels_nth; lia.
  - rewrite decode_label_label. do 2 f_equal. lia.
Qed.

End Properties.

(** C8, as stated, at a concrete call: the RuntimeError for the data type
    ["XY"] is raised, and the folder has been listed before it. *)
Lemma unknown_datatype_after_directory_read :
  outcome (init (FM := DecimalFloat.model)
                (Samples.one_file "rec/a.txt" (Samples.parsed_file "50.0" 4))
                "rec" "XY" false false)
  = Raise (RuntimeError "Expect AC, DC, or Ph, got XY")
  /\ existsb reads_file_system
       (trace (init (FM := DecimalFloat.model)
                    (Samples.one_file "rec/a.txt" (Samples.parsed_file "50.0" 4))
                    "rec" "XY" false false))
     = true.
Proof. split; vm_compute; reflexivity. Qed.

(** The amended C8 at the same call. *)
Lemma unknown_datatype_raises_after_glob_witness :
  Py.mem "XY" ["AC"; "DC"; "Ph"] = false
  /\ init (FM := DecimalFloat.model)
          (Samples.one_file "rec/a.txt" (Samples.parsed_file "50.0" 4))
          "rec" "XY" false false
     = IO [LogInfo "Loading rec"; Print "rec"; Glob "rec/**.txt"]
          (Raise (RuntimeError "Expect AC, DC, or Ph, got XY")).
Proof.
  split; [reflexivity |].
  apply (unknown_datatype_raises_after_glob
           (Samples.one_file "rec/a.txt" (Samples.parsed_file "50.0" 4))
           "rec" "XY" false false).
  reflexivity.
Defined.

(** C7: the check on the number of discovered files measures a list that
    always holds exactly one element (the list of matches itself), so it never
    fires.  With two [.txt] files in the folder, single-file mode loads a
    recording; with none, the failure is an IndexError raised while the labels
    are built, not the error of the check. *)
Theorem single_file_count_check_never_fires :
  (exists r,
      outcome (init (FM := DecimalFloat.model) Samples.two_txt
                    "rec" "AC" false false) = Ok r
      /\ files (hd (RawExtras (Header [] [] [] [] [] [] [] []) [] [] [] [])
                   (extras r))
         = ["rec/a.txt"; "rec/b.txt"])
  /\ outcome (init (FM := DecimalFloat.model) Samples.empty_dir
                   "rec" "AC" false false) = Raise IndexError.
Proof.
  split.
  - eexists. split; vm_compute; reflexivity.
  - vm_compute. reflexivity.
Qed.

(** The scanner on the sample parsed file: marker at line 7, terminator at
    line 14. *)
Lemma header_scanner_data_bounds_witness :
  exists h',
    scan_lines (FM := DecimalFloat.model) 0 1
               (Samples.unterminated_file "50.0" 4
                  ++ ("#DATA ENDS" ++ Samples.nl)%string :: [])
               (Header [] [] [] [] [] [] [] [Parsed]) = Ok h'
    /\ start_line h' = [] ++ [7 + 2]%Z
    /\ end_line h' = [] ++ [14 - 1]%Z.
Proof.
  apply (header_scanner_data_bounds (FM := DecimalFloat.model) 0
           (Header [] [] [] [] [] [] [] [Parsed])
           (Samples.unterminated_file "50.0" 4)
           ("#DATA ENDS" ++ Samples.nl)%string [] 7 14).
  - simpl. lia.
  - vm_compute. reflexivity.
  - vm_compute. reflexivity.
  - vm_compute. reflexivity.
  - vm_compute. reflexivity.
Defined.

(** C6, as stated, at a concrete folder: the second of two blocks never holds
    the terminator, and the recording loads all the same, with the sample
    bounds of two full blocks. *)
Lemma file_without_terminator_loads :
  file_lines Samples.second_file_cut "rec/xa.002"
  = Some (firstn 6 (Samples.head_lines 2 3 "50.0"))
  /\ lacks_terminator (firstn 6 (Samples.head_lines 2 3 "50.0")) = true
  /\ exists r,
      outcome (init (FM := DecimalFloat.model) Samples.second_file_cut
                    "rec" "AC" true false) = Ok r
      /\ files (hd (RawExtras (Header [] [] [] [] [] [] [] []) [] [] [] [])
                   (extras r))
         = ["rec/xa.001"; "rec/xa.002"]
      /\ first_samps r = [0%Z] /\ last_samps r = [7%Z].
Proof.
  split; [reflexivity |]. split; [reflexivity |].
  eexists. repeat split; vm_compute; reflexivity.
Qed.

(** The amended C6 on a single file whose terminator is missing. *)
Lemma load_without_any_terminator_fails_witness :
  (forall path lines,
      In path (glob_matches
                 (Samples.one_file "rec/a.txt" (Samples.unterminated_file "50.0" 4))
                 ("rec" ++ "/*" ++ "*.txt")) ->
      file_lines (Samples.one_file "rec/a.txt" (Samples.unterminated_file "50.0" 4))
                 path = Some lines ->
      lacks_terminator lines = true)
  /\ exists err,
      outcome (init (FM := DecimalFloat.model)
                    (Samples.one_file "rec/a.txt"
                                      (Samples.unterminated_file "50.0" 4))
                    "rec" "AC" false false) = Raise err.
Proof.
  assert (H : forall path lines,
             In path (glob_matches
                        (Samples.one_file "rec/a.txt"
                                          (Samples.unterminated_file "50.0" 4))
                        ("rec" ++ "/*" ++ "*.txt")) ->
             file_lines (Samples.one_file "rec/a.txt"
                                          (Samples.unterminated_file "50.0" 4))
                        path = Some lines ->
             lacks_terminator lines = true).
  { intros path lines [<- | []] Hl. simpl in Hl.
    injection Hl as <-. vm_compute. reflexivity. }
  split; [exact H |].
  exact (load_without_any_terminator_fails (FM := DecimalFloat.model)
           (Samples.one_file "rec/a.txt" (Samples.unterminated_file "50.0" 4))
           "rec" "AC" false false H).
Defined.

(** C9, as stated, at a concrete folder: the two blocks give 50.0 and 25.0 as
    their rates; the recording loads, and what is logged and printed is what
    it is when both give 50.0: no line reports the difference. *)
Lemma differing_rates_load_without_warning :
  (exists r,
      outcome (init (FM := DecimalFloat.model) Samples.rates_differ
                    "rec" "AC" true false) = Ok r
      /\ map (fun ex => srate (scanned ex)) (extras r)
         = [[(500%Z, 1%nat); (250%Z, 1%nat)]])
  /\ trace (init (FM := DecimalFloat.model) Samples.rates_differ
                 "rec" "AC" true false)
     = trace (init (FM := DecimalFloat.model) Samples.rates_agree
                   "rec" "AC" true false)
  /\ trace (init (FM := DecimalFloat.model) Samples.rates_differ
                 "rec" "AC" true false)
     = [LogInfo "Loading rec"; Print "rec"; Glob "rec/**.[000-999]*";
        Open "rec/xa.001"; Open "rec/xa.002";
        Print "Start lines the same!"; Print "End lines the same!";
        Print "Data sizes are the same!"; Print "Start Line:  9";
        Print "End Line:  13"; Print "Original Difference:  4";
        Print "New first_samps:  9"; Print "New last_samps:  8";
        Print "New Difference:  8"].
Proof.
  split; [| split].
  - eexists. split; vm_compute; reflexivity.
  - vm_compute. reflexivity.
  - vm_compute. reflexivity.
Qed.

(** The sample recording is the one [__init__] builds. *)
Example parsed_recording_loaded :
  outcome (init (FM := DecimalFloat.model)
                (Samples.one_file "rec/a.txt" (Samples.parsed_file "50.0" 100))
                "rec" "AC" false false)
  = Ok Samples.parsed_recording.
Proof. vm_compute. reflexivity. Qed.

(** C3 on the sample parsed file of 100 rows. *)
Lemma parsed_two_detectors_three_sources_witness :
  exists data,
    outcome (read_segment_file (FM := DecimalFloat.model)
               (Samples.one_file "rec/a.txt" (Samples.parsed_file "50.0" 100))
               Samples.parsed_recording 6 100 [] 0 0 99 [] None)
    = Ok data
    /\ data = map (column (FM := DecimalFloat.model) (Samples.parsed_array 100)) [1; 2; 3; 4; 5; 6]%nat
    /\ length data = 6%nat
    /\ Forall (fun row => length row = 100%nat) data
    /\ nth_error data 0 = Some (column (FM := DecimalFloat.model) (Samples.parsed_array 100) 1)
    /\ nth_error data 3 = Some (column (FM := DecimalFloat.model) (Samples.parsed_array 100) 4).
Proof.
  apply (parsed_two_detectors_three_sources (FM := DecimalFloat.model)
           (Samples.one_file "rec/a.txt" (Samples.parsed_file "50.0" 100))
           Samples.parsed_recording "rec/a.txt" "a" "001"
           [0%Z] [(1100%Z, 1%nat)] [(500%Z, 1%nat)] [9%Z] [109%Z]
           (Samples.parsed_file "50.0" 100)
           Samples.parsed_cols
           (map Py.rsplit_space (map Samples.parsed_row (seq 0 100)))
           (Samples.parsed_array 100) 1 2 3 4 5 6 [] 0 99 [] None).
  - reflexivity.
  - reflexivity.
  - vm_compute. reflexivity.
  - reflexivity.
  - vm_compute. reflexivity.
  - reflexivity.
  - reflexivity.
  - reflexivity.
  - reflexivity.
  - reflexivity.
  - reflexivity.
Defined.

(** C4: the line the column names are read from is found with the block
    index, not with the file index that selects the data rows.  For the second
    of two montages the names are therefore looked for where the first
    montage's file has them.  Here the second file's data start at line 10 and
    its names are on line 9, but the reader takes line 8, finds the one name
    DATA there, and the read fails on the first row, although the same file
    reads well as the only montage of a recording. *)
Theorem column_names_line_of_another_file :
  exists r ex,
    outcome (init (FM := DecimalFloat.model) Samples.two_montages
                  "rec" "AC" true false) = Ok r
    /\ extras r = [ex]
    /\ files ex = ["rec/xa.001"; "rec/xb.001"]
    /\ start_line (scanned ex) = [9; 10]%Z
    /\ for_each (enumerate 1 Samples.shifted_file)
                (read_line (scanned ex) 0 1)
                (Some Samples.parsed_cols, [])
       = Ok (Some ["DATA"],
             map Py.rsplit_space (map Samples.parsed_row (seq 0 4)))
    /\ option_map (fun i_line =>
                     Re.findall Re.match_colname
                                (Py.item0 (Py.rsplit_space i_line)))
                  (nth_error Samples.shifted_file (10 - 2))
       = Some Samples.parsed_cols
    /\ outcome (read_segment_file Samples.two_montages r 12 4 [] 0 0 3 [] None)
       = Raise ValueError
    /\ exists r',
        outcome (init (FM := DecimalFloat.model) Samples.second_montage_alone
                      "rec" "AC" true false) = Ok r'
        /\ outcome (read_segment_file Samples.second_montage_alone r'
                                      6 4 [] 0 0 3 [] None)
           = Ok (map (column (FM := DecimalFloat.model) (Samples.parsed_array 4))
                     [1; 2; 3; 4; 5; 6]%nat).
Proof.
  eexists. eexists.
  split; [vm_compute; reflexivity |].
  split; [reflexivity |].
  split; [reflexivity |].
  split; [reflexivity |].
  split; [vm_compute; reflexivity |].
  split; [vm_compute; reflexivity |].
  split; [vm_compute; reflexivity |].
  eexists. split; vm_compute; reflexivity.
Qed.

(** C2, as stated, on concrete files of three sources whose record column
    ends at 300.  When the column counts the cycles through the sources (900
    rows), each source gets 300 time points, and a read into an array of 100
    columns fails; when it counts the rows (300 rows), the read fails, since
    rows up to 897 are asked for.  In neither case are there 100 time points
    per source. *)
Lemma nonparsed_record_300_is_not_100_points :
  Py.last_item (column (FM := DecimalFloat.model)
                  (Samples.nonparsed_array Samples.record_per_cycle 900) 1)
  = Some (Num (300%Z, 0%nat))
  /\ Py.last_item (column (FM := DecimalFloat.model)
                     (Samples.nonparsed_array Samples.record_per_row 300) 1)
     = Some (Num (300%Z, 0%nat))
  /\ (exists r,
         outcome (init (FM := DecimalFloat.model)
                    (Samples.one_file "rec/a.txt"
                       (Samples.nonparsed_file Samples.record_per_cycle 900))
                    "rec" "AC" false false) = Ok r
         /\ (exists data,
                outcome (read_segment_file
                           (Samples.one_file "rec/a.txt"
                              (Samples.nonparsed_file Samples.record_per_cycle 900))
                           r 3 300 [] 0 0 299 [] None) = Ok data
                /\ map (@length _) data = [300; 300; 300]%nat)
         /\ outcome (read_segment_file
                       (Samples.one_file "rec/a.txt"
                          (Samples.nonparsed_file Samples.record_per_cycle 900))
                       r 3 100 [] 0 0 99 [] None) = Raise ValueError)
  /\ (exists r,
         outcome (init (FM := DecimalFloat.model)
                    (Samples.one_file "rec/a.txt"
                       (Samples.nonparsed_file Samples.record_per_row 300))
                    "rec" "AC" false false) = Ok r
         /\ outcome (read_segment_file
                       (Samples.one_file "rec/a.txt"
                          (Samples.nonparsed_file Samples.record_per_row 300))
                       r 3 100 [] 0 0 99 [] None) = Raise IndexError).
Proof.
  split; [vm_compute; reflexivity |].
  split; [vm_compute; reflexivity |].
  split.
  - eexists. split; [vm_compute; reflexivity |]. split.
    + eexists. split; vm_compute; reflexivity.
    + vm_compute. reflexivity.
  - eexists. split; vm_compute; reflexivity.
Qed.

(** The amended C2 for the second source of the 900-row sample. *)
Lemma nonparsed_series_is_strided_witness :
  let arr := Samples.nonparsed_array Samples.record_per_cycle 900 in
  let series :=
    map (fun k => nth 3 (nth (Z.to_nat (2 - 1 + Z.of_nat k * 3)) arr []) Uninit)
        (seq 0 (Z.to_nat 300)) in
  place_series (FM := DecimalFloat.model) 1 3 NonParsed ["AC"]
               Samples.nonparsed_cols arr [("record", column (FM := DecimalFloat.model) arr 1)] 300
               "AC" "A" 2 (repeat (repeat (Num (0%Z, 0%nat)) 300) 3)
  = assign_row (FM := DecimalFloat.model) (repeat (repeat (Num (0%Z, 0%nat)) 300) 3) 300
               (Z.of_nat 0 * 3 + (2 - 1) + Z.of_nat 0 * (3 * 1)) series
  /\ length series = Z.to_nat 300
  /\ (3%Z = 3%Z -> 300%Z = 300%Z ->
      length series = 300%nat
      /\ In (2 - 1)%Z [0; 1; 2]%Z
      /\ (900 <= length arr)%nat).
Proof.
  intros arr.
  apply (nonparsed_series_is_strided (FM := DecimalFloat.model)
           1 3 ["AC"] Samples.nonparsed_cols arr [("record", column (FM := DecimalFloat.model) arr 1)] 300
           "AC" "A" 2 (repeat (repeat (Num (0%Z, 0%nat)) 300) 3)
           0 0 3 (column (FM := DecimalFloat.model) arr 1) (Num (300%Z, 0%nat)) 300).
  - reflexivity.
  - reflexivity.
  - reflexivity.
  - vm_compute. reflexivity.
  - reflexivity.
  - reflexivity.
  - lia.
  - lia.
  - vm_compute. discriminate.
Defined.

(** The sample of two montages, as [__init__] loads it. *)
Example two_montages_alike_loaded :
  outcome (init (FM := DecimalFloat.model) Samples.two_montages_alike
                "rec" "AC" true false)
  = Ok (Recording
          (Info Samples.two_montages_labels (500%Z, 1%nat)
                (repeat fnirs_cw_amplitude 12))
          false ["rec"] [0%Z] [3%Z]
          [RawExtras Samples.two_montages_header
                     ["rec/xa.001"; "rec/xb.001"] ["a"; "b"]
                     [["001"]; ["001"]] ["AC"]]).
Proof. vm_compute. reflexivity. Qed.

(** C1 on the sample of two montages: second montage, detector B, source 2;
    six rows are stacked before, the series goes to row 4 of its block, and
    the label at row 10 is S2_D2_2. *)
Lemma labels_agree_with_rows_witness :
  nth_error Samples.two_montages_labels 10 = Some "S2_D2_2"
  /\ decode_label "S2_D2_2" = Some (2, 2, 2)%nat.
Proof.
  exact (labels_agree_with_rows (FM := DecimalFloat.model)
           Samples.two_montages_alike Samples.two_montages_header
           ["rec/xa.001"; "rec/xb.001"] ["a"; "b"] [["001"]; ["001"]] "AC"
           Samples.two_montages_labels 1 ["001"] 0 2 3 "AC" "B" 1 0 2
           (Some Samples.parsed_cols,
            map (column (FM := DecimalFloat.model) (Samples.parsed_array 4))
                [1; 2; 3; 4; 5; 6]%nat)
           ltac:(vm_compute; reflexivity)
           ltac:(intros [| [| i_mtg]] blocks_mtg i_blk Hb Hi;
                 [ injection Hb as <-; destruct i_blk as [| ?];
                   [split; reflexivity | simpl in Hi; lia]
                 | injection Hb as <-; destruct i_blk as [| ?];
                   [split; reflexivity | simpl in Hi; lia]
                 | destruct i_mtg; discriminate Hb ])
           ltac:(repeat constructor; discriminate)
           ltac:(repeat constructor; discriminate)
           ltac:(simpl; lia)
           ltac:(vm_compute; reflexivity)
           eq_refl
           ltac:(simpl; lia)
           eq_refl eq_refl
           ltac:(left; reflexivity)
           eq_refl
           ltac:(right; left; reflexivity)
           eq_refl
           ltac:(right; left; reflexivity)).
Defined.

(** ** The primitives on small inputs *)

Example contains_marker :
  Py.contains "#DATA ENDS" "xx #DATA ENDS yy" = true
  /\ Py.contains "exmux" "3 External MUX Channels" = false.
Proof. split; reflexivity. Qed.

Example rsplit_header_line :
  Py.rsplit_space "16 Detector Channels" = ["16"; "Detector"; "Channels"]
  /\ Py.rsplit_space " x" = [""; "x"].
Proof. split; reflexivity. Qed.

Example int_of_tokens :
  Py.int "16" = Some 16%Z /\ Py.int "-1_0" = Some (-10)%Z /\ Py.int "" = None
  /\ Py.int "1__0" = None /\ Py.int "12a" = None.
Proof. repeat split; reflexivity. Qed.

Example str_of_integers :
  Py.str_nat 0 = "0" /\ Py.str_nat 120 = "120"
  /\ Py.str_Z (-35) = "-35" /\ Py.str_Z 0 = "0".
Proof. repeat split; reflexivity. Qed.

Example arange_by_three :
  Py.arange 1 9 3 = [1; 4; 7]%Z /\ Py.arange 2 9 3 = [2; 5; 8]%Z
  /\ Py.arange 0 0 3 = [].
Proof. repeat split; reflexivity. Qed.

Example slices_of_detectors :
  Py.slice_to detectors 2 = ["A"; "B"]
  /\ length (Py.slice_to detectors (-1)) = 25%nat
  /\ length (Py.slice_to detectors 30) = 26%nat.
Proof. repeat split; reflexivity. Qed.

Example numbers_found :
  Re.findall Re.match_number "1.5,-2,+.5,12.,a-3..4"
  = ["1.5"; "-2"; "+.5"; "12"; "-3"; ".4"].
Proof. reflexivity. Qed.

Example column_names_found :
  Re.findall Re.match_colname "time,A-AC1,bias-A,x-,-y"
  = ["time"; "A-AC1"; "bias-A"; "x"; "y"].
Proof. reflexivity. Qed.

Example montages_found :
  montage_blocks ["d/1anc071a.001"; "d/1anc071a.002"; "d/1anc071b.001"]
  = (["a"; "b"], [["001"; "002"]; ["001"]]).
Proof. reflexivity. Qed.

Example sorted_names :
  Py.sort ["b.001"; "a.002"; "a.001"] = ["a.001"; "a.002"; "b.001"].
Proof. reflexivity. Qed.

Example every_second :
  Py.every_nth 2 0 [1; 2; 3; 4; 5]%Z = [1; 3; 5]%Z.
Proof. reflexivity. Qed.

(* ================================================================= *)
(** ** Further properties of the reader *)

Section HeaderScan.

Context {FM : FloatModel}.

Local Abbreviation header := (header float).

(** X1: the header loop reads nothing after the first terminator line: what
    follows it in the file has no part in the scan. *)
Theorem scan_stops_at_terminator :
  forall (file_num : nat) (line_num : Z) (pre : list string) (i_end : string)
         (post post' : list string) (h : header),
    Py.contains "#DATA ENDS" i_end = true ->
    scan_lines file_num line_num (pre ++ i_end :: post) h
    = scan_lines file_num line_num (pre ++ i_end :: post') h.
Proof.
  intros file_num line_num pre i_end post post' h Hend. revert line_num h.
  induction pre as [| a pre IH]; intros line_num h; simpl.
  - rewrite Hend. reflexivity.
  - destruct (Py.contains "#DATA ENDS" a); [reflexivity |].
    destruct (scan_label file_num line_num a h); simpl; [reflexivity | apply IH].
Qed.

Lemma set_item_nth :
  forall {A} (l : list A) (i : nat) (x : A) (l' : list A),
    set_item l i x = Some l' ->
    forall j, nth_error l' j
              = if (j =? i)%nat then option_map (fun _ => x) (nth_error l j)
                else nth_error l j.
Proof.
  induction l as [| y t IH]; intros i x l' H j; simpl in H; [discriminate |].
  destruct i as [| i].
  - inversion H. subst. destruct j; reflexivity.
  - destruct (set_item t i x) as [t' |] eqn:E; simpl in H; [| discriminate].
    inversion H. subst. destruct j as [| j]; [reflexivity |].
    simpl. apply (IH _ _ _ E).
Qed.

(** One line of the header and the layout tags. *)
Lemma scan_label_layout :
  forall file_num line_num i_line (h h' : header),
    scan_label file_num line_num i_line h = Ok h' ->
    forall j, nth_error (filetype h') j
              = if (j =? file_num)%nat && is_exmux_line i_line
                then option_map (fun _ => NonParsed) (nth_error (filetype h) j)
                else nth_error (filetype h) j.
Proof.
  intros file_num line_num i_line [dn sn an cc sr sl el ft] h' H j.
  unfold scan_label, leading_int, leading_float in H. unfold is_exmux_line.
  repeat match type of H with
         | context [if Py.contains ?m i_line then _ else _] =>
             destruct (Py.contains m i_line)
         end;
    cbn [bind res_monad ret] in H;
    repeat match type of H with
           | context [of_option _ ?o] =>
               let E := fresh "E" in
               destruct o eqn:E; cbn [of_option bind res_monad ret] in H
           end;
    try discriminate H;
    inversion H; subst; cbn [filetype];
    rewrite ?andb_false_r, ?andb_true_r; try reflexivity.
  eapply set_item_nth. eassumption.
Qed.

(** The loop over the lines of a file and the layout tags. *)
Lemma scan_lines_layout :
  forall lines file_num line_num (h h' : header),
    scan_lines file_num line_num lines h = Ok h' ->
    forall j, nth_error (filetype h') j
              = if (j =? file_num)%nat
                   && existsb is_exmux_line (before_terminator lines)
                then option_map (fun _ => NonParsed) (nth_error (filetype h) j)
                else nth_error (filetype h) j.
Proof.
  induction lines as [| a lines IH]; intros file_num line_num h h' H j.
  - simpl in H. inversion H. rewrite andb_false_r. reflexivity.
  - simpl in H. simpl before_terminator.
    destruct (Py.contains "#DATA ENDS" a).
    + destruct h. inversion H. simpl. rewrite andb_false_r. reflexivity.
    + destruct (scan_label file_num line_num a h) as [| h1] eqn:Hl;
        simpl in H; [discriminate |].
      rewrite (IH _ _ _ _ H j), (scan_label_layout _ _ _ _ _ Hl j).
      simpl existsb.
      destruct (j =? file_num)%nat; simpl; [| reflexivity].
      destruct (is_exmux_line a); simpl;
        destruct (existsb is_exmux_line (before_terminator lines));
        destruct (nth_error (filetype h) j); reflexivity.
Qed.

Lemma scan_files_layout :
  forall (e : env) (paths : list string) (n : nat) (h0 h' : header),
    outcome (for_each (enumerate n paths)
               (fun '(file_num, i_file) h =>
                  lines <- open e i_file ;;
                  lift (scan_lines file_num 1 lines h)) h0) = Ok h' ->
    forall j,
      ((j < n)%nat -> nth_error (filetype h') j = nth_error (filetype h0) j)
      /\ forall path lines,
          (n <= j)%nat ->
          nth_error paths (j - n) = Some path ->
          file_lines e path = Some lines ->
          nth_error (filetype h') j
          = option_map (fun tag => layout_after tag lines)
                       (nth_error (filetype h0) j).
Proof.
  intros e paths. induction paths as [| f paths IH]; intros n h0 h' H j.
  - simpl in H. inversion H. split; [reflexivity |].
    intros path lines _ Hp. destruct (j - n)%nat; discriminate.
  - rewrite enumerate_cons, outcome_for_each_cons in H.
    destruct (outcome (lines <- open e f;; lift (scan_lines n 1 lines h0)))
      as [| h1] eqn:Hone; [discriminate |].
    unfold open in Hone. rewrite !outcome_bind in Hone. simpl in Hone.
    destruct (file_lines e f) as [lines_f |] eqn:Hf; simpl in Hone;
      [| discriminate].
    pose proof (scan_lines_layout _ _ _ _ _ Hone j) as Hj.
    destruct (IH (S n) h1 h' H j) as [Hlow Hhigh].
    split.
    + intros Hlt. rewrite Hlow by lia. rewrite Hj.
      destruct (Nat.eqb_spec j n); [lia | reflexivity].
    + intros path lines Hle Hp Hl.
      destruct (Nat.eq_dec j n) as [-> | Hne].
      * rewrite Nat.sub_diag in Hp. simpl in Hp. inversion Hp. subst path.
        rewrite Hf in Hl. inversion Hl. subst lines_f.
        rewrite Hlow by lia. rewrite Hj, Nat.eqb_refl. unfold layout_after.
        simpl. destruct (existsb is_exmux_line (before_terminator lines));
          destruct (nth_error (filetype h0) n); reflexivity.
      * replace (j - n)%nat with (S (j - S n)) in Hp by lia. simpl in Hp.
        rewrite (Hhigh path lines) by (auto; lia). rewrite Hj.
        destruct (Nat.eqb_spec j n); [lia | reflexivity].
Qed.

(** X2: the layout tag of each file.  After the header loop, the file at
    position [i] is tagged non-parsed exactly when one of its lines before
    the terminator holds [exmux] and none of the labels the loop tests first;
    otherwise it keeps the tag parsed.  The lines of other files play no
    part in it. *)
Theorem layout_tag_of_each_file :
  forall (e : env) (paths : list string) (h : header),
    outcome (scan_files e paths) = Ok h ->
    forall i path lines,
      nth_error paths i = Some path ->
      file_lines e path = Some lines ->
      nth_error (filetype h) i = Some (layout_after Parsed lines).
Proof.
  intros e paths h H i path lines Hp Hl. unfold scan_files in H.
  destruct (scan_files_layout e paths 0 _ h H i) as [_ Hhigh].
  rewrite (Hhigh path lines) by (try lia; rewrite ?Nat.sub_0_r; assumption).
  cbn [filetype]. rewrite nth_error_map.
  rewrite Hp. reflexivity.
Qed.

Lemma scan_lines_filetype_length :
  forall lines file_num line_num (h h' : header),
    scan_lines file_num line_num lines h = Ok h' ->
    length (filetype h') = length (filetype h).
Proof.
  intros lines file_num line_num h h' H.
  pose proof (scan_lines_layout _ _ _ _ _ H) as Hn.
  destruct (Nat.lt_trichotomy (length (filetype h')) (length (filetype h)))
    as [Hlt | [Heq | Hgt]]; [| exact Heq |].
  - specialize (Hn (length (filetype h'))).
    rewrite (proj2 (nth_error_None _ _) (Nat.le_refl _)) in Hn.
    destruct (nth_error (filetype h) (length (filetype h'))) eqn:E;
      [| apply nth_error_None in E; lia].
    destruct (_ && _); discriminate.
  - specialize (Hn (length (filetype h))).
    rewrite (proj2 (nth_error_None (filetype h) _) (Nat.le_refl _)) in Hn.
    destruct (nth_error (filetype h') (length (filetype h))) eqn:E;
      [| apply nth_error_None in E; lia].
    destruct (_ && _); discriminate.
Qed.

Lemma scan_files_bounds :
  forall (e : env) (paths : list string) (bounds : list (Z * Z)),
    Forall2 (fun path be =>
               exists lines,
                 file_lines e path = Some lines
                 /\ well_formed_file lines (fst be) (snd be))
            paths bounds ->
    forall (n : nat) (h0 : header),
      (n + length paths <= length (filetype h0))%nat ->
      exists h,
        outcome (for_each (enumerate n paths)
                   (fun '(file_num, i_file) h =>
                      lines <- open e i_file ;;
                      lift (scan_lines file_num 1 lines h)) h0) = Ok h
        /\ start_line h
           = start_line h0 ++ map (fun be => fst be + 2)%Z bounds
        /\ end_line h = end_line h0 ++ map (fun be => snd be - 1)%Z bounds.
Proof.
  intros e paths bounds Hall.
  induction Hall as [| path be paths bounds Hone Hall IH]; intros n h0 Hlen.
  - exists h0. simpl. rewrite !app_nil_r. auto.
  - destruct Hone as (lines & Hf & pre & i_end & post & -> & Hpre & Hend & Hb & He).
    simpl in Hlen.
    destruct (scan_lines_bounds pre n 1 h0 i_end post) as (h1 & Hscan & Hs1 & He1);
      [lia | assumption | assumption |].
    destruct (IH (S n) h1) as (h & Hrun & Hs & Hel).
    { rewrite (scan_lines_filetype_length _ _ _ _ _ Hscan). lia. }
    exists h. split; [| split].
    + rewrite enumerate_cons, outcome_for_each_cons.
      unfold open at 1. rewrite !outcome_bind. simpl. rewrite Hf. simpl.
      rewrite Hscan. exact Hrun.
    + rewrite Hs, Hs1, Hb. simpl. rewrite <- app_assoc. reflexivity.
    + rewrite Hel, He1. cbn [map fst snd]. rewrite He, <- app_assoc.
      cbn [app]. do 2 f_equal. lia.
Qed.

(** X3: the bounds of the data, file by file.  When every file of the list
    has a header the loop reads to its end, with its only data-start marker on
    line [b] and its first terminator on line [e], the header loop succeeds
    and entry [i] of [start_line] and of [end_line] is [b + 2] and [e - 1] of
    file [i]: the two lists are aligned with the files. *)
Theorem data_bounds_aligned_with_files :
  forall (e : env) (paths : list string) (bounds : list (Z * Z)),
    Forall2 (fun path be =>
               exists lines,
                 file_lines e path = Some lines
                 /\ well_formed_file lines (fst be) (snd be))
            paths bounds ->
    exists h,
      outcome (scan_files e paths) = Ok h
      /\ start_line h = map (fun be => fst be + 2)%Z bounds
      /\ end_line h = map (fun be => snd be - 1)%Z bounds.
Proof.
  intros e paths bounds Hall. unfold scan_files.
  destruct (scan_files_bounds e paths bounds Hall 0
              (Header [] [] [] [] [] [] [] (map (fun _ => Parsed) paths)))
    as (h & Hrun & Hs & He).
  - simpl. rewrite length_map. lia.
  - exists h. auto.
Qed.

End HeaderScan.

Section Discovery.

(** The loop that collects the montage names, from the names found so far. *)
Lemma mem_In : forall x l, Py.mem x l = true <-> In x l.
Proof.
  intros x l. unfold Py.mem. rewrite existsb_exists. split.
  - intros (y & Hy & Heq). apply String.eqb_eq in Heq. subst. exact Hy.
  - intros H. exists x. split; [exact H | apply String.eqb_refl].
Qed.

Lemma collect_names_NoDup :
  forall (mtgs acc : list string),
    NoDup acc ->
    NoDup (fold_left (fun acc i_mtg =>
                        if Py.mem (char0 i_mtg) acc then acc
                        else acc ++ [char0 i_mtg]) mtgs acc).
Proof.
  induction mtgs as [| m mtgs IH]; intros acc Hacc; simpl; [exact Hacc |].
  apply IH. destruct (Py.mem (char0 m) acc) eqn:E; [exact Hacc |].
  apply NoDup_app; [exact Hacc | repeat constructor; intros [] |].
  intros a Ha [<- | []]. apply mem_In in Ha. congruence.
Qed.

Lemma collect_names_In :
  forall (mtgs acc : list string) k,
    In k (fold_left (fun acc i_mtg =>
                       if Py.mem (char0 i_mtg) acc then acc
                       else acc ++ [char0 i_mtg]) mtgs acc)
    <-> In k acc \/ In k (map char0 mtgs).
Proof.
  induction mtgs as [| m mtgs IH]; intros acc k; simpl; [tauto |].
  rewrite IH. destruct (Py.mem (char0 m) acc) eqn:E.
  - apply mem_In in E. split; [tauto |].
    intros [H | [<- | H]]; auto.
  - rewrite in_app_iff. simpl. tauto.
Qed.

Lemma list_sum_add :
  forall {A} (f g : A -> nat) (l : list A),
    list_sum (map (fun x => f x + g x)%nat l)
    = (list_sum (map f l) + list_sum (map g l))%nat.
Proof. induction l as [| x l IH]; simpl; [reflexivity | rewrite IH; lia]. Qed.

Lemma one_key_counts_once :
  forall (ks : list string) (x : string),
    NoDup ks ->
    list_sum (map (fun k => if String.eqb x k then 1 else 0)%nat ks)
    = if Py.mem x ks then 1%nat else 0%nat.
Proof.
  induction ks as [| k ks IH]; intros x Hnd; [reflexivity |].
  inversion Hnd as [| ? ? Hnotin Hnd']. subst. simpl.
  rewrite (IH x Hnd'). destruct (String.eqb_spec x k) as [-> | Hne]; simpl.
  - destruct (Py.mem k ks) eqn:E; [apply mem_In in E; contradiction |].
    reflexivity.
  - unfold Py.mem. simpl. destruct (String.eqb_spec x k); [contradiction |].
    reflexivity.
Qed.

Lemma blocks_cover_matches :
  forall (mtgs ks : list string),
    NoDup ks ->
    (forall m, In m mtgs -> In (char0 m) ks) ->
    list_sum (map (fun k =>
                     length (filter (fun m => String.eqb (char0 m) k) mtgs)) ks)
    = length mtgs.
Proof.
  induction mtgs as [| a mtgs IH]; intros ks Hnd Hin.
  - simpl. clear Hnd Hin. induction ks as [| k ks IHk]; simpl; auto.
  - change (length (a :: mtgs)) with (S (length mtgs)).
    rewrite <- (IH ks Hnd) by (intros m Hm; apply Hin; right; exact Hm).
    assert (Ha : Py.mem (char0 a) ks = true)
      by (apply mem_In; apply Hin; left; reflexivity).
    pose proof (one_key_counts_once ks (char0 a) Hnd) as Hone.
    rewrite Ha in Hone.
    transitivity
      (list_sum
         (map (fun k =>
                 (if String.eqb (char0 a) k then 1 else 0)
                 + length (filter (fun m => String.eqb (char0 m) k) mtgs))%nat
              ks)).
    + f_equal. apply map_ext. intros k. simpl.
      destruct (String.eqb (char0 a) k); reflexivity.
    + rewrite list_sum_add, Hone. reflexivity.
Qed.

(** X4: montages and blocks from the file names.  The montage names are
    pairwise different; there is one list of blocks for each of them, none
    empty; and the lists hold, between them, one block for every match of the
    pattern in the printed list of file names. *)
Theorem montage_blocks_partition :
  forall (file_names : list string),
    let mtg_names := fst (montage_blocks file_names) in
    let blk_names := snd (montage_blocks file_names) in
    NoDup mtg_names
    /\ length blk_names = length mtg_names
    /\ Forall (fun blocks_mtg => blocks_mtg <> []) blk_names
    /\ list_sum (map (@length string) blk_names)
       = length (Re.findall Re.match_montage (Py.str_list file_names)).
Proof.
  intros file_names. unfold montage_blocks. cbn zeta. cbn [fst snd].
  set (mtgs := Re.findall Re.match_montage (Py.str_list file_names)).
  set (names := fold_left _ mtgs []).
  assert (Hnd : NoDup names) by (apply collect_names_NoDup; constructor).
  assert (Hin : forall k, In k names <-> In k (map char0 mtgs)).
  { intros k. unfold names. rewrite collect_names_In. simpl. tauto. }
  split; [exact Hnd |]. split; [apply length_map |]. split.
  - apply Forall_forall. intros b Hb. apply in_map_iff in Hb.
    destruct Hb as (k & <- & Hk). apply Hin in Hk. apply in_map_iff in Hk.
    destruct Hk as (m & Hm & Hmin).
    assert (Hf : In m (filter (fun ii_mtg => String.eqb (char0 ii_mtg) k) mtgs)).
    { apply filter_In. split; [exact Hmin |]. subst k. apply String.eqb_refl. }
    destruct (filter _ mtgs); [destruct Hf | discriminate].
  - rewrite map_map.
    rewrite <- (blocks_cover_matches mtgs names Hnd)
      by (intros m Hm; apply Hin; apply in_map; exact Hm).
    f_equal. apply map_ext. intros k. apply length_map.
Qed.

End Discovery.

Section Labels.

Context {FM : FloatModel}.

Local Abbreviation header := (header float).

(** Labels are told apart by their three numbers. *)
Lemma label_injective :
  forall s d m s' d' m',
    label s d m = label s' d' m' -> s = s' /\ d = d' /\ m = m'.
Proof.
  intros s d m s' d' m' H.
  pose proof (decode_label_label s d m) as H1.
  rewrite H, decode_label_label in H1. inversion H1. lia.
Qed.

Lemma NoDup_flat_map_disjoint :
  forall {A B} (f : A -> list B) (l : list A),
    NoDup l ->
    (forall x, In x l -> NoDup (f x)) ->
    (forall x y b, In x l -> In y l -> In b (f x) -> In b (f y) -> x = y) ->
    NoDup (flat_map f l).
Proof.
  intros A B f. induction l as [| a l IH]; intros Hnd Hin Hdis; simpl.
  - constructor.
  - inversion Hnd as [| ? ? Hnot Hnd']. subst.
    apply NoDup_app.
    + apply Hin. left. reflexivity.
    + apply IH; [exact Hnd' | intros; apply Hin; right; assumption |].
      intros x y b Hx Hy. apply Hdis; right; assumption.
    + intros b Hb Hb'. apply in_flat_map in Hb'. destruct Hb' as (y & Hy & Hby).
      assert (a = y) by (eapply Hdis; [left; reflexivity | right; exact Hy
                                       | exact Hb | exact Hby]).
      subst. contradiction.
Qed.

Lemma flat_map_agree :
  forall {A B} (f g : A -> list B) (l : list A),
    (forall x, In x l -> f x = g x) -> flat_map f l = flat_map g l.
Proof.
  intros A B f g. induction l as [| a l IH]; intros H; simpl; [reflexivity |].
  rewrite (H a) by (left; reflexivity).
  rewrite IH by (intros; apply H; right; assumption). reflexivity.
Qed.

Lemma montage_labels_In :
  forall m dn sn l,
    In l (montage_labels m dn sn) ->
    exists d s, (d < dn)%nat /\ (s < sn)%nat /\ l = label s d m.
Proof.
  intros m dn sn l H. unfold montage_labels in H.
  apply in_flat_map in H. destruct H as (d & Hd & H).
  apply in_map_iff in H. destruct H as (s & <- & Hs).
  apply in_seq in Hd. apply in_seq in Hs. exists d, s. repeat split; lia.
Qed.

Lemma montage_labels_NoDup :
  forall m dn sn, NoDup (montage_labels m dn sn).
Proof.
  intros m dn sn. unfold montage_labels.
  apply NoDup_flat_map_disjoint.
  - apply seq_NoDup.
  - intros d _. apply NoDup_map_NoDup_ForallPairs; [| apply seq_NoDup].
    intros s s' _ _ H. apply label_injective in H. tauto.
  - intros d d' b _ _ Hb Hb'.
    apply in_map_iff in Hb. destruct Hb as (s & <- & _).
    apply in_map_iff in Hb'. destruct Hb' as (s' & H & _).
    apply label_injective in H. symmetry. tauto.
Qed.

(** What one montage adds, whether or not its source count is ever read. *)
Lemma montage_step_closed :
  forall (h : header) blk_names m nm acc labels,
    montage_step h blk_names (m, nm) acc = Ok labels ->
    exists dn sn,
      labels = acc ++ montage_labels m dn sn
      /\ (dn * sn)%nat = rows_of h blk_names m.
Proof.
  intros h blk_names m nm acc labels H. unfold montage_step in H.
  unfold rows_of.
  destruct (per_montage blk_names (detect_num h) m) as [| dn] eqn:Hdn;
    cbn [bind res_monad] in H; [discriminate |].
  destruct (per_montage blk_names (source_num h) m) as [| sn] eqn:Hsn.
  - unfold Py.range in H. destruct (Z.to_nat dn) as [| k] eqn:Hk.
    + simpl in H. inversion H. exists 0%nat, 0%nat.
      split; [rewrite app_nil_r; reflexivity | reflexivity].
    + simpl in H. discriminate.
  - pose proof (detector_loop_labels blk_names h m sn (Py.range dn) acc Hsn)
      as Hloop.
    rewrite Hsn in Hloop. cbn [bind res_monad] in Hloop. rewrite Hloop in H.
    inversion H. exists (Z.to_nat dn), (Z.to_nat sn). split; reflexivity.
Qed.

Lemma montage_loop_closed :
  forall (h : header) blk_names names a acc labels,
    for_each (enumerate a names) (montage_step h blk_names) acc = Ok labels ->
    exists cnt : nat -> nat * nat,
      labels
      = acc ++ flat_map (fun m => montage_labels m (fst (cnt m)) (snd (cnt m)))
                        (seq a (length names))
      /\ forall m, (a <= m < a + length names)%nat ->
                   (fst (cnt m) * snd (cnt m))%nat = rows_of h blk_names m.
Proof.
  intros h blk_names names. induction names as [| nm names IH];
    intros a acc labels H.
  - simpl in H. inversion H. exists (fun _ => (0, 0)%nat).
    simpl. rewrite app_nil_r. split; [reflexivity | intros; lia].
  - rewrite enumerate_cons in H. cbn [for_each] in H.
    destruct (montage_step h blk_names (a, nm) acc) as [| l1] eqn:Hstep;
      cbn [bind res_monad] in H; [discriminate |].
    apply montage_step_closed in Hstep. destruct Hstep as (dn & sn & -> & Hrows).
    apply IH in H. destruct H as (cnt & -> & Hcnt).
    exists (fun m => if (m =? a)%nat then (dn, sn) else cnt m).
    split.
    + simpl. rewrite Nat.eqb_refl. cbn [fst snd]. rewrite <- !app_assoc.
      do 2 f_equal. apply flat_map_agree.
      intros m Hm. apply in_seq in Hm.
      destruct (Nat.eqb_spec m a); [lia | reflexivity].
    + intros m Hm. destruct (Nat.eqb_spec m a) as [-> | Hne].
      * exact Hrows.
      * apply Hcnt. simpl in Hm. lia.
Qed.

Lemma boxy_labels_facts :
  forall (h : header) (mtg_names : list string) (blk_names : list (list string))
         (labels : list string),
    boxy_labels h mtg_names blk_names = Ok labels ->
    length labels = rows_from h blk_names 0 (length mtg_names)
    /\ NoDup labels.
Proof.
  intros h mtg_names blk_names labels H.
  rewrite boxy_labels_unfold in H.
  apply montage_loop_closed in H. destruct H as (cnt & -> & Hcnt).
  simpl app. split.
  - unfold rows_from.
    assert (G : forall n a,
               (forall m, (a <= m < a + n)%nat ->
                          (fst (cnt m) * snd (cnt m))%nat = rows_of h blk_names m) ->
               length (flat_map
                         (fun m => montage_labels m (fst (cnt m)) (snd (cnt m)))
                         (seq a n))
               = list_sum (map (rows_of h blk_names) (seq a n))).
    { induction n as [| n IHn]; intros a Ha; [reflexivity |].
      simpl. rewrite length_app, montage_labels_length, IHn.
      - rewrite Ha by lia. reflexivity.
      - intros m Hm. apply Ha. lia. }
    apply G. exact Hcnt.
  - apply NoDup_flat_map_disjoint.
    + apply seq_NoDup.
    + intros m _. apply montage_labels_NoDup.
    + intros m m' b _ _ Hb Hb'.
      apply montage_labels_In in Hb. destruct Hb as (d & s & _ & _ & ->).
      apply montage_labels_In in Hb'. destruct Hb' as (d' & s' & _ & _ & H).
      apply label_injective in H. tauto.
Qed.

(** X5: the channel labels.  When the labels can be built, there are as many
    as the montages have detector-source pairs, counted on the header of the
    first block of each montage, and no two of them are the same. *)
Theorem labels_counted_and_distinct :
  forall (h : header) (mtg_names : list string) (blk_names : list (list string))
         (labels : list string),
    boxy_labels h mtg_names blk_names = Ok labels ->
    length labels = rows_from h blk_names 0 (length mtg_names)
    /\ NoDup labels.
Proof. intros h mtg_names blk_names labels. apply boxy_labels_facts. Qed.

End Labels.

Section Assembly.

Context {FM : FloatModel}.

Local Abbreviation header := (header float).
Local Abbreviation cell := (cell float).

Lemma map_nth_seq :
  forall {A} (l : list A) (d : A),
    map (fun i => nth i l d) (seq 0 (length l)) = l.
Proof.
  intros A l d. induction l as [| x l IH]; [reflexivity |].
  simpl. f_equal. rewrite <- seq_shift, map_map. exact IH.
Qed.

Lemma combine_rows :
  forall {A} (b : list (list A)) (g : nat -> list A),
    map (fun p => fst p ++ snd p) (combine b (map g (seq 0 (length b))))
    = map (fun i => nth i b [] ++ g i) (seq 0 (length b)).
Proof.
  intros A b. induction b as [| x b IH]; intros g; [reflexivity |].
  simpl. f_equal. rewrite <- seq_shift, !map_map. apply IH.
Qed.

(** X6: [np.hstack].  The blocks of a montage are put side by side exactly
    when there is at least one and they all have as many rows as the first;
    row [i] of the result is then row [i] of every block, in the order of
    the blocks. *)
Theorem hstack_rows_side_by_side :
  forall (b : list (list cell)) (rest : list (list (list cell)))
         (rows : list (list cell)),
    hstack (b :: rest) = Ok rows
    <-> Forall (fun blk => length blk = length b) rest
        /\ rows = map (fun i => concat (map (fun blk => nth i blk []) (b :: rest)))
                      (seq 0 (length b)).
Proof.
  intros b rest. revert b. induction rest as [| b' rest IH]; intros b rows.
  - simpl. split.
    + intros H. inversion H. subst. split; [constructor |].
      transitivity (map (fun i => nth i rows []) (seq 0 (length rows)));
        [symmetry; apply map_nth_seq |].
      apply map_ext. intros i. rewrite app_nil_r. reflexivity.
    + intros [_ ->]. f_equal.
      transitivity (map (fun i => nth i b []) (seq 0 (length b)));
        [symmetry; apply map_nth_seq |].
      apply map_ext. intros i. rewrite app_nil_r. reflexivity.
  - change (hstack (b :: b' :: rest))
      with (r <- hstack (b' :: rest) ;;
            if (length b =? length r)%nat
            then ret (map (fun p => fst p ++ snd p) (combine b r))
            else Raise ValueError).
    split.
    + intros H. destruct (hstack (b' :: rest)) as [| r] eqn:Hr;
        cbn [bind res_monad ret] in H; [discriminate H |].
      destruct (Nat.eqb_spec (length b) (length r)) as [Hlen | Hlen];
        [| discriminate H].
      apply IH in Hr. destruct Hr as [Hall ->].
      rewrite length_map, length_seq in Hlen.
      inversion H. split.
      * constructor; [symmetry; exact Hlen |].
        eapply Forall_impl; [| exact Hall]. intros blk Hb. simpl in Hb. lia.
      * rewrite <- Hlen. rewrite combine_rows. reflexivity.
    + intros [Hall ->]. inversion Hall as [| ? ? Hlen Hall']. subst.
      assert (Hr : hstack (b' :: rest)
                   = Ok (map (fun i => concat (map (fun blk => nth i blk [])
                                                   (b' :: rest)))
                             (seq 0 (length b')))).
      { apply IH. split; [| reflexivity].
        eapply Forall_impl; [| exact Hall']. intros blk Hb. simpl in Hb. lia. }
      rewrite Hr. cbn [bind res_monad ret].
      rewrite length_map, length_seq, Hlen, Nat.eqb_refl.
      rewrite combine_rows. reflexivity.
Qed.

Lemma shape_of_rows :
  forall (all_data : list (list cell)) (n k : nat),
    shape_of all_data = Some [n; k] ->
    n = length all_data /\ (0 < n)%nat
    /\ Forall (fun row => length row = k) all_data.
Proof.
  intros all_data n k H. unfold shape_of in H.
  destruct all_data as [| row0 rest]; [discriminate H |].
  destruct (forallb _ _) eqn:Hall; [| discriminate H].
  inversion H. subst. split; [reflexivity |]. split; [simpl; lia |].
  apply Forall_forall. intros row Hin.
  rewrite forallb_forall in Hall. apply Hall in Hin.
  apply Nat.eqb_eq. exact Hin.
Qed.

Lemma shape_of_cases :
  forall (all_data : list (list cell)) (dims : list nat),
    shape_of all_data = Some dims ->
    (all_data = [] /\ dims = [0%nat])
    \/ exists n k, dims = [n; k].
Proof.
  intros all_data dims H. unfold shape_of in H.
  destruct all_data as [| row0 rest].
  - left. inversion H. split; reflexivity.
  - destruct (forallb _ _); [| discriminate H].
    inversion H. right. eauto.
Qed.

(** What [data[:] = all_data] leaves in [data] has the shape of [data]. *)
Lemma assign_all_shape :
  forall (r c : nat) (all_data d : list (list cell)),
    assign_all r c all_data = Ok d ->
    length d = r /\ Forall (fun row => length row = c) d.
Proof.
  intros r c all_data d H. unfold assign_all in H.
  destruct (shape_of all_data) as [dims |] eqn:Hs; [| discriminate H].
  destruct (shape_of_cases _ _ Hs) as [[-> ->] | (n & k & ->)].
  - destruct (Nat.eqb_spec c 0) as [-> |]; [| discriminate H].
    inversion H. rewrite repeat_length. split; [reflexivity |].
    apply Forall_forall. intros row Hin. apply repeat_spec in Hin.
    subst. reflexivity.
  - destruct (shape_of_rows _ _ _ Hs) as (Hn & Hpos & Hrows).
    destruct (((n =? r)%nat || (n =? 1)%nat) && ((k =? c)%nat || (k =? 1)%nat))
      eqn:Hok; [| discriminate H].
    inversion H. rewrite length_map, length_seq. split; [reflexivity |].
    apply Forall_forall. intros row Hin.
    apply in_map_iff in Hin. destruct Hin as (i & <- & Hi).
    apply in_seq in Hi.
    destruct (Nat.eqb_spec k c) as [Hk | Hk].
    + rewrite <- Hk. rewrite Forall_forall in Hrows. apply Hrows. apply nth_In.
      destruct (Nat.eqb_spec n r); lia.
    + apply repeat_length.
Qed.

(** X7: the buffer keeps its shape.  Whatever the files hold, what a
    successful read leaves in [data] has the rows and columns of [data]. *)
Theorem read_segment_file_keeps_shape :
  forall (e : env) (self : recording float) (r c : nat) (idx : list nat)
         (fi : nat) (start stop : Z) (cals : list float)
         (mult : option (list (list float))) (d : list (list cell)),
    outcome (read_segment_file e self r c idx fi start stop cals mult) = Ok d ->
    length d = r /\ Forall (fun row => length row = c) d.
Proof.
  intros e self r c idx fi start stop cals mult d H.
  unfold read_segment_file in H.
  repeat (rewrite outcome_bind in H;
          match type of H with
          | match ?x with Raise _ => _ | Ok _ => _ end = Ok _ =>
              destruct x; [discriminate H |]
          end).
  cbn [lift outcome] in H. eapply assign_all_shape. exact H.
Qed.

(** X8: equal shapes.  When the assembled array has the shape of [data], the
    assignment copies it as it is. *)
Theorem assign_all_same_shape :
  forall (r c : nat) (all_data : list (list cell)),
    shape_of all_data = Some [r; c] ->
    assign_all r c all_data = Ok all_data.
Proof.
  intros r c all_data Hs. unfold assign_all. rewrite Hs.
  rewrite !Nat.eqb_refl. cbn [orb andb ret res_monad].
  destruct (shape_of_rows _ _ _ Hs) as (-> & _ & _).
  rewrite map_nth_seq. reflexivity.
Qed.

End Assembly.

Section ReadLoop.

Context {FM : FloatModel}.

Local Abbreviation header := (header float).
Local Abbreviation cell := (cell float).

Lemma read_loop_from :
  forall (h : header) (i_blk file_num : nat) (sb sf ef : Z),
    Py.get (start_line h) i_blk = Some sb ->
    Py.get (start_line h) file_num = Some sf ->
    Py.get (end_line h) file_num = Some ef ->
    forall (lines : list string) (a : nat) (col_names : option (list string))
           (acc : list (list string)),
      (1 <= a)%nat ->
      for_each (enumerate a lines) (read_line h i_blk file_num) (col_names, acc)
      = Ok (match line_from a lines (sb - 1) with
            | Some i_line =>
                Some (Re.findall Re.match_colname
                                 (Py.item0 (Py.rsplit_space i_line)))
            | None => col_names
            end,
            acc ++ map Py.rsplit_space
                       (firstn (Z.to_nat ef + 1 - Nat.max (Z.to_nat sf + 1) a)
                               (skipn (Z.to_nat sf + 1 - a) lines))).
Proof.
  intros h i_blk file_num sb sf ef Hsb Hsf Hef.
  induction lines as [| l lines IH]; intros a col_names acc Ha.
  - simpl. unfold line_from.
    destruct (Z.of_nat a <=? sb - 1)%Z;
      [destruct (Z.to_nat (sb - 1 - Z.of_nat a)) |];
      rewrite skipn_nil, firstn_nil, app_nil_r; reflexivity.
  - rewrite enumerate_cons. cbn [for_each].
    unfold read_line at 1. rewrite Hsb, Hsf. cbn [of_option bind res_monad].
    assert (Hnames :
              forall cn : option (list string),
                match line_from (S a) lines (sb - 1) with
                | Some i_line =>
                    Some (Re.findall Re.match_colname
                                     (Py.item0 (Py.rsplit_space i_line)))
                | None =>
                    if (Z.of_nat a =? sb - 1)%Z
                    then Some (Re.findall Re.match_colname
                                          (Py.item0 (Py.rsplit_space l)))
                    else cn
                end
                = match line_from a (l :: lines) (sb - 1) with
                  | Some i_line =>
                      Some (Re.findall Re.match_colname
                                       (Py.item0 (Py.rsplit_space i_line)))
                  | None => cn
                  end).
    { intros cn. unfold line_from.
      destruct (Z.eqb_spec (Z.of_nat a) (sb - 1)) as [He | Hne].
      - rewrite <- He.
        destruct (Z.leb_spec (Z.of_nat (S a)) (Z.of_nat a)); [lia |].
        rewrite Z.leb_refl, Z.sub_diag. reflexivity.
      - destruct (Z.leb_spec (Z.of_nat (S a)) (sb - 1));
          destruct (Z.leb_spec (Z.of_nat a) (sb - 1)); try lia;
          [| reflexivity].
        replace (Z.to_nat (sb - 1 - Z.of_nat a))
          with (S (Z.to_nat (sb - 1 - Z.of_nat (S a)))) by lia.
        reflexivity. }
    destruct (Z.ltb_spec sf (Z.of_nat a)) as [Hlt | Hge].
    + rewrite Hef. cbn [of_option bind res_monad].
      destruct (Z.leb_spec (Z.of_nat a) ef) as [Hle | Hgt];
        cbn [ret res_monad]; rewrite IH by lia; rewrite Hnames; do 2 f_equal.
      * replace (Z.to_nat sf + 1 - a)%nat with 0%nat by lia.
        replace (Z.to_nat sf + 1 - S a)%nat with 0%nat by lia.
        replace (Z.to_nat ef + 1 - Nat.max (Z.to_nat sf + 1) a)%nat
          with (S (Z.to_nat ef + 1 - Nat.max (Z.to_nat sf + 1) (S a))) by lia.
        cbn [skipn firstn map]. rewrite <- app_assoc. reflexivity.
      * replace (Z.to_nat ef + 1 - Nat.max (Z.to_nat sf + 1) a)%nat
          with 0%nat by lia.
        replace (Z.to_nat ef + 1 - Nat.max (Z.to_nat sf + 1) (S a))%nat
          with 0%nat by lia.
        reflexivity.
    + cbn [ret res_monad]. rewrite IH by lia. rewrite Hnames. do 2 f_equal.
      replace (Z.to_nat sf + 1 - a)%nat with (S (Z.to_nat sf + 1 - S a)) by lia.
      replace (Nat.max (Z.to_nat sf + 1) (S a)) with (Nat.max (Z.to_nat sf + 1) a)
        by lia.
      reflexivity.
Qed.

(** X9: the loop over the lines of a file.  The rows kept are the lines after
    line [start_line[file_num]] up to line [end_line[file_num]], in order,
    each split at its blanks; the column names are those of line
    [start_line[i_blk] - 1] when the file has such a line, and are left as
    they were when it has none. *)
Theorem read_loop_rows_and_names :
  forall (h : header) (i_blk file_num : nat) (sb sf ef : Z)
         (lines : list string) (col_names : option (list string)),
    Py.get (start_line h) i_blk = Some sb ->
    Py.get (start_line h) file_num = Some sf ->
    Py.get (end_line h) file_num = Some ef ->
    for_each (enumerate 1 lines) (read_line h i_blk file_num) (col_names, [])
    = Ok (match line_from 1 lines (sb - 1) with
          | Some i_line =>
              Some (Re.findall Re.match_colname
                               (Py.item0 (Py.rsplit_space i_line)))
          | None => col_names
          end,
          map Py.rsplit_space
              (firstn (Z.to_nat ef - Z.to_nat sf) (skipn (Z.to_nat sf) lines))).
Proof.
  intros h i_blk file_num sb sf ef lines col_names Hsb Hsf Hef.
  rewrite (read_loop_from h i_blk file_num sb sf ef Hsb Hsf Hef lines 1
                          col_names []) by lia.
  cbn [app].
  replace (Z.to_nat sf + 1 - 1)%nat with (Z.to_nat sf) by lia.
  replace (Z.to_nat ef + 1 - Nat.max (Z.to_nat sf + 1) 1)%nat
    with (Z.to_nat ef - Z.to_nat sf)%nat by lia.
  reflexivity.
Qed.

(** The rows of the array are made as long as the line of column names. *)
Lemma padded_row_length :
  forall (n : nat) (i_data : list string) (row : list cell),
    padded_row n i_data = Ok row ->
    length row = n /\ (length i_data <= n)%nat.
Proof.
  intros n i_data row H. unfold padded_row in H.
  destruct (map_res _ i_data) as [| xs] eqn:Hxs;
    cbn [bind res_monad ret] in H; [discriminate H |].
  destruct (Nat.leb_spec (length i_data) n) as [Hle | Hgt]; [| discriminate H].
  inversion H. apply map_res_length in Hxs.
  rewrite length_app, length_map, repeat_length. lia.
Qed.

(** X10: the array of a file is rectangular.  When every row can be padded,
    the array has one row for each data row, each as long as the line of
    column names, and no data row held more numbers than there are names. *)
Theorem boxy_array_rectangular :
  forall (n : nat) (boxy_data : list (list string))
         (boxy_array : list (list cell)),
    map_res (padded_row n) boxy_data = Ok boxy_array ->
    length boxy_array = length boxy_data
    /\ Forall (fun row => length row = n) boxy_array
    /\ Forall (fun i_data => (length i_data <= n)%nat) boxy_data.
Proof.
  intros n boxy_data. induction boxy_data as [| i_data rest IH];
    intros boxy_array H.
  - inversion H. repeat split; constructor.
  - simpl in H.
    destruct (padded_row n i_data) as [| row] eqn:Hrow; [discriminate H |].
    destruct (map_res (padded_row n) rest) as [| rows] eqn:Hrows;
      [discriminate H |].
    inversion H. apply padded_row_length in Hrow. destruct Hrow as [Hl Hle].
    destruct (IH rows eq_refl) as (IH1 & IH2 & IH3).
    simpl. repeat split; [lia | constructor; assumption
                          | constructor; assumption].
Qed.

End ReadLoop.

Section ParsedBlock.

Context {FM : FloatModel}.

Local Abbreviation header := (header float).
Local Abbreviation cell := (cell float).

Lemma set_item_middle :
  forall {A} (pre post : list A) (y x : A),
    set_item (pre ++ y :: post) (length pre) x = Some (pre ++ x :: post).
Proof.
  intros A pre post y x. induction pre as [| p pre IH]; [reflexivity |].
  simpl. rewrite IH. reflexivity.
Qed.

Lemma firstn_as_map :
  forall {A} (l : list A) (d : A) (n : nat),
    (n <= length l)%nat ->
    firstn n l = map (fun i => nth i l d) (seq 0 n).
Proof.
  intros A l d. induction l as [| x l IH]; intros n Hn.
  - simpl in Hn. replace n with 0%nat by lia. reflexivity.
  - destruct n as [| n]; [reflexivity |].
    simpl. f_equal. rewrite <- seq_shift, map_map. apply IH. simpl in Hn. lia.
Qed.

Lemma detector_position :
  forall d, (d < 26)%nat -> Py.index_of (nth d detectors "") detectors = Some d.
Proof.
  intros d Hd.
  do 26 (destruct d as [| d]; [reflexivity |]). lia.
Qed.

(** The loop over the sources of one detector fills the next rows. *)
Lemma source_loop_parsed :
  forall (dn sn : nat) (dt : string) (cols : list string)
         (arr : list (list cell)) meta (chan : nat -> nat -> nat) (d : nat)
         (z : list cell),
    (d < dn)%nat -> (d < 26)%nat ->
    (forall s, (s < sn)%nat ->
               Py.index_of (parsed_name dt d s) cols = Some (chan d s)) ->
    forall (m s0 k : nat) (pre : list (list cell)),
      (s0 + m <= sn)%nat -> (m <= k)%nat ->
      length pre = (d * sn + s0)%nat ->
      for_each (map (fun j => (1 + Z.of_nat j * 1)%Z) (seq s0 m))
        (fun i_source data_ =>
           place_series (Z.of_nat dn) (Z.of_nat sn) Parsed [dt] cols arr meta
                        (length arr) dt (nth d detectors "") i_source data_)
        (pre ++ repeat z k)
      = Ok (pre ++ map (fun s => column arr (chan d s)) (seq s0 m)
                ++ repeat z (k - m)).
Proof.
  intros dn sn dt cols arr meta chan d z Hd Hd26 Hcols.
  induction m as [| m IH]; intros s0 k pre Hs Hk Hpre.
  - simpl. rewrite Nat.sub_0_r. reflexivity.
  - cbn [seq map for_each].
    erewrite place_series_parsed;
      [ | apply detector_position; exact Hd26
        | simpl; rewrite String.eqb_refl; reflexivity
        | replace (1 + Z.of_nat s0 * 1)%Z with (Z.of_nat s0 + 1)%Z by lia;
          apply Hcols; lia
        | reflexivity ].
    destruct k as [| k]; [lia |].
    rewrite index_pos_in_range
      by (rewrite length_app, repeat_length; nia).
    replace (Z.to_nat (Z.of_nat d * Z.of_nat sn + (1 + Z.of_nat s0 * 1 - 1)
                       + Z.of_nat 0 * (Z.of_nat sn * Z.of_nat dn)))
      with (length pre) by nia.
    cbn [of_option bind res_monad repeat].
    rewrite set_item_middle. cbn [of_option].
    replace (pre ++ column arr (chan d s0) :: repeat z k)
      with ((pre ++ [column arr (chan d s0)]) ++ repeat z k)
      by (rewrite <- app_assoc; reflexivity).
    rewrite IH by (try rewrite length_app; simpl; lia).
    rewrite <- app_assoc. reflexivity.
Qed.

(** The loop over the detectors fills the rows detector by detector. *)
Lemma detector_loop_parsed :
  forall (dn sn : nat) (dt : string) (cols : list string)
         (arr : list (list cell)) meta (chan : nat -> nat -> nat)
         (z : list cell),
    (dn <= 26)%nat ->
    (forall d s, (d < dn)%nat -> (s < sn)%nat ->
                 Py.index_of (parsed_name dt d s) cols = Some (chan d s)) ->
    forall (m d0 k : nat) (pre : list (list cell)),
      (d0 + m <= dn)%nat -> (m * sn <= k)%nat ->
      length pre = (d0 * sn)%nat ->
      for_each (map (fun d => nth d detectors "") (seq d0 m))
        (fun i_detect data_ =>
           for_each (Py.arange 1 (Z.of_nat sn + 1) 1)
             (fun i_source data_ =>
                place_series (Z.of_nat dn) (Z.of_nat sn) Parsed [dt] cols arr
                             meta (length arr) dt i_detect i_source data_)
             data_)
        (pre ++ repeat z k)
      = Ok (pre ++ flat_map (fun d => map (fun s => column arr (chan d s))
                                          (seq 0 sn))
                            (seq d0 m)
                ++ repeat z (k - m * sn)).
Proof.
  intros dn sn dt cols arr meta chan z Hdn Hcols.
  assert (Har : Py.arange 1 (Z.of_nat sn + 1) 1
                = map (fun j => (1 + Z.of_nat j * 1)%Z) (seq 0 sn)).
  { unfold Py.arange. do 2 f_equal.
    replace (1 - (Z.of_nat sn + 1))%Z with (- Z.of_nat sn)%Z by lia.
    rewrite Z.div_1_r. lia. }
  rewrite Har.
  induction m as [| m IH]; intros d0 k pre Hd Hk Hpre.
  - simpl. rewrite Nat.sub_0_r. reflexivity.
  - cbn [seq map for_each flat_map].
    rewrite (source_loop_parsed dn sn dt cols arr meta chan d0 z)
      by (try lia; try (intros s Hs; apply Hcols; lia)).
    cbn [bind res_monad].
    rewrite app_assoc.
    rewrite IH by (try rewrite length_app, length_map, length_seq; simpl; nia).
    rewrite <- !app_assoc.
    replace (k - sn - m * sn)%nat with (k - S m * sn)%nat by (simpl; lia).
    reflexivity.
Qed.

(** X11: a block of a parsed file.  For any number of detectors (up to the 26
    letters) and of sources, when the line of column names holds the name
    of every detector-source pair, the block has one row for each pair,
    detector by detector and source by source, and the row is the column of
    that name in the file's array. *)
Theorem parsed_block_is_columns :
  forall (h : header) (dt : string) (file_num dn sn : nat)
         (cols : list string) (rows : list (list string))
         (boxy_array : list (list cell)) (chan : nat -> nat -> nat),
    Py.get (detect_num h) file_num = Some (Z.of_nat dn) ->
    Py.get (source_num h) file_num = Some (Z.of_nat sn) ->
    Py.get (filetype h) file_num = Some Parsed ->
    (dn <= 26)%nat ->
    map_res (padded_row (length cols))
            (map (fun i_row => Re.findall Re.match_number (Py.item0 i_row)) rows)
    = Ok boxy_array ->
    (forall d s, (d < dn)%nat -> (s < sn)%nat ->
                 Py.index_of (parsed_name dt d s) cols = Some (chan d s)) ->
    assemble_block h [dt] file_num (Some cols) rows
    = Ok (flat_map (fun d => map (fun s => column boxy_array (chan d s))
                                 (seq 0 sn))
                   (seq 0 dn)).
Proof.
  intros h dt file_num dn sn cols rows arr chan Hdn Hsn Hft H26 Harr Hcols.
  assert (Hlen : length arr = length rows).
  { rewrite (map_res_length _ _ _ Harr), length_map. reflexivity. }
  unfold assemble_block.
  rewrite Hsn. cbn [of_option bind res_monad ret].
  rewrite Harr. cbn [of_option bind res_monad ret].
  rewrite Hdn. cbn [of_option bind res_monad ret].
  rewrite Hft. cbn [of_option bind res_monad ret].
  rewrite length_map.
  unfold zeros.
  destruct (Z.ltb_spec (Z.of_nat dn * Z.of_nat sn * Z.of_nat (length [dt])) 0)
    as [Hneg | _]; [simpl in Hneg; nia |].
  destruct (Z.ltb_spec (Z.of_nat (length rows)) 0) as [Hneg | _]; [lia |].
  cbn [orb bind res_monad ret for_each].
  rewrite Nat2Z.id, <- Hlen.
  replace (Z.to_nat (Z.of_nat dn * Z.of_nat sn * Z.of_nat (length [dt])))
    with (dn * sn)%nat by (simpl; nia).
  unfold Py.slice_to.
  destruct (Z.leb_spec 0 (Z.of_nat dn)) as [_ | Hneg]; [| lia].
  rewrite Nat2Z.id.
  rewrite (firstn_as_map detectors "" dn) by (simpl; lia).
  rewrite (detector_loop_parsed dn sn dt cols arr _ chan
             (repeat (Num float_zero) (length arr)) H26 Hcols dn 0 (dn * sn) [])
    by (simpl; lia).
  cbn [bind res_monad app]. rewrite Nat.sub_diag. cbn [repeat].
  rewrite app_nil_r. reflexivity.
Qed.

End ParsedBlock.

Section ParsedNames.

Context {FM : FloatModel}.

Local Abbreviation header := (header float).
Local Abbreviation cell := (cell float).

Lemma for_each_ok_each :
  forall {X S} (body : X -> S -> res S) (xs : list X) (s s' : S) (x : X),
    for_each xs body s = Ok s' ->
    In x xs ->
    exists s1 s2, body x s1 = Ok s2.
Proof.
  intros X S body. induction xs as [| y xs IH]; intros s s' x H Hin.
  - contradiction.
  - cbn [for_each] in H.
    destruct (body y s) as [| s1] eqn:Hy; cbn [bind res_monad] in H;
      [discriminate H |].
    destruct Hin as [-> | Hin].
    + eauto.
    + eapply IH; eassumption.
Qed.

(** X12: the names a parsed block needs.  A block of a parsed file is only
    assembled when the column names were read and hold, for every data
    type, detector and source of the file, the name made of the three. *)
Theorem parsed_block_needs_names :
  forall (h : header) (data_types : list string) (file_num : nat)
         (col_names : option (list string)) (rows : list (list string))
         (block : list (list cell)) (dn sn : Z),
    assemble_block h data_types file_num col_names rows = Ok block ->
    Py.get (detect_num h) file_num = Some dn ->
    Py.get (source_num h) file_num = Some sn ->
    Py.get (filetype h) file_num = Some Parsed ->
    exists cols,
      col_names = Some cols
      /\ forall i_data i_detect i_source,
          In i_data data_types ->
          In i_detect (Py.slice_to detectors dn) ->
          In i_source (Py.arange 1 (sn + 1) 1) ->
          exists k,
            Py.index_of (i_detect ++ "-" ++ i_data ++ Py.str_Z i_source) cols
            = Some k.
Proof.
  intros h dts file_num col_names rows block dn sn H Hdn Hsn Hft.
  unfold assemble_block in H.
  rewrite Hsn in H. cbn [of_option bind res_monad ret] in H.
  destruct col_names as [cols |]; [| discriminate H].
  cbn [of_option bind res_monad ret] in H.
  destruct (map_res _ _) as [| arr]; cbn [bind res_monad ret] in H;
    [discriminate H |].
  rewrite Hdn in H. cbn [of_option bind res_monad ret] in H.
  rewrite Hft in H. cbn [of_option bind res_monad ret] in H.
  destruct (zeros _ _) as [| z]; cbn [bind res_monad ret] in H;
    [discriminate H |].
  exists cols. split; [reflexivity |].
  intros i_data i_detect i_source Hd Hdet Hsrc.
  destruct (for_each_ok_each _ _ _ _ i_data H Hd) as (s1 & s2 & H1).
  destruct (for_each_ok_each _ _ _ _ i_detect H1 Hdet) as (s3 & s4 & H2).
  destruct (for_each_ok_each _ _ _ _ i_source H2 Hsrc) as (s5 & s6 & H3).
  unfold place_series in H3.
  destruct (Py.index_of i_detect detectors);
    cbn [of_option bind res_monad] in H3; [| discriminate H3].
  destruct (Py.index_of i_data dts);
    cbn [of_option bind res_monad] in H3; [| discriminate H3].
  destruct (Py.index_of _ cols) as [k |]; [| discriminate H3].
  exists k. reflexivity.
Qed.

End ParsedNames.

Section ScanTrace.

Context {FM : FloatModel}.

Local Abbreviation header := (header float).
Local Abbreviation cell := (cell float).
Local Abbreviation recording := (recording float).

(** X13: the files of the header scan.  A scan that ends well has opened the
    files in their order, each once, and has done nothing else that shows. *)
Theorem scan_opens_each_file_once :
  forall (e : env) (paths : list string) (h : header),
    outcome (scan_files e paths) = Ok h ->
    trace (scan_files e paths) = map Open paths.
Proof.
  intros e paths h. unfold scan_files.
  generalize (Header (float := float) [] [] [] [] [] [] []
                     (map (fun _ => Parsed) paths)).
  generalize 0%nat. revert h.
  induction paths as [| p paths IH]; intros h n h0 H.
  - reflexivity.
  - rewrite enumerate_cons in *. cbn [for_each] in *.
    rewrite outcome_bind in H. rewrite trace_bind.
    destruct (outcome (lines <- open e p;; lift (scan_lines n 1 lines h0)))
      as [| h1] eqn:Hone; [discriminate H |].
    rewrite (IH h (S n) h1 H).
    unfold open in Hone |- *. cbn [emit lift bind io_monad] in Hone |- *.
    destruct (file_lines e p) as [lines |]; cbn [of_option] in Hone |- *;
      [| discriminate Hone].
    reflexivity.
Qed.

End ScanTrace.

Section Recording.

Context {FM : FloatModel}.

Local Abbreviation header := (header float).
Local Abbreviation cell := (cell float).
Local Abbreviation recording := (recording float).

Ltac io_inv H :=
  repeat (rewrite outcome_bind in H;
          cbn [lift outcome of_option] in H;
          try match type of H with
              | match ?c with Raise _ => _ | Ok _ => _ end = Ok _ =>
                  let E := fresh "E" in
                  destruct c eqn:E; [discriminate H |]
              end).

Lemma finish_init_invariants :
  forall (fname datatype : string) (preload : bool)
         (files_key mtg_names : list string) (blk_names : list (list string))
         (dts : list string) (h : header) (rec : recording),
    outcome (finish_init fname datatype preload files_key mtg_names blk_names
                         dts h) = Ok rec ->
    exists (labels : list string) (rate : float) (s0 e0 n : Z) (ft0 : layout)
           (blk0 : list string),
      rec = Recording
              (Info labels rate
                    (map (fun _ => if String.eqb datatype "Ph"
                                   then fnirs_fd_phase else fnirs_cw_amplitude)
                         labels))
              preload [fname] [0%Z] [(n - 1)%Z]
              [RawExtras h files_key mtg_names blk_names dts]
      /\ boxy_labels h mtg_names blk_names = Ok labels
      /\ Py.get (srate h) 0 = Some rate
      /\ Py.get (start_line h) 0 = Some s0
      /\ Py.get (end_line h) 0 = Some e0
      /\ Py.get (filetype h) 0 = Some ft0
      /\ Py.get blk_names 0 = Some blk0
      /\ match ft0 with
         | Parsed => n = ((e0 - s0) * Z.of_nat (length blk0))%Z
         | NonParsed =>
             exists source0,
               Py.get (source_num h) 0 = Some source0
               /\ source0 <> 0%Z
               /\ n = ((e0 - s0) * Z.of_nat (length blk0) / source0)%Z
         end.
Proof.
  intros fname datatype preload files_key mtg_names blk_names dts h rec H.
  unfold finish_init in H.
  io_inv H.
  cbn [ret io_monad outcome] in H. inversion H as [Hrec]. clear H.
  repeat match goal with
         | E : of_option _ ?o = Ok _ |- _ =>
             destruct o eqn:?; cbn [of_option] in E; [| discriminate E];
             inversion E; subst; clear E
         end.
  do 7 eexists. split; [reflexivity |].
  repeat (split; [reflexivity |]).
  destruct a11.
  - cbn [ret io_monad outcome] in E13. inversion E13. reflexivity.
  - rewrite outcome_bind in E13. cbn [lift outcome] in E13.
    destruct (Py.get (source_num h) 0) as [source0 |];
      cbn [of_option] in E13; [| discriminate E13].
    destruct (Z.eqb_spec source0 0) as [Hz | Hnz];
      cbn [lift ret io_monad outcome] in E13; [discriminate E13 |].
    inversion E13. exists source0. repeat split. exact Hnz.
Qed.

(** X14: what every loaded recording has.  When [read_raw_boxy] returns, the
    data type is one of AC, DC and Ph; the recording names the folder as its
    only file name and starts at sample 0; its channel names are all
    different and as many as the montages have detector-source pairs; every
    channel has the one type the data type asks for; and its extras hold the
    sorted matches of the pattern and the header lists of their scan. *)
Theorem loaded_recording_invariants :
  forall (e : env) (fname datatype : string) (multi_file preload : bool)
         (rec : recording),
    outcome (read_raw_boxy e fname datatype multi_file preload) = Ok rec ->
    Py.mem datatype ["AC"; "DC"; "Ph"] = true
    /\ filenames rec = [fname]
    /\ first_samps rec = [0%Z]
    /\ rec_preload rec = preload
    /\ NoDup (ch_names (rec_info rec))
    /\ ch_types (rec_info rec)
       = map (fun _ => if String.eqb datatype "Ph" then fnirs_fd_phase
                       else fnirs_cw_amplitude)
             (ch_names (rec_info rec))
    /\ exists ex last,
        extras rec = [ex]
        /\ last_samps rec = [last]
        /\ data_types ex = [datatype]
        /\ files ex
           = Py.sort (glob_matches e
                        (fname ++ "/*"
                               ++ (if multi_file then "*.[000-999]*"
                                   else "*.txt")))
        /\ outcome (scan_files e (files ex)) = Ok (scanned ex)
        /\ length (ch_names (rec_info rec))
           = rows_from (scanned ex) (blocks ex) 0 (length (montages ex)).
Proof.
  intros e fname datatype multi_file preload rec H.
  unfold read_raw_boxy, init in H. cbv zeta in H.
  cbn [length hd Nat.eqb negb] in H.
  io_inv H.
  match goal with
  | Hd : outcome (if Py.mem _ _ then _ else _) = Ok _ |- _ =>
      destruct (Py.mem datatype ["AC"; "DC"; "Ph"]);
      cbn [lift ret io_monad outcome] in Hd; [| discriminate Hd];
      inversion Hd; subst; clear Hd
  end.
  match type of H with
  | outcome (let '(_, _) := ?p in _) = _ => destruct p as [mtg_names blk_names]
  end.
  io_inv H.
  apply finish_init_invariants in H.
  destruct H as (labels & rate & s0 & e0 & n & ft0 & blk0 & -> & Hl & _).
  apply boxy_labels_facts in Hl. destruct Hl as [Hlen Hnd].
  cbn [filenames first_samps rec_preload rec_info ch_names ch_types extras
       last_samps].
  do 4 (split; [reflexivity |]).
  split; [exact Hnd |]. split; [reflexivity |].
  eexists _, _.
  cbn [files scanned blocks montages data_types].
  do 4 (split; [reflexivity |]).
  split; assumption.
Qed.

(** X15: samples announced and rows read.  For a recording whose first file is
    parsed, the number of samples the constructor announces, from its first
    to its last sample, is the number of rows the reader keeps of that file
    times the number of blocks of the first montage, provided the file
    reaches its end line. *)
Theorem parsed_samples_match_rows :
  forall (fname datatype : string) (preload : bool)
         (files_key mtg_names : list string) (blk_names : list (list string))
         (dts : list string) (h : header) (rec : recording)
         (s0 e0 : Z) (blk0 lines : list string)
         (col_names : option (list string)),
    outcome (finish_init fname datatype preload files_key mtg_names blk_names
                         dts h) = Ok rec ->
    Py.get (filetype h) 0 = Some Parsed ->
    Py.get (start_line h) 0 = Some s0 ->
    Py.get (end_line h) 0 = Some e0 ->
    Py.get blk_names 0 = Some blk0 ->
    (0 <= s0 <= e0)%Z ->
    (e0 <= Z.of_nat (length lines))%Z ->
    exists names rows first last,
      for_each (enumerate 1 lines) (read_line h 0 0) (col_names, [])
      = Ok (names, rows)
      /\ first_samps rec = [first]
      /\ last_samps rec = [last]
      /\ (last - first + 1)%Z = Z.of_nat (length rows * length blk0).
Proof.
  intros fname datatype preload files_key mtg_names blk_names dts h rec
         s0 e0 blk0 lines col_names H Hft Hs He Hb Hord Hlines.
  apply finish_init_invariants in H.
  destruct H as (labels & rate & s0' & e0' & n & ft0 & blk0' & -> & _ & _
                 & Hs' & He' & Hft' & Hb' & Hn).
  rewrite Hs in Hs'. rewrite He in He'. rewrite Hft in Hft'. rewrite Hb in Hb'.
  inversion Hs'. inversion He'. inversion Hft'. inversion Hb'. subst.
  eexists _, _, 0%Z, _. split; [| split; [| split]].
  - apply (read_loop_rows_and_names h 0 0 s0' s0' e0' lines col_names Hs Hs He).
  - reflexivity.
  - reflexivity.
  - rewrite length_map, length_firstn, length_skipn. nia.
Qed.

(** X16: a non-parsed first file without sources.  When the first file is of
    the non-parsed layout and its header gives zero sources, no recording is
    returned: the sample count would be divided by zero. *)
Theorem nonparsed_without_sources_fails :
  forall (fname datatype : string) (preload : bool)
         (files_key mtg_names : list string) (blk_names : list (list string))
         (dts : list string) (h : header),
    Py.get (filetype h) 0 = Some NonParsed ->
    Py.get (source_num h) 0 = Some 0%Z ->
    exists err,
      outcome (finish_init fname datatype preload files_key mtg_names blk_names
                           dts h) = Raise err.
Proof.
  intros fname datatype preload files_key mtg_names blk_names dts h Hft Hsrc.
  destruct (outcome (finish_init fname datatype preload files_key mtg_names
                                 blk_names dts h)) as [err | rec] eqn:H.
  - exists err. reflexivity.
  - apply finish_init_invariants in H.
    destruct H as (labels & rate & s0 & e0 & n & ft0 & blk0 & _ & _ & _
                   & _ & _ & Hft' & _ & Hn).
    rewrite Hft in Hft'. inversion Hft'. subst ft0.
    destruct Hn as (source0 & Hs0 & Hnz & _).
    rewrite Hsrc in Hs0. inversion Hs0. congruence.
Qed.

End Recording.

(* ================================================================= *)
(** ** The further properties on the samples *)

(** X1 on the sample file: a line after the terminator changes nothing. *)
Lemma scan_stops_at_terminator_witness :
  scan_lines (FM := DecimalFloat.model) 0 1
             (Samples.unterminated_file "50.0" 4
                ++ ("#DATA ENDS" ++ Samples.nl)%string :: [])
             (Header [] [] [] [] [] [] [] [Parsed])
  = scan_lines (FM := DecimalFloat.model) 0 1
               (Samples.unterminated_file "50.0" 4
                  ++ ("#DATA ENDS" ++ Samples.nl)%string
                  :: ["7 Detector Channels"])
               (Header [] [] [] [] [] [] [] [Parsed]).
Proof.
  apply (scan_stops_at_terminator (FM := DecimalFloat.model) 0 1
           (Samples.unterminated_file "50.0" 4)
           ("#DATA ENDS" ++ Samples.nl)%string [] ["7 Detector Channels"]
           (Header [] [] [] [] [] [] [] [Parsed])).
  vm_compute. reflexivity.
Defined.

(** X2 on a non-parsed file: its tag is the one its lines give. *)
Lemma layout_tag_of_each_file_witness :
  exists h,
    outcome (scan_files (FM := DecimalFloat.model)
               (Samples.one_file "rec/a.txt"
                  (Samples.nonparsed_file Samples.record_per_cycle 6))
               ["rec/a.txt"]) = Ok h
    /\ nth_error (filetype h) 0
       = Some (layout_after Parsed
                 (Samples.nonparsed_file Samples.record_per_cycle 6)).
Proof.
  eexists. split.
  - vm_compute. reflexivity.
  - apply (layout_tag_of_each_file (FM := DecimalFloat.model)
             (Samples.one_file "rec/a.txt"
                (Samples.nonparsed_file Samples.record_per_cycle 6))
             ["rec/a.txt"] _ ltac:(vm_compute; reflexivity)
             0%nat "rec/a.txt"
             (Samples.nonparsed_file Samples.record_per_cycle 6));
      reflexivity.
Defined.

(** X3 on the two montages whose data start on different lines. *)
Lemma data_bounds_aligned_with_files_witness :
  exists h,
    outcome (scan_files (FM := DecimalFloat.model) Samples.two_montages
                        ["rec/xa.001"; "rec/xb.001"]) = Ok h
    /\ start_line h = map (fun be => fst be + 2)%Z [(7, 14); (8, 15)]%Z
    /\ end_line h = map (fun be => snd be - 1)%Z [(7, 14); (8, 15)]%Z.
Proof.
  apply (data_bounds_aligned_with_files (FM := DecimalFloat.model)
           Samples.two_montages ["rec/xa.001"; "rec/xb.001"]
           [(7, 14); (8, 15)]%Z).
  constructor; [| constructor; [| constructor]].
  - exists (Samples.parsed_file "50.0" 4). split; [reflexivity |].
    exists (Samples.unterminated_file "50.0" 4),
           ("#DATA ENDS" ++ Samples.nl)%string, [].
    repeat (split; [vm_compute; reflexivity |]). vm_compute. reflexivity.
  - exists Samples.shifted_file. split; [reflexivity |].
    exists (("#NOTE" ++ Samples.nl)%string
              :: Samples.unterminated_file "50.0" 4),
           ("#DATA ENDS" ++ Samples.nl)%string, [].
    repeat (split; [vm_compute; reflexivity |]). vm_compute. reflexivity.
Defined.

(** X5 on the sample of two montages. *)
Lemma labels_counted_and_distinct_witness :
  length Samples.two_montages_labels
  = rows_from (FM := DecimalFloat.model) Samples.two_montages_header [["001"]; ["001"]] 0
              (length ["a"; "b"])
  /\ NoDup Samples.two_montages_labels.
Proof.
  apply (labels_counted_and_distinct (FM := DecimalFloat.model)
           Samples.two_montages_header ["a"; "b"] [["001"]; ["001"]]
           Samples.two_montages_labels).
  vm_compute. reflexivity.
Defined.

(** X6 on two blocks of two rows. *)
Lemma hstack_rows_side_by_side_witness :
  Forall (fun blk : list (list (cell (Z * nat))) =>
            length blk = length [[Num (1%Z, O)]; [Num (2%Z, O)]])
         [[[Num (3%Z, O)]; [Num (4%Z, O)]]]
  /\ [[Num (1%Z, O); Num (3%Z, O)]; [Num (2%Z, O); Num (4%Z, O)]]
     = map (fun i =>
              concat (map (fun blk => nth i blk [])
                          ([[Num (1%Z, O)]; [Num (2%Z, O)]]
                             :: [[[Num (3%Z, O)]; [Num (4%Z, O)]]])))
           (seq 0 (length [[Num (1%Z, O)]; [Num (2%Z, O)]])).
Proof.
  apply (proj1 (hstack_rows_side_by_side (FM := DecimalFloat.model)
                  [[Num (1%Z, O)]; [Num (2%Z, O)]]
                  [[[Num (3%Z, O)]; [Num (4%Z, O)]]]
                  [[Num (1%Z, O); Num (3%Z, O)];
                   [Num (2%Z, O); Num (4%Z, O)]])).
  reflexivity.
Defined.

(** X7 on the sample parsed file of 100 rows. *)
Lemma read_segment_file_keeps_shape_witness :
  length (map (column (FM := DecimalFloat.model) (Samples.parsed_array 100))
              [1; 2; 3; 4; 5; 6]%nat) = 6%nat
  /\ Forall (fun row => length row = 100%nat)
            (map (column (FM := DecimalFloat.model) (Samples.parsed_array 100))
                 [1; 2; 3; 4; 5; 6]%nat).
Proof.
  apply (read_segment_file_keeps_shape (FM := DecimalFloat.model)
           (Samples.one_file "rec/a.txt" (Samples.parsed_file "50.0" 100))
           Samples.parsed_recording 6 100 [] 0 0 99 [] None).
  vm_compute. reflexivity.
Defined.

(** X8 on an array of two rows and two columns. *)
Lemma assign_all_same_shape_witness :
  assign_all (FM := DecimalFloat.model) 2 2
             [[Num (1%Z, O); Num (2%Z, O)]; [Num (3%Z, O); Num (4%Z, O)]]
  = Ok [[Num (1%Z, O); Num (2%Z, O)]; [Num (3%Z, O); Num (4%Z, O)]].
Proof.
  apply (assign_all_same_shape (FM := DecimalFloat.model) 2 2
           [[Num (1%Z, O); Num (2%Z, O)]; [Num (3%Z, O); Num (4%Z, O)]]).
  reflexivity.
Defined.

(** X9 on the first file of the sample of two montages. *)
Lemma read_loop_rows_and_names_witness :
  for_each (enumerate 1 (Samples.parsed_file "50.0" 4))
           (read_line (FM := DecimalFloat.model) Samples.two_montages_header
                      0 0)
           (None, [])
  = Ok (match line_from 1 (Samples.parsed_file "50.0" 4) (9 - 1) with
        | Some i_line =>
            Some (Re.findall Re.match_colname
                             (Py.item0 (Py.rsplit_space i_line)))
        | None => None
        end,
        map Py.rsplit_space
            (firstn (Z.to_nat 13 - Z.to_nat 9)
                    (skipn (Z.to_nat 9) (Samples.parsed_file "50.0" 4)))).
Proof.
  apply (read_loop_rows_and_names (FM := DecimalFloat.model)
           Samples.two_montages_header 0 0 9 9 13
           (Samples.parsed_file "50.0" 4) None);
    reflexivity.
Defined.

(** X10 on the rows of the sample parsed file. *)
Lemma boxy_array_rectangular_witness :
  length (Samples.parsed_array 4)
  = length (map (fun i_row => Re.findall Re.match_number (Py.item0 i_row))
                (map Py.rsplit_space (map Samples.parsed_row (seq 0 4))))
  /\ Forall (fun row => length row = 7%nat) (Samples.parsed_array 4)
  /\ Forall (fun i_data => (length i_data <= 7)%nat)
            (map (fun i_row => Re.findall Re.match_number (Py.item0 i_row))
                 (map Py.rsplit_space (map Samples.parsed_row (seq 0 4)))).
Proof.
  apply (boxy_array_rectangular (FM := DecimalFloat.model) 7
           (map (fun i_row => Re.findall Re.match_number (Py.item0 i_row))
                (map Py.rsplit_space (map Samples.parsed_row (seq 0 4))))
           (Samples.parsed_array 4)).
  vm_compute. reflexivity.
Defined.

(** X11 on the sample parsed file: two detectors, three sources. *)
Lemma parsed_block_is_columns_witness :
  assemble_block (FM := DecimalFloat.model) Samples.two_montages_header
                 ["AC"] 0 (Some Samples.parsed_cols)
                 (map Py.rsplit_space (map Samples.parsed_row (seq 0 4)))
  = Ok (flat_map
          (fun d =>
             map (fun s => column (FM := DecimalFloat.model)
                                  (Samples.parsed_array 4) (1 + 3 * d + s))
                 (seq 0 3))
          (seq 0 2)).
Proof.
  apply (parsed_block_is_columns (FM := DecimalFloat.model)
           Samples.two_montages_header "AC" 0 2 3 Samples.parsed_cols
           (map Py.rsplit_space (map Samples.parsed_row (seq 0 4)))
           (Samples.parsed_array 4) (fun d s => 1 + 3 * d + s)%nat).
  - reflexivity.
  - reflexivity.
  - reflexivity.
  - lia.
  - vm_compute. reflexivity.
  - intros [| [| d]] [| [| [| s]]] Hd Hs; try lia; reflexivity.
Defined.

(** X12 on the sample parsed file. *)
Lemma parsed_block_needs_names_witness :
  exists cols,
    Some Samples.parsed_cols = Some cols
    /\ forall i_data i_detect i_source,
        In i_data ["AC"] ->
        In i_detect (Py.slice_to detectors 2) ->
        In i_source (Py.arange 1 (3 + 1) 1) ->
        exists k,
          Py.index_of (i_detect ++ "-" ++ i_data ++ Py.str_Z i_source) cols
          = Some k.
Proof.
  apply (parsed_block_needs_names (FM := DecimalFloat.model)
           Samples.two_montages_header ["AC"] 0 (Some Samples.parsed_cols)
           (map Py.rsplit_space (map Samples.parsed_row (seq 0 4)))
           (map (column (FM := DecimalFloat.model) (Samples.parsed_array 4))
                [1; 2; 3; 4; 5; 6]%nat)
           2 3).
  - vm_compute. reflexivity.
  - reflexivity.
  - reflexivity.
  - reflexivity.
Defined.

(** X13 on the sample of two montages. *)
Lemma scan_opens_each_file_once_witness :
  trace (scan_files (FM := DecimalFloat.model) Samples.two_montages_alike
                    ["rec/xa.001"; "rec/xb.001"])
  = map Open ["rec/xa.001"; "rec/xb.001"].
Proof.
  apply (scan_opens_each_file_once (FM := DecimalFloat.model)
           Samples.two_montages_alike ["rec/xa.001"; "rec/xb.001"]
           Samples.two_montages_header).
  vm_compute. reflexivity.
Defined.

(** X14 on the recording of the sample parsed file. *)
Lemma loaded_recording_invariants_witness :
  Py.mem "AC" ["AC"; "DC"; "Ph"] = true
  /\ filenames Samples.parsed_recording = ["rec"]
  /\ first_samps Samples.parsed_recording = [0%Z]
  /\ rec_preload Samples.parsed_recording = false
  /\ NoDup (ch_names (rec_info Samples.parsed_recording))
  /\ ch_types (rec_info Samples.parsed_recording)
     = map (fun _ => if String.eqb "AC" "Ph" then fnirs_fd_phase
                     else fnirs_cw_amplitude)
           (ch_names (rec_info Samples.parsed_recording))
  /\ exists ex last,
      extras Samples.parsed_recording = [ex]
      /\ last_samps Samples.parsed_recording = [last]
      /\ data_types ex = ["AC"]
      /\ files ex
         = Py.sort (glob_matches
                      (Samples.one_file "rec/a.txt"
                         (Samples.parsed_file "50.0" 100))
                      ("rec" ++ "/*" ++ (if false then "*.[000-999]*"
                                         else "*.txt")))
      /\ outcome (scan_files (FM := DecimalFloat.model)
                    (Samples.one_file "rec/a.txt"
                       (Samples.parsed_file "50.0" 100))
                    (files ex)) = Ok (scanned ex)
      /\ length (ch_names (rec_info Samples.parsed_recording))
         = rows_from (FM := DecimalFloat.model) (scanned ex) (blocks ex) 0
                     (length (montages ex)).
Proof.
  apply (loaded_recording_invariants (FM := DecimalFloat.model)
           (Samples.one_file "rec/a.txt" (Samples.parsed_file "50.0" 100))
           "rec" "AC" false false Samples.parsed_recording).
  vm_compute. reflexivity.
Defined.

(** X15 on the sample parsed file of 100 rows: 100 samples, 100 rows. *)
Lemma parsed_samples_match_rows_witness :
  exists names rows first last,
    for_each (enumerate 1 (Samples.parsed_file "50.0" 100))
             (read_line (FM := DecimalFloat.model)
                (Header [2%Z] [3%Z] [0%Z] [(1100%Z, 1%nat)] [(500%Z, 1%nat)]
                        [9%Z] [109%Z] [Parsed]) 0 0)
             (None, [])
    = Ok (names, rows)
    /\ first_samps Samples.parsed_recording = [first]
    /\ last_samps Samples.parsed_recording = [last]
    /\ (last - first + 1)%Z = Z.of_nat (length rows * length ["001"]).
Proof.
  apply (parsed_samples_match_rows (FM := DecimalFloat.model)
           "rec" "AC" false ["rec/a.txt"] ["a"] [["001"]] ["AC"]
           (Header [2%Z] [3%Z] [0%Z] [(1100%Z, 1%nat)] [(500%Z, 1%nat)]
                   [9%Z] [109%Z] [Parsed])
           Samples.parsed_recording 9 109 ["001"]
           (Samples.parsed_file "50.0" 100) None).
  - vm_compute. reflexivity.
  - reflexivity.
  - reflexivity.
  - reflexivity.
  - reflexivity.
  - lia.
  - vm_compute. discriminate.
Defined.

(** X16 on a header of the non-parsed layout with no source. *)
Lemma nonparsed_without_sources_fails_witness :
  exists err,
    outcome (finish_init (FM := DecimalFloat.model)
               "rec" "AC" false ["rec/a.txt"] ["a"] [["001"]] ["AC"]
               (Header [1%Z] [0%Z] [0%Z] [(1100%Z, 1%nat)] [(500%Z, 1%nat)]
                       [9%Z] [13%Z] [NonParsed]))
    = Raise err.
Proof.
  apply (nonparsed_without_sources_fails (FM := DecimalFloat.model)
           "rec" "AC" false ["rec/a.txt"] ["a"] [["001"]] ["AC"]
           (Header [1%Z] [0%Z] [0%Z] [(1100%Z, 1%nat)] [(500%Z, 1%nat)]
                   [9%Z] [13%Z] [NonParsed]));
    reflexivity.
Defined.
